(** * OwnU backend: authentication ceremonies, envelope encryption, transaction sync

    A shallow embedding of the Go backend of OwnU:

    - [internal/crypto]  (keys.go): key derivation, recovery phrases, DEK wrapping;
    - [internal/auth]    (session store of in-flight WebAuthn ceremonies);
    - [internal/repository] (users, credentials, Plaid items / accounts / syncs);
    - [internal/api]: the HTTP handlers [beginRegistration],
      [finishRegistration], [beginLogin], [finishLogin], [syncTransactions]
      with [processPlaidTransaction], and the helper [decryptDEK];
    - [internal/api], behind the middleware: [jwtMiddleware], the handlers
      [deleteAccount], [deletePlaidItem] and [deleteUserAccount], the
      [credentialReader], and of security.go [buildHSTSValue] and the
      [RateLimiter];
    - [internal/audit]: the [FileLogger] with [Log] and [Query].

    Go strings are [string], [[]byte] is [list byte], unsigned integers are
    [N], [int] is [Z].  Handlers are state transformers on
    a [Server] value that gathers the process state the handlers touch: the
    package-level session store, the database tables, the operating-system
    entropy source and the uuid supply.

    External libraries (Argon2id, the AEAD behind Encrypt/Decrypt, go-webauthn,
    the Plaid client) are interfaces here, as they are for the Go code. *)

From Stdlib Require Import NArith ZArith List Bool Lia.
From Stdlib Require Import Strings.String Strings.Ascii Strings.Byte.
From stdpp Require Import base option list gmap strings.

Import ListNotations.
Local Open Scope string_scope.
Local Open Scope list_scope.

(* ===================================================================== *)
(** * Bytes, strings and the Go standard library                          *)
(* ===================================================================== *)

Abbreviation bytes := (list byte).

#[global] Instance byte_eq_dec : EqDecision byte := Byte.byte_eq_dec.

(** [N] to [byte], keeping the low eight bits (a Go [byte(x)] conversion). *)
Definition byte_of_N (n : N) : byte :=
  match Byte.of_N (n mod 256) with
  | Some b => b
  | None => x00
  end.

(** [[]byte(s)] and [string(b)]. *)
Definition bytes_of_string (s : string) : bytes := list_byte_of_string s.
Definition string_of_bytes (b : bytes) : string := string_of_list_byte b.

(** ** package strings

    The functions below follow Go's [strings] package on ASCII text, where
    Go itself takes its ASCII fast path: [asciiSpace] is the set
    [{'\t', '\n', '\v', '\f', '\r', ' '}] and only ['A'..'Z'] have a lower
    case.  Bytes from 0x80 on are left alone. *)

Definition isSpace (c : ascii) : bool :=
  let n := N_of_ascii c in
  ((9 <=? n) && (n <=? 13))%N || (n =? 32)%N.

Definition isUpper (c : ascii) : bool :=
  let n := N_of_ascii c in ((65 <=? n) && (n <=? 90))%N.

Definition toLowerChar (c : ascii) : ascii :=
  if isUpper c then ascii_of_N (N_of_ascii c + 32) else c.

Fixpoint ToLower (s : string) : string :=
  match s with
  | EmptyString => EmptyString
  | String c s' => String (toLowerChar c) (ToLower s')
  end.

Fixpoint TrimLeft (s : string) : string :=
  match s with
  | EmptyString => EmptyString
  | String c s' => if isSpace c then TrimLeft s' else s
  end.

Fixpoint TrimRight (s : string) : string :=
  match s with
  | EmptyString => EmptyString
  | String c s' =>
      match TrimRight s' with
      | EmptyString => if isSpace c then EmptyString else String c EmptyString
      | r => String c r
      end
  end.

Definition TrimSpace (s : string) : string := TrimRight (TrimLeft s).

(** [strings.Fields]: the maximal runs of non-space characters. *)
Fixpoint fieldsFrom (s : string) (cur : string) : list string :=
  match s with
  | EmptyString => match cur with EmptyString => [] | _ => [cur] end
  | String c s' =>
      if isSpace c
      then match cur with
           | EmptyString => fieldsFrom s' EmptyString
           | _ => cur :: fieldsFrom s' EmptyString
           end
      else fieldsFrom s' (cur ++ String c EmptyString)
  end.

Definition Fields (s : string) : list string := fieldsFrom s EmptyString.

Fixpoint Join (elems : list string) (sep : string) : string :=
  match elems with
  | [] => EmptyString
  | [a] => a
  | a :: rest => a ++ sep ++ Join rest sep
  end.

(** ** package encoding/hex *)

Definition hexDigit (n : N) : ascii :=
  if (n <? 10)%N then ascii_of_N (48 + n) else ascii_of_N (87 + n).

Fixpoint hex_EncodeToString (b : bytes) : string :=
  match b with
  | [] => EmptyString
  | x :: b' =>
      let n := Byte.to_N x in
      String (hexDigit (n / 16)) (String (hexDigit (n mod 16)) (hex_EncodeToString b'))
  end.

(** ** package encoding/base64 (StdEncoding: padded, alphabet [A-Za-z0-9+/]) *)

Definition b64Char (n : N) : ascii :=
  if (n <? 26)%N then ascii_of_N (65 + n)
  else if (n <? 52)%N then ascii_of_N (71 + n)
  else if (n <? 62)%N then ascii_of_N (n - 4)
  else if (n =? 62)%N then "+"%char else "/"%char.

Definition b64Value (c : ascii) : option N :=
  let n := N_of_ascii c in
  if ((65 <=? n) && (n <=? 90))%N then Some (n - 65)%N
  else if ((97 <=? n) && (n <=? 122))%N then Some (n - 71)%N
  else if ((48 <=? n) && (n <=? 57))%N then Some (n + 4)%N
  else if (n =? 43)%N then Some 62%N
  else if (n =? 47)%N then Some 63%N
  else None.

Fixpoint base64_EncodeToString (b : bytes) : string :=
  match b with
  | [] => EmptyString
  | [x] =>
      let n := (Byte.to_N x * 65536)%N in
      String (b64Char (n / 262144)) (String (b64Char ((n / 4096) mod 64)) "==")
  | [x; y] =>
      let n := (Byte.to_N x * 65536 + Byte.to_N y * 256)%N in
      String (b64Char (n / 262144)) (String (b64Char ((n / 4096) mod 64))
        (String (b64Char ((n / 64) mod 64)) "="))
  | x :: y :: z :: b' =>
      let n := (Byte.to_N x * 65536 + Byte.to_N y * 256 + Byte.to_N z)%N in
      String (b64Char (n / 262144)) (String (b64Char ((n / 4096) mod 64))
        (String (b64Char ((n / 64) mod 64)) (String (b64Char (n mod 64))
          (base64_EncodeToString b'))))
  end.

(** The decoder passes over carriage returns and line feeds wherever they
    stand. *)
Definition isNewline (c : ascii) : bool :=
  ((N_of_ascii c =? 13) || (N_of_ascii c =? 10))%N.

Fixpoint skipNewlines (s : string) : string :=
  match s with
  | EmptyString => EmptyString
  | String c s' => if isNewline c then skipNewlines s' else String c (skipNewlines s')
  end.

(** The quanta of four characters; [None] for Go's [CorruptInputError]. *)
Fixpoint decodeQuanta (s : string) : option bytes :=
  match s with
  | EmptyString => Some []
  | String c1 (String c2 (String c3 (String c4 s'))) =>
      match b64Value c1, b64Value c2 with
      | Some v1, Some v2 =>
          match b64Value c3, b64Value c4 with
          | Some v3, Some v4 =>
              let n := (v1 * 262144 + v2 * 4096 + v3 * 64 + v4)%N in
              match decodeQuanta s' with
              | Some rest =>
                  Some (byte_of_N (n / 65536) :: byte_of_N (n / 256) :: byte_of_N n :: rest)
              | None => None
              end
          | Some v3, None =>
              if (Ascii.eqb c4 "="%char) && (String.eqb s' EmptyString)
              then let n := (v1 * 262144 + v2 * 4096 + v3 * 64)%N in
                   Some [byte_of_N (n / 65536); byte_of_N (n / 256)]
              else None
          | None, _ =>
              if (Ascii.eqb c3 "="%char) && (Ascii.eqb c4 "="%char)
                 && (String.eqb s' EmptyString)
              then let n := (v1 * 262144 + v2 * 4096)%N in
                   Some [byte_of_N (n / 65536)]
              else None
          end
      | _, _ => None
      end
  | _ => None
  end.

(** [base64.StdEncoding.DecodeString]. *)
Definition base64_DecodeString (s : string) : option bytes :=
  decodeQuanta (skipNewlines s).

(** ** package crypto/sha256 (FIPS 180-4), on 32-bit words held in [N] *)

Module SHA256.
Local Open Scope N_scope.

Definition w32 (x : N) : N := x mod 4294967296.
Definition add32 (a b : N) : N := w32 (a + b).
Definition rotr (n x : N) : N := N.lor (N.shiftr x n) (w32 (N.shiftl x (32 - n))).
Definition not32 (x : N) : N := N.lxor x 4294967295.

Definition Ch (e f g : N) : N := N.lxor (N.land e f) (N.land (not32 e) g).
Definition Maj (a b c : N) : N :=
  N.lxor (N.lxor (N.land a b) (N.land a c)) (N.land b c).
Definition Sigma0 (x : N) : N := N.lxor (N.lxor (rotr 2 x) (rotr 13 x)) (rotr 22 x).
Definition Sigma1 (x : N) : N := N.lxor (N.lxor (rotr 6 x) (rotr 11 x)) (rotr 25 x).
Definition sigma0 (x : N) : N := N.lxor (N.lxor (rotr 7 x) (rotr 18 x)) (N.shiftr x 3).
Definition sigma1 (x : N) : N := N.lxor (N.lxor (rotr 17 x) (rotr 19 x)) (N.shiftr x 10).

(** The round constants: the first 32 bits of the fractional parts of the
    cube roots of the first 64 primes. *)
Definition K : list N :=
  [
   1116352408; 1899447441; 3049323471; 3921009573; 961987163; 1508970993;
   2453635748; 2870763221; 3624381080; 310598401; 607225278; 1426881987;
   1925078388; 2162078206; 2614888103; 3248222580; 3835390401; 4022224774;
   264347078; 604807628; 770255983; 1249150122; 1555081692; 1996064986;
   2554220882; 2821834349; 2952996808; 3210313671; 3336571891; 3584528711;
   113926993; 338241895; 666307205; 773529912; 1294757372; 1396182291;
   1695183700; 1986661051; 2177026350; 2456956037; 2730485921; 2820302411;
   3259730800; 3345764771; 3516065817; 3600352804; 4094571909; 275423344;
   430227734; 506948616; 659060556; 883997877; 958139571; 1322822218;
   1537002063; 1747873779; 1955562222; 2024104815; 2227730452; 2361852424;
   2428436474; 2756734187; 3204031479; 3329325298
  ].

Definition digest : Type := N * N * N * N * N * N * N * N.

Definition init : digest :=
  (1779033703, 3144134277, 1013904242, 2773480762,
   1359893119, 2600822924, 528734635, 1541459225).

(** Message padding: 0x80, zeros up to 56 mod 64, the bit length on 8 bytes. *)
Fixpoint be_bytes (n : nat) (x : N) : list N :=
  match n with
  | O => []
  | S n' => (x / 256 ^ N.of_nat n') mod 256 :: be_bytes n' x
  end.

Definition pad (msg : list N) : list N :=
  let len := N.of_nat (length msg) in
  let zeros := (119 - len mod 64) mod 64 in
  msg ++ [128] ++ repeat 0 (N.to_nat zeros) ++ be_bytes 8 (8 * len).

Fixpoint words (l : list N) : list N :=
  match l with
  | a :: b :: c :: d :: l' => (a * 16777216 + b * 65536 + c * 256 + d) :: words l'
  | _ => []
  end.

(** The message schedule, newest word first. *)
Fixpoint extend (n : nat) (rw : list N) : list N :=
  match n with
  | O => rw
  | S n' =>
      let x := add32 (add32 (sigma1 (nth 1 rw 0)) (nth 6 rw 0))
                     (add32 (sigma0 (nth 14 rw 0)) (nth 15 rw 0)) in
      extend n' (x :: rw)
  end.

Definition schedule (block : list N) : list N :=
  rev (extend 48 (rev (words block))).

Definition round (st : digest) (kw : N * N) : digest :=
  let '(a, b, c, d, e, f, g, h) := st in
  let t1 := add32 (add32 (add32 h (Sigma1 e)) (add32 (Ch e f g) (fst kw))) (snd kw) in
  let t2 := add32 (Sigma0 a) (Maj a b c) in
  (add32 t1 t2, a, b, c, add32 d t1, e, f, g).

Definition compress (st : digest) (block : list N) : digest :=
  let '(a, b, c, d, e, f, g, h) := st in
  let '(a', b', c', d', e', f', g', h') :=
    fold_left round (combine K (schedule block)) st in
  (add32 a a', add32 b b', add32 c c', add32 d d',
   add32 e e', add32 f f', add32 g g', add32 h h').

Fixpoint blocks (n : nat) (l : list N) (st : digest) : digest :=
  match n with
  | O => st
  | S n' => blocks n' (skipn 64 l) (compress st (firstn 64 l))
  end.

Definition word_bytes (x : N) : bytes :=
  [byte_of_N (x / 16777216); byte_of_N (x / 65536); byte_of_N (x / 256); byte_of_N x].

(** [sha256.Sum256]. *)
Definition Sum256 (msg : bytes) : bytes :=
  let p := pad (map Byte.to_N msg) in
  let '(a, b, c, d, e, f, g, h) := blocks (length p / 64) p init in
  word_bytes a ++ word_bytes b ++ word_bytes c ++ word_bytes d ++
  word_bytes e ++ word_bytes f ++ word_bytes g ++ word_bytes h.
End SHA256.

(* ===================================================================== *)
(** * Errors and the entropy source                                       *)
(* ===================================================================== *)

(** Go [error] values: [errors.New] and [fmt.Errorf] with [%w]. *)
Inductive error : Type :=
| errorString (msg : string)
| wrapError (prefix : string) (cause : error).

Fixpoint Error (e : error) : string :=
  match e with
  | errorString msg => msg
  | wrapError prefix cause => prefix ++ ": " ++ Error cause
  end.

#[global] Instance error_eq_dec : EqDecision error.
Proof. solve_decision. Defined.

(** [errors.Is] along the chain that [%w] builds. *)
Fixpoint errors_Is (err target : error) : bool :=
  bool_decide (err = target)
  || match err with
     | errorString _ => false
     | wrapError _ cause => errors_Is cause target
     end.

(** A [context.Context] as a call finds it: alive, or done with the error
    that [ctx.Err()] answers.  A context that is done stays done. *)
Inductive Context : Type :=
| alive
| done (err : error).

Definition context_Canceled : error := errorString "context canceled".

Inductive result (A : Type) : Type :=
| Ok (a : A)
| Err (e : error).
Arguments Ok {A} a.
Arguments Err {A} e.

#[global] Instance result_eq_dec {A} `{EqDecision A} : EqDecision (result A).
Proof. solve_decision. Defined.

(** [crypto/rand.Reader]: the bytes the operating system will hand out, in
    order.  A computation that draws randomness consumes a prefix.  The
    reader has no end of file: where the bytes of a run stop, the system
    call behind the reader has failed, and the read answers that error.
    The statements about drawn values are made for runs in which the
    system hands out the bytes asked for. *)
Definition Rand (A : Type) : Type := bytes -> result A * bytes.

(** The error of a failed read of the system's random source; its text
    depends on the operating system. *)
Definition ErrRandomSource : error := errorString "crypto/rand: read failed".

(** [io.ReadFull(rand.Reader, buf)] with [len(buf) = n].  [io.ReadFull]
    passes the reader's error on as it is; it answers [io.EOF] or
    [io.ErrUnexpectedEOF] only for a reader that reports an end of file,
    which [rand.Reader] never does. *)
Definition ReadFull (n : nat) : Rand bytes := fun ent =>
  if (n <=? length ent)%nat
  then (Ok (firstn n ent), skipn n ent)
  else (Err ErrRandomSource, []).

(* ===================================================================== *)
(** * package crypto                                                      *)
(* ===================================================================== *)

(** The primitives the package takes from [golang.org/x/crypto/argon2] and
    from an AEAD cipher ([cipher.AEAD]: [Seal] and [Open] with a nonce and no
    additional data). *)
Class CryptoLib : Type := {
  argon2_IDKey : bytes -> bytes -> N -> N -> N -> N -> bytes;
  aead_Seal : bytes -> bytes -> bytes -> bytes;
  aead_Open : bytes -> bytes -> bytes -> option bytes;
}.

Module crypto.

Definition argonTime : N := 3.
Definition argonMemory : N := 64 * 1024.
Definition argonThreads : N := 4.
Definition argonKeyLen : N := 32.

Definition wordList : list string :=
  [
   "abandon"; "ability"; "able"; "about"; "above"; "absent"; "absorb"; "abstract";
   "absurd"; "abuse"; "access"; "accident"; "account"; "accuse"; "achieve"; "acid";
   "acoustic"; "acquire"; "across"; "act"; "action"; "actor"; "actress"; "actual";
   "adapt"; "add"; "addict"; "address"; "adjust"; "admit"; "adult"; "advance";
   "advice"; "aerobic"; "affair"; "afford"; "afraid"; "again"; "age"; "agent";
   "agree"; "ahead"; "aim"; "air"; "airport"; "aisle"; "alarm"; "album";
   "alcohol"; "alert"; "alien"; "all"; "alley"; "allow"; "almost"; "alone";
   "alpha"; "already"; "also"; "alter"; "always"; "amateur"; "amazing"; "among";
   "amount"; "amused"; "analyst"; "anchor"; "ancient"; "anger"; "angle"; "angry";
   "animal"; "ankle"; "announce"; "annual"; "another"; "answer"; "antenna"; "antique";
   "anxiety"; "any"; "apart"; "apology"; "appear"; "apple"; "approve"; "april";
   "arch"; "arctic"; "area"; "arena"; "argue"; "arm"; "armed"; "armor";
   "army"; "around"; "arrange"; "arrest"; "arrive"; "arrow"; "art"; "artefact";
   "artist"; "artwork"; "ask"; "aspect"; "assault"; "asset"; "assist"; "assume";
   "asthma"; "athlete"; "atom"; "attack"; "attend"; "attitude"; "attract"; "auction";
   "audit"; "august"; "aunt"; "author"; "auto"; "autumn"; "average"; "avocado";
   "avoid"; "awake"; "aware"; "away"; "awesome"; "awful"; "awkward"; "axis";
   "baby"; "bachelor"; "bacon"; "badge"; "bag"; "balance"; "balcony"; "ball";
   "bamboo"; "banana"; "banner"; "bar"; "barely"; "bargain"; "barrel"; "base";
   "basic"; "basket"; "battle"; "beach"; "bean"; "beauty"; "because"; "become";
   "beef"; "before"; "begin"; "behave"; "behind"; "believe"; "below"; "belt";
   "bench"; "benefit"; "best"; "betray"; "better"; "between"; "beyond"; "bicycle";
   "bid"; "bike"; "bind"; "biology"; "bird"; "birth"; "bitter"; "black";
   "blade"; "blame"; "blanket"; "blast"; "bleak"; "bless"; "blind"; "blood";
   "blossom"; "blouse"; "blue"; "blur"; "blush"; "board"; "boat"; "body";
   "boil"; "bomb"; "bone"; "bonus"; "book"; "boost"; "border"; "boring";
   "borrow"; "boss"; "bottom"; "bounce"; "box"; "boy"; "bracket"; "brain";
   "brand"; "brass"; "brave"; "bread"; "breeze"; "brick"; "bridge"; "brief";
   "bright"; "bring"; "brisk"; "broccoli"; "broken"; "bronze"; "broom"; "brother";
   "brown"; "brush"; "bubble"; "buddy"; "budget"; "buffalo"; "build"; "bulb";
   "bulk"; "bullet"; "bundle"; "bunker"; "burden"; "burger"; "burst"; "bus";
   "business"; "busy"; "butter"; "buyer"; "buzz"; "cabbage"; "cabin"; "cable"
  ].

Definition keySize : nat := 32.
Definition saltSize : nat := 16.
Definition nonceSize : nat := 12.
Definition tagSize : nat := 16.

Definition ErrKeyLength : error := errorString "invalid key length".
Definition ErrIntegrity : error := errorString "integrity check failed".

(** [GenerateRecoveryPhrase]: twelve words picked by XOR-ing neighbouring
    entropy bytes. *)
Definition phraseWord (entropy : bytes) (i : nat) : string :=
  let idx := N.lxor (Byte.to_N (nth (i mod 16) entropy x00))
                    (Byte.to_N (nth ((i + 1) mod 16) entropy x00)) in
  nth (N.to_nat idx mod length wordList) wordList EmptyString.

Definition GenerateRecoveryPhrase : Rand string := fun ent =>
  match ReadFull 16 ent with
  | (Err e, ent') => (Err (wrapError "failed to generate entropy" e), ent')
  | (Ok entropy, ent') =>
      (Ok (Join (map (phraseWord entropy) (seq 0 12)) " "), ent')
  end.

(** [HashRecoveryPhrase]: SHA-256 of the trimmed, lower-cased phrase. *)
Definition HashRecoveryPhrase (passphrase : string) : bytes :=
  let normalized := ToLower (TrimSpace passphrase) in
  SHA256.Sum256 (bytes_of_string normalized).

(** [VerifyRecoveryPhrase]: the accumulating comparison of the two digests. *)
Definition VerifyRecoveryPhrase (passphrase : string) (storedHash : bytes) : bool :=
  let hash := HashRecoveryPhrase passphrase in
  if negb (length hash =? length storedHash)%nat then false
  else
    let diff :=
      fold_left (fun (diff : N) (hs : byte * byte) =>
                   N.lor diff (N.lxor (Byte.to_N (fst hs)) (Byte.to_N (snd hs))))
                (combine hash storedHash) 0%N in
    (diff =? 0)%N.

(** [GenerateRandomHex]. *)
Definition GenerateRandomHex (byteLen : nat) : Rand string := fun ent =>
  match ReadFull byteLen ent with
  | (Err e, ent') => (Err e, ent')
  | (Ok b, ent') => (Ok (hex_EncodeToString b), ent')
  end.

Section WithLibrary.
Context {CL : CryptoLib}.

(** [DeriveKeyFromSecret]: Argon2id with the package's fixed parameters. *)
Definition DeriveKeyFromSecret (secret salt : bytes) : bytes :=
  argon2_IDKey secret salt argonTime argonMemory argonThreads argonKeyLen.

(** [DeriveKeyFromPassphrase]: normalise (trim, lower-case, collapse
    whitespace) and derive. *)
Definition DeriveKeyFromPassphrase (passphrase : string) (salt : bytes) : bytes :=
  let words := Fields (ToLower (TrimSpace passphrase)) in
  let normalized := Join words " " in
  DeriveKeyFromSecret (bytes_of_string normalized) salt.

(** Modelled from the spec: [Encrypt] (its source file is not part of the
    tree; only its tests and callers are).  Authenticated encryption with
    a fresh random nonce per call, the nonce embedded in front of the
    sealed text; a key that is not 32 bytes long is refused. *)
Definition Encrypt (plaintext key : bytes) : Rand bytes := fun ent =>
  if negb (length key =? keySize)%nat then (Err ErrKeyLength, ent)
  else
    match ReadFull nonceSize ent with
    | (Err e, ent') => (Err e, ent')
    | (Ok nonce, ent') => (Ok (nonce ++ aead_Seal key nonce plaintext), ent')
    end.

(** Modelled from the spec: [Decrypt] (source file not part of the tree).
    Fails with the key-length error on a key that is not 32 bytes long,
    and with the integrity error when the ciphertext is shorter than the
    nonce and tag overhead or when the tag does not verify. *)
Definition Decrypt (ciphertext key : bytes) : result bytes :=
  if negb (length key =? keySize)%nat then Err ErrKeyLength
  else if (length ciphertext <? nonceSize + tagSize)%nat then Err ErrIntegrity
  else
    match aead_Open key (firstn nonceSize ciphertext) (skipn nonceSize ciphertext) with
    | Some plaintext => Ok plaintext
    | None => Err ErrIntegrity
    end.

(** Modelled from the spec: [GenerateDEK] and [GenerateSalt] (source file
    not part of the tree): 32 and 16 bytes from the secure random source. *)
Definition GenerateDEK : Rand bytes := ReadFull keySize.
Definition GenerateSalt : Rand bytes := ReadFull saltSize.

(** [EncryptDEK] and [DecryptDEK]. *)
Definition EncryptDEK (dek kek : bytes) : Rand bytes := Encrypt dek kek.
Definition DecryptDEK (encryptedDEK kek : bytes) : result bytes :=
  Decrypt encryptedDEK kek.
End WithLibrary.
End crypto.

(* ===================================================================== *)
(** * Identifiers and time                                                *)
(* ===================================================================== *)

(** [uuid.UUID]: 128 bits.  [time.Time]: nanoseconds on the wall clock. *)
Definition UUID : Type := N.
Definition Time : Type := Z.
Definition Minute : Z := 60 * 1000000000.
Definition Hour : Z := 60 * Minute.

(** [UUID.String()]: the 8-4-4-4-12 hexadecimal form of the sixteen bytes. *)
Definition UUID_bytes (u : UUID) : bytes := map byte_of_N (SHA256.be_bytes 16 u).

Definition UUID_String (u : UUID) : string :=
  let h := hex_EncodeToString (UUID_bytes u) in
  substring 0 8 h ++ "-" ++ substring 8 4 h ++ "-" ++ substring 12 4 h ++ "-"
    ++ substring 16 4 h ++ "-" ++ substring 20 12 h.

(* ===================================================================== *)
(** * go-webauthn: the structures the backend reads and writes            *)
(* ===================================================================== *)

Module webauthn.
Module Authenticator.
Record t : Type := mk { SignCount : N; CloneWarning : bool }.
End Authenticator.

Module Credential.
Record t : Type := mk {
  ID : bytes;
  PublicKey : bytes;
  AttestationType : string;
  Authenticator : Authenticator.t;
}.
End Credential.

Module SessionData.
Record t : Type := mk {
  Challenge : string;
  UserID : bytes;
  AllowedCredentialIDs : list bytes;
}.
End SessionData.

(** [Authenticator.UpdateCounter], as the library defines it: a counter
    that did not increase (unless both are zero) raises the clone warning
    and leaves the stored counter alone; it is not an error. *)
Definition UpdateCounter (a : Authenticator.t) (authDataCount : N) : Authenticator.t :=
  if ((authDataCount <=? Authenticator.SignCount a)%N
      && (negb (authDataCount =? 0)%N || negb (Authenticator.SignCount a =? 0)%N))
  then Authenticator.mk (Authenticator.SignCount a) true
  else Authenticator.mk authDataCount (Authenticator.CloneWarning a).
End webauthn.

(* ===================================================================== *)
(** * package models                                                      *)
(* ===================================================================== *)

Module Credential.
Record t : Type := mk {
  ID : bytes;
  UserID : UUID;
  PublicKey : bytes;
  AttestationType : string;
  SignCount : N;
  CreatedAt : Time;
}.
End Credential.

Module User.
Record t : Type := mk {
  ID : UUID;
  Username : string;
  EncryptedDEK : bytes;
  DEKSalt : bytes;
  RecoveryPhraseHash : bytes;
  CreatedAt : Time;
  UpdatedAt : Time;
  Credentials : list Credential.t;
}.

Definition WebAuthnID (u : t) : bytes := UUID_bytes (ID u).
Definition WebAuthnName (u : t) : string := Username u.

Definition WebAuthnCredentials (u : t) : list webauthn.Credential.t :=
  map (fun c => webauthn.Credential.mk (Credential.ID c) (Credential.PublicKey c)
                  (Credential.AttestationType c)
                  (webauthn.Authenticator.mk (Credential.SignCount c) false))
      (Credentials u).

Definition withCredentials (u : t) (creds : list Credential.t) : t :=
  mk (ID u) (Username u) (EncryptedDEK u) (DEKSalt u) (RecoveryPhraseHash u)
     (CreatedAt u) (UpdatedAt u) creds.
End User.

Module Account.
Record t : Type := mk {
  ID : UUID;
  UserID : UUID;
  EncryptedData : bytes;
  CreatedAt : Time;
  UpdatedAt : Time;
}.
End Account.

Module Transaction.
Record t : Type := mk {
  ID : UUID;
  UserID : UUID;
  AccountID : UUID;
  EncryptedData : bytes;
  CategoryID : option UUID;
  TransactionDate : Time;
  CreatedAt : Time;
}.
End Transaction.

(** [float64] amounts only travel through the code; they are kept as the
    decimal text the provider sent. *)
Definition float64 : Type := string.

Module TransactionData.
Record t : Type := mk {
  Amount : float64;
  Description : string;
  Merchant : string;
  Date : string;
}.
End TransactionData.

Module PlaidItem.
Record t : Type := mk {
  ID : UUID;
  UserID : UUID;
  ItemID : string;
  EncryptedAccessToken : bytes;
  InstitutionID : string;
  InstitutionName : string;
  Cursor : string;
  Status : string;
  UpdatedAt : Time;
}.

Definition withCursor (i : t) (cursor : string) (now : Time) : t :=
  mk (ID i) (UserID i) (ItemID i) (EncryptedAccessToken i) (InstitutionID i)
     (InstitutionName i) cursor (Status i) now.
End PlaidItem.

Module PlaidAccount.
Record t : Type := mk {
  ID : UUID;
  PlaidItemID : UUID;
  UserID : UUID;
  AccountID : option UUID;
  PlaidAccountID : string;
  Name : string;
}.
End PlaidAccount.

Module PlaidSync.
Record t : Type := mk {
  ID : UUID;
  PlaidItemID : UUID;
  UserID : UUID;
  AddedCount : Z;
  ModifiedCount : Z;
  RemovedCount : Z;
  CursorBefore : string;
  CursorAfter : string;
  ErrorMessage : string;
  SyncedAt : Time;
}.
End PlaidSync.

(* ===================================================================== *)
(** * package auth: the ceremony session store                            *)
(* ===================================================================== *)

Module auth.
Module SessionData.
Record t : Type := mk {
  Session : webauthn.SessionData.t;
  Username : string;
  UserID : UUID;
  ExpiresAt : Time;
}.
End SessionData.

Abbreviation SessionStore := (gmap string SessionData.t).

Definition NewSessionStore : SessionStore := ∅.

Definition Save (key : string) (session : webauthn.SessionData.t)
    (username : string) (userID : UUID) (now : Time) (s : SessionStore) : SessionStore :=
  <[key := SessionData.mk session username userID (now + 5 * Minute)%Z]> s.

(** [Get]: an entry past its expiry is not found, though still stored. *)
Definition Get (key : string) (now : Time) (s : SessionStore) : option SessionData.t :=
  match s !! key with
  | Some data => if (SessionData.ExpiresAt data <? now)%Z then None else Some data
  | None => None
  end.

Definition Delete (key : string) (s : SessionStore) : SessionStore := delete key s.

(** One tick of the [cleanup] goroutine. *)
Definition cleanup (now : Time) (s : SessionStore) : SessionStore :=
  filter (fun kv => ¬ (SessionData.ExpiresAt kv.2 < now)%Z) s.
End auth.

(* ===================================================================== *)
(** * package repository                                                  *)
(* ===================================================================== *)

(** The PostgreSQL tables of the migrations, as lists of rows in insertion
    order.  The primary-key and unique constraints of [users] and
    [credentials] and the foreign key of [credentials.user_id] are enforced.
    The writes whose error a handler drops -- [UpdateCredentialSignCount],
    [UpdateItemCursor], [CreateSync] -- also check the values against the
    column types of the migrations; the other statements succeed when they
    meet no key constraint.  [UpdateItemCursor] and [CreateSync] take the
    request's context, which the handler holds across the call to the
    provider; the other methods are read or written as under a context
    that is alive.  A refusal for a reason outside the tables and the
    context (a lost connection) has no counterpart here: what is stated of
    these writes is stated from the result of the call. *)
Module repository.

Record DB : Type := mkDB {
  users : list User.t;
  credentials : list Credential.t;
  accounts : list Account.t;
  transactions : list Transaction.t;
  plaid_items : list PlaidItem.t;
  plaid_accounts : list PlaidAccount.t;
  plaid_syncs : list PlaidSync.t;
}.

Definition ErrNotFound : error := errorString "not found".
Definition ErrNoRows : error := errorString "no rows in result set".
Definition ErrUniqueViolation : error :=
  errorString "duplicate key value violates unique constraint".
Definition ErrForeignKeyViolation : error :=
  errorString "insert or update on table violates foreign key constraint".
Definition ErrIntegerOutOfRange : error := errorString "integer out of range".
Definition ErrInvalidByteSequence : error :=
  errorString "invalid byte sequence for encoding UTF8".
Definition ErrValueTooLong : error :=
  errorString "value too long for type character varying".

(** ** Column types

    The errors above stand for the kind of refusal; the text the driver
    or the server words it with is not modelled. *)

(** [INTEGER]: 32 bits, signed. *)
Definition int4 (n : Z) : bool := ((-2147483648 <=? n) && (n <=? 2147483647))%Z.

(** The characters of a text in a UTF-8 database, each as the bytes that
    encode it; [None] for bytes that are not UTF-8 and for a zero byte,
    which no text column takes.  [pending] counts the continuation bytes
    still due, the first of which lies between [lo] and [hi]. *)
Fixpoint charactersFrom (pending : nat) (lo hi : N) (cur s : string)
    : option (list string) :=
  match s with
  | EmptyString => match pending with O => Some [] | S _ => None end
  | String c s' =>
      let b := N_of_ascii c in
      let cur' := (cur ++ String c EmptyString)%string in
      match pending with
      | S O =>
          if ((lo <=? b) && (b <=? hi))%N
          then option_map (cons cur') (charactersFrom 0 128 191 EmptyString s')
          else None
      | S k =>
          if ((lo <=? b) && (b <=? hi))%N
          then charactersFrom k 128 191 cur' s'
          else None
      | O =>
          if (b =? 0)%N then None
          else if (b <? 128)%N
          then option_map (cons cur') (charactersFrom 0 128 191 EmptyString s')
          else if (b <? 194)%N then None
          else if (b <? 224)%N then charactersFrom 1 128 191 cur' s'
          else if (b =? 224)%N then charactersFrom 2 160 191 cur' s'
          else if (b =? 237)%N then charactersFrom 2 128 159 cur' s'
          else if (b <? 240)%N then charactersFrom 2 128 191 cur' s'
          else if (b =? 240)%N then charactersFrom 3 144 191 cur' s'
          else if (b <? 244)%N then charactersFrom 3 128 191 cur' s'
          else if (b =? 244)%N then charactersFrom 3 128 143 cur' s'
          else None
      end
  end.

Definition characters (s : string) : option (list string) :=
  charactersFrom 0 128 191 EmptyString s.

(** [TEXT]: any text of the database encoding. *)
Definition text (s : string) : result string :=
  match characters s with
  | None => Err ErrInvalidByteSequence
  | Some _ => Ok s
  end.

(** [VARCHAR(n)]: a text of at most [n] characters is stored as it is; of a
    longer one the first [n] characters are stored when all the others are
    spaces, and it is refused otherwise. *)
Definition varchar (n : nat) (s : string) : result string :=
  match characters s with
  | None => Err ErrInvalidByteSequence
  | Some cs =>
      if (length cs <=? n)%nat then Ok s
      else if forallb (String.eqb " ") (skipn n cs)
      then Ok (String.concat EmptyString (firstn n cs))
      else Err ErrValueTooLong
  end.

Definition withUsers (d : DB) (x : list User.t) : DB :=
  mkDB x (credentials d) (accounts d) (transactions d) (plaid_items d)
       (plaid_accounts d) (plaid_syncs d).
Definition withCredentials (d : DB) (x : list Credential.t) : DB :=
  mkDB (users d) x (accounts d) (transactions d) (plaid_items d)
       (plaid_accounts d) (plaid_syncs d).
Definition withPlaidItems (d : DB) (x : list PlaidItem.t) : DB :=
  mkDB (users d) (credentials d) (accounts d) (transactions d) x
       (plaid_accounts d) (plaid_syncs d).
Definition withPlaidSyncs (d : DB) (x : list PlaidSync.t) : DB :=
  mkDB (users d) (credentials d) (accounts d) (transactions d) (plaid_items d)
       (plaid_accounts d) x.

(** ** UserRepository *)

Definition GetCredentialsByUserID (userID : UUID) (d : DB) : list Credential.t :=
  filter (fun c => Credential.UserID c = userID) (credentials d).

(** [Create]: [INSERT INTO users]; [id] is the primary key and [username]
    is unique.  The row has no credentials column. *)
Definition Create (user : User.t) (d : DB) : option error * DB :=
  if existsb (fun u => (User.ID u =? User.ID user)%N
                       || String.eqb (User.Username u) (User.Username user)) (users d)
  then (Some (wrapError "failed to create user" ErrUniqueViolation), d)
  else (None, withUsers d (users d ++ [User.withCredentials user []])).

Definition loadCredentials (d : DB) (u : User.t) : User.t :=
  User.withCredentials u (GetCredentialsByUserID (User.ID u) d).

Definition GetByID (id : UUID) (d : DB) : result User.t :=
  match find (fun u => (User.ID u =? id)%N) (users d) with
  | None => Err ErrNotFound
  | Some u => Ok (loadCredentials d u)
  end.

Definition GetByUsername (username : string) (d : DB) : result User.t :=
  match find (fun u => String.eqb (User.Username u) username) (users d) with
  | None => Err ErrNotFound
  | Some u => Ok (loadCredentials d u)
  end.

(** [CreateCredential]: [INSERT INTO credentials]; [id] is the primary key
    and [user_id] references [users(id)]. *)
Definition CreateCredential (cred : Credential.t) (d : DB) : option error * DB :=
  if existsb (fun c => bool_decide (Credential.ID c = Credential.ID cred)) (credentials d)
  then (Some (wrapError "failed to create credential" ErrUniqueViolation), d)
  else if negb (existsb (fun u => (User.ID u =? Credential.UserID cred)%N) (users d))
  then (Some (wrapError "failed to create credential" ErrForeignKeyViolation), d)
  else (None, withCredentials d (credentials d ++ [cred])).

Definition setSignCount (signCount : N) (c : Credential.t) : Credential.t :=
  Credential.mk (Credential.ID c) (Credential.UserID c) (Credential.PublicKey c)
                (Credential.AttestationType c) signCount (Credential.CreatedAt c).

(** [UpdateCredentialSignCount]: [UPDATE credentials SET sign_count].  The
    counter is a [uint32] and the column an [INTEGER]: a counter from 2^31
    on is refused before any row is touched. *)
Definition UpdateCredentialSignCount (credID : bytes) (signCount : N) (d : DB)
    : option error * DB :=
  if negb (int4 (Z.of_N signCount))
  then (Some (wrapError "failed to update sign count" ErrIntegerOutOfRange), d)
  else
    (None,
     withCredentials d
       (map (fun c => if bool_decide (Credential.ID c = credID)
                      then setSignCount signCount c else c) (credentials d))).

(** ** PlaidRepository *)

Definition GetItemByID (id : UUID) (d : DB) : result PlaidItem.t :=
  match find (fun i => (PlaidItem.ID i =? id)%N) (plaid_items d) with
  | None => Err (wrapError "failed to get plaid item" ErrNoRows)
  | Some i => Ok i
  end.

(** [GetAccountsByItemID]; the rows come in table order (the caller only
    asks whether some row matches). *)
Definition GetAccountsByItemID (plaidItemID : UUID) (d : DB)
    : result (list PlaidAccount.t) :=
  Ok (filter (fun a => PlaidAccount.PlaidItemID a = plaidItemID) (plaid_accounts d)).

(** [UpdateItemCursor]: [UPDATE plaid_items SET cursor, updated_at]; the
    column is [VARCHAR(255)].  Under a context that is done the pool
    answers the context's error and executes nothing. *)
Definition UpdateItemCursor (ctx : Context) (id : UUID) (cursor : string) (now : Time)
    (d : DB) : option error * DB :=
  match ctx with
  | done e => (Some (wrapError "failed to update plaid item cursor" e), d)
  | alive =>
    match varchar 255 cursor with
    | Err e => (Some (wrapError "failed to update plaid item cursor" e), d)
    | Ok stored =>
        (None,
         withPlaidItems d
           (map (fun i => if (PlaidItem.ID i =? id)%N
                          then PlaidItem.withCursor i stored now else i)
              (plaid_items d)))
    end
  end.

(** The values of a [plaid_syncs] row as the table stores them: the counts
    are [INTEGER], the two cursors [VARCHAR(255)], the message [TEXT]. *)
Definition storedSync (sync : PlaidSync.t) (now : Time) : result PlaidSync.t :=
  if negb (int4 (PlaidSync.AddedCount sync) && int4 (PlaidSync.ModifiedCount sync)
           && int4 (PlaidSync.RemovedCount sync))
  then Err ErrIntegerOutOfRange
  else
    match varchar 255 (PlaidSync.CursorBefore sync) with
    | Err e => Err e
    | Ok cursorBefore =>
      match varchar 255 (PlaidSync.CursorAfter sync) with
      | Err e => Err e
      | Ok cursorAfter =>
        match text (PlaidSync.ErrorMessage sync) with
        | Err e => Err e
        | Ok errorMessage =>
            Ok (PlaidSync.mk (PlaidSync.ID sync) (PlaidSync.PlaidItemID sync)
                  (PlaidSync.UserID sync) (PlaidSync.AddedCount sync)
                  (PlaidSync.ModifiedCount sync) (PlaidSync.RemovedCount sync)
                  cursorBefore cursorAfter errorMessage now)
        end
      end
    end.

(** [CreateSync]: [INSERT INTO plaid_syncs], stamping [SyncedAt].  Under a
    context that is done the pool answers the context's error and executes
    nothing.  [id] is the primary key, [plaid_item_id] references
    [plaid_items(id)] and [user_id] references [users(id)]. *)
Definition CreateSync (ctx : Context) (sync : PlaidSync.t) (now : Time) (d : DB)
    : option error * DB :=
  match ctx with
  | done e => (Some (wrapError "failed to create plaid sync" e), d)
  | alive =>
    match storedSync sync now with
    | Err e => (Some (wrapError "failed to create plaid sync" e), d)
    | Ok row =>
      if existsb (fun y => (PlaidSync.ID y =? PlaidSync.ID row)%N) (plaid_syncs d)
      then (Some (wrapError "failed to create plaid sync" ErrUniqueViolation), d)
      else if negb (existsb (fun i => (PlaidItem.ID i =? PlaidSync.PlaidItemID row)%N)
                      (plaid_items d)
                    && existsb (fun u => (User.ID u =? PlaidSync.UserID row)%N) (users d))
      then (Some (wrapError "failed to create plaid sync" ErrForeignKeyViolation), d)
      else (None, withPlaidSyncs d (plaid_syncs d ++ [row]))
    end
  end.

(** ** Deleting rows

    The foreign keys of the migrations carry [ON DELETE CASCADE], except
    [plaid_accounts.account_id] and the category columns, which carry
    [ON DELETE SET NULL].  The [categories] table is not among the modelled
    tables: a surviving transaction keeps its category column here. *)

Definition withAccounts (d : DB) (x : list Account.t) : DB :=
  mkDB (users d) (credentials d) x (transactions d) (plaid_items d)
       (plaid_accounts d) (plaid_syncs d).
Definition withTransactions (d : DB) (x : list Transaction.t) : DB :=
  mkDB (users d) (credentials d) (accounts d) x (plaid_items d)
       (plaid_accounts d) (plaid_syncs d).
Definition withPlaidAccounts (d : DB) (x : list PlaidAccount.t) : DB :=
  mkDB (users d) (credentials d) (accounts d) (transactions d) (plaid_items d)
       x (plaid_syncs d).

(** [ON DELETE SET NULL] on [plaid_accounts.account_id]. *)
Definition unlink (gone : list UUID) (a : PlaidAccount.t) : PlaidAccount.t :=
  match PlaidAccount.AccountID a with
  | Some x =>
      if bool_decide (x ∈ gone)
      then PlaidAccount.mk (PlaidAccount.ID a) (PlaidAccount.PlaidItemID a)
             (PlaidAccount.UserID a) None (PlaidAccount.PlaidAccountID a)
             (PlaidAccount.Name a)
      else a
  | None => a
  end.

(** [UserRepository.Delete]: [DELETE FROM users WHERE id]; no row affected
    is [ErrNotFound]. *)
Definition Delete (userID : UUID) (d : DB) : option error * DB :=
  if negb (existsb (fun u => (User.ID u =? userID)%N) (users d))
  then (Some ErrNotFound, d)
  else
    let goneAccounts :=
      map Account.ID (filter (fun a => Account.UserID a = userID) (accounts d)) in
    let goneItems :=
      map PlaidItem.ID (filter (fun i => PlaidItem.UserID i = userID) (plaid_items d)) in
    (None,
     mkDB (filter (fun u => User.ID u <> userID) (users d))
          (filter (fun c => Credential.UserID c <> userID) (credentials d))
          (filter (fun a => Account.UserID a <> userID) (accounts d))
          (filter (fun t => Transaction.UserID t <> userID
                            /\ Transaction.AccountID t ∉ goneAccounts) (transactions d))
          (filter (fun i => PlaidItem.UserID i <> userID) (plaid_items d))
          (map (unlink goneAccounts)
             (filter (fun a => PlaidAccount.UserID a <> userID
                               /\ PlaidAccount.PlaidItemID a ∉ goneItems)
                     (plaid_accounts d)))
          (filter (fun y => PlaidSync.UserID y <> userID
                            /\ PlaidSync.PlaidItemID y ∉ goneItems) (plaid_syncs d))).

(** ** AccountRepository *)

Module AccountRepository.
(** [Create]: [INSERT INTO accounts]; [id] is the primary key and [user_id]
    references [users(id)]. *)
Definition Create (account : Account.t) (d : DB) : option error * DB :=
  if existsb (fun a => (Account.ID a =? Account.ID account)%N) (accounts d)
  then (Some (wrapError "failed to create account" ErrUniqueViolation), d)
  else if negb (existsb (fun u => (User.ID u =? Account.UserID account)%N) (users d))
  then (Some (wrapError "failed to create account" ErrForeignKeyViolation), d)
  else (None, withAccounts d (accounts d ++ [account])).

Definition GetByID (id : UUID) (d : DB) : result Account.t :=
  match find (fun a => (Account.ID a =? id)%N) (accounts d) with
  | None => Err ErrNotFound
  | Some a => Ok a
  end.

(** The [WHERE id = $3 AND user_id = $4] of [Update] and [Delete]. *)
Definition owned (id userID : UUID) (a : Account.t) : bool :=
  (Account.ID a =? id)%N && (Account.UserID a =? userID)%N.

(** [Update]: [UPDATE accounts SET encrypted_data, updated_at]; no row
    affected is [ErrNotFound]. *)
Definition Update (account : Account.t) (now : Time) (d : DB) : option error * DB :=
  if negb (existsb (owned (Account.ID account) (Account.UserID account)) (accounts d))
  then (Some ErrNotFound, d)
  else
    (None,
     withAccounts d
       (map (fun a => if owned (Account.ID account) (Account.UserID account) a
                      then Account.mk (Account.ID a) (Account.UserID a)
                             (Account.EncryptedData account) (Account.CreatedAt a) now
                      else a)
            (accounts d))).

(** [Delete]: [DELETE FROM accounts WHERE id AND user_id]; the account's
    transactions go with it and provider accounts linked to it lose the
    link. *)
Definition Delete (id userID : UUID) (d : DB) : option error * DB :=
  if negb (existsb (owned id userID) (accounts d))
  then (Some ErrNotFound, d)
  else
    (None,
     mkDB (users d) (credentials d)
          (filter (fun a => owned id userID a = false) (accounts d))
          (filter (fun t => Transaction.AccountID t <> id) (transactions d))
          (plaid_items d)
          (map (unlink [id]) (plaid_accounts d))
          (plaid_syncs d)).
End AccountRepository.

(** ** PlaidRepository, continued *)

(** [GetItemsByUserID]: newest first.  [created_at] is stamped at insertion
    and rows are kept in insertion order, so newest first is the table
    reversed. *)
Definition GetItemsByUserID (userID : UUID) (d : DB) : result (list PlaidItem.t) :=
  Ok (reverse (filter (fun i => PlaidItem.UserID i = userID) (plaid_items d))).

(** [DeleteItem]: [DELETE FROM plaid_items WHERE id AND user_id]; the item's
    accounts and sync history go with it. *)
Definition DeleteItem (id userID : UUID) (d : DB) : option error * DB :=
  if negb (existsb (fun i => (PlaidItem.ID i =? id)%N && (PlaidItem.UserID i =? userID)%N)
                   (plaid_items d))
  then (Some (errorString "plaid item not found"), d)
  else
    (None,
     mkDB (users d) (credentials d) (accounts d) (transactions d)
          (filter (fun i => ((PlaidItem.ID i =? id)%N
                             && (PlaidItem.UserID i =? userID)%N) = false) (plaid_items d))
          (filter (fun a => PlaidAccount.PlaidItemID a <> id) (plaid_accounts d))
          (filter (fun y => PlaidSync.PlaidItemID y <> id) (plaid_syncs d))).

(** The [ON CONFLICT (plaid_item_id, plaid_account_id)] of [CreateAccount]. *)
Definition sameProviderAccount (x a : PlaidAccount.t) : bool :=
  (PlaidAccount.PlaidItemID a =? PlaidAccount.PlaidItemID x)%N
  && String.eqb (PlaidAccount.PlaidAccountID a) (PlaidAccount.PlaidAccountID x).

(** [CreateAccount]: [INSERT INTO plaid_accounts ... ON CONFLICT DO UPDATE].
    A row for the same item and provider account is kept and only takes
    the new descriptive columns (of which the model has [name]); otherwise
    the row is inserted under the primary key and the three references. *)
Definition CreateAccount (account : PlaidAccount.t) (d : DB) : option error * DB :=
  if existsb (sameProviderAccount account) (plaid_accounts d)
  then
    (None,
     withPlaidAccounts d
       (map (fun a => if sameProviderAccount account a
                      then PlaidAccount.mk (PlaidAccount.ID a) (PlaidAccount.PlaidItemID a)
                             (PlaidAccount.UserID a) (PlaidAccount.AccountID a)
                             (PlaidAccount.PlaidAccountID a) (PlaidAccount.Name account)
                      else a)
            (plaid_accounts d)))
  else if existsb (fun a => (PlaidAccount.ID a =? PlaidAccount.ID account)%N)
                  (plaid_accounts d)
  then (Some (wrapError "failed to create plaid account" ErrUniqueViolation), d)
  else if negb (existsb (fun i => (PlaidItem.ID i =? PlaidAccount.PlaidItemID account)%N)
                        (plaid_items d)
                && existsb (fun u => (User.ID u =? PlaidAccount.UserID account)%N) (users d)
                && match PlaidAccount.AccountID account with
                   | Some x => existsb (fun a => (Account.ID a =? x)%N) (accounts d)
                   | None => true
                   end)
  then (Some (wrapError "failed to create plaid account" ErrForeignKeyViolation), d)
  else (None, withPlaidAccounts d (plaid_accounts d ++ [account])).

(** [LinkAccountToOwnUAccount]: [UPDATE plaid_accounts SET account_id]. *)
Definition LinkAccountToOwnUAccount (plaidAccountID ownuAccountID : UUID) (d : DB)
    : option error * DB :=
  if existsb (fun a => (PlaidAccount.ID a =? plaidAccountID)%N) (plaid_accounts d)
     && negb (existsb (fun a => (Account.ID a =? ownuAccountID)%N) (accounts d))
  then (Some (wrapError "failed to link plaid account" ErrForeignKeyViolation), d)
  else
    (None,
     withPlaidAccounts d
       (map (fun a => if (PlaidAccount.ID a =? plaidAccountID)%N
                      then PlaidAccount.mk (PlaidAccount.ID a) (PlaidAccount.PlaidItemID a)
                             (PlaidAccount.UserID a) (Some ownuAccountID)
                             (PlaidAccount.PlaidAccountID a) (PlaidAccount.Name a)
                      else a)
            (plaid_accounts d))).
End repository.

(* ===================================================================== *)
(** * package plaid: the provider client                                  *)
(* ===================================================================== *)

Module plaid.
(** The fields of the client library's [Transaction] that the backend reads. *)
Module Transaction.
Record t : Type := mk {
  TransactionId : string;
  AccountId : string;
  Amount : float64;
  Name : string;
  MerchantName : string;
  Date : string;
}.
End Transaction.

Module RemovedTransaction.
Record t : Type := mk { TransactionId : string }.
End RemovedTransaction.

Module SyncTransactionsResult.
Record t : Type := mk {
  Added : list Transaction.t;
  Modified : list Transaction.t;
  Removed : list RemovedTransaction.t;
  NextCursor : string;
  HasMore : bool;
}.
End SyncTransactionsResult.

(** [Service]: what the provider answers to [SyncTransactions] for an
    access token and a cursor. *)
Record Service : Type := mkService {
  SyncTransactions : string -> string -> result SyncTransactionsResult.t;
}.
End plaid.

(* ===================================================================== *)
(** * Library interfaces used by the handlers                             *)
(* ===================================================================== *)

(** go-webauthn's ceremony functions and [protocol] parsers. *)
Class WebAuthnLib : Type := {
  CredentialCreation : Type;
  CredentialAssertion : Type;
  ParsedCredentialCreationData : Type;
  ParsedCredentialAssertionData : Type;
  BeginRegistration : User.t -> Rand (CredentialCreation * webauthn.SessionData.t);
  ParseCredentialCreationResponseBody : bytes -> result ParsedCredentialCreationData;
  CreateCredential : User.t -> webauthn.SessionData.t -> ParsedCredentialCreationData
                     -> result webauthn.Credential.t;
  BeginLogin : User.t -> Rand (CredentialAssertion * webauthn.SessionData.t);
  ParseCredentialRequestResponseBody : bytes -> result ParsedCredentialAssertionData;
  ValidateLogin : User.t -> webauthn.SessionData.t -> ParsedCredentialAssertionData
                  -> result webauthn.Credential.t;
}.

(** [encoding/json] on [models.TransactionData] and [time.Parse]. *)
Class EncodingLib : Type := {
  json_Marshal : TransactionData.t -> result bytes;
  time_Parse : string -> string -> result Time;
}.

(* ===================================================================== *)
(** * package api                                                         *)
(* ===================================================================== *)

Module api.
(** ** Requests, tokens and responses *)

Module RegisterBeginRequest.
Record t : Type := mk { Username : string }.
End RegisterBeginRequest.

Module RegisterFinishRequest.
Record t : Type := mk { SessionID : string; Credential : string; PRFOutput : string }.
End RegisterFinishRequest.

Module LoginBeginRequest.
Record t : Type := mk { Username : string }.
End LoginBeginRequest.

Module LoginFinishRequest.
Record t : Type := mk { SessionID : string; Credential : string; PRFOutput : string }.
End LoginFinishRequest.

(** The echo context of a request behind [jwtMiddleware]: the values the
    middleware stored under [user_id] and [encrypted_dek], and the [:id]
    path parameter as [uuid.Parse] reads it ([None]: not a uuid). *)
Module SyncRequest.
Record t : Type := mk {
  user_id : option UUID;
  encrypted_dek : option string;
  id : option UUID;
}.
End SyncRequest.

Module JWTClaims.
Record t : Type := mk {
  UserID : string;
  EncryptedDEK : string;
  ExpiresAt : Time;
  IssuedAt : Time;
  Issuer : string;
}.
End JWTClaims.

(** A signed token, symbolically: the claims and the HS256 key. *)
Record Token : Type := SignedString { Claims : JWTClaims.t; SigningKey : string }.

Section Handlers.
Context {CL : CryptoLib} {WL : WebAuthnLib} {EL : EncodingLib}.

Inductive Body : Type :=
| ErrorBody (msg : string)
| RegisterBeginResponse (Options : CredentialCreation) (RecoveryPhrase SessionID : string)
| LoginBeginResponse (options : CredentialAssertion) (session_id : string)
| AuthResponse (token : Token) (ID Username : string)
| SyncTransactionsResponse (AddedCount ModifiedCount RemovedCount : Z) (HasMore : bool).

Record Response : Type := JSON { Status : N; Payload : Body }.

Definition StatusOK : N := 200.
Definition StatusBadRequest : N := 400.
Definition StatusUnauthorized : N := 401.
Definition StatusForbidden : N := 403.
Definition StatusNotFound : N := 404.
Definition StatusConflict : N := 409.
Definition StatusInternalServerError : N := 500.
Definition StatusServiceUnavailable : N := 503.

Definition errorJSON (status : N) (msg : string) : Response :=
  JSON status (ErrorBody msg).

(** ** The state the handlers run on *)

Record Server : Type := mkServer {
  JWTSecret : string;                    (* s.config.JWTSecret *)
  sessionStore : auth.SessionStore;      (* the package-level sessionStore *)
  db : repository.DB;                    (* behind userRepo and plaidRepo *)
  entropy : bytes;                       (* crypto/rand *)
  uuids : N;                             (* the next uuid.New() *)
  plaidService : option plaid.Service;   (* s.plaid *)
}.

Definition withSessions (s : Server) (x : auth.SessionStore) : Server :=
  mkServer (JWTSecret s) x (db s) (entropy s) (uuids s) (plaidService s).
Definition withDB (s : Server) (x : repository.DB) : Server :=
  mkServer (JWTSecret s) (sessionStore s) x (entropy s) (uuids s) (plaidService s).
Definition withEntropy (s : Server) (x : bytes) : Server :=
  mkServer (JWTSecret s) (sessionStore s) (db s) x (uuids s) (plaidService s).
Definition withUuids (s : Server) (x : N) : Server :=
  mkServer (JWTSecret s) (sessionStore s) (db s) (entropy s) x (plaidService s).

(** A handler either returns a response early ([inl]) or goes on with a
    value ([inr]), threading the server state. *)
Definition H (A : Type) : Type := Server -> (Response + A) * Server.

Definition ret {A} (a : A) : H A := fun s => (inr a, s).

Definition bind {A B} (m : H A) (k : A -> H B) : H B := fun s =>
  match m s with
  | (inl r, s') => (inl r, s')
  | (inr a, s') => k a s'
  end.

Definition respond {A} (r : Response) : H A := fun s => (inl r, s).

Definition run (h : H Response) (s : Server) : Response * Server :=
  match h s with
  | (inl r, s') => (r, s')
  | (inr r, s') => (r, s')
  end.

(** [defer f()]: [f] runs on the state however the rest returns. *)
Definition defer {A} (f : Server -> Server) (rest : H A) : H A := fun s =>
  let (r, s') := rest s in (r, f s').

(** Drawing from [crypto/rand], querying and updating the database. *)
Definition rand {A} (r : Rand A) : H (result A) := fun s =>
  let (x, ent) := r (entropy s) in (inr x, withEntropy s ent).

Definition query {A} (q : repository.DB -> A) : H A := fun s => (inr (q (db s)), s).

Definition exec (q : repository.DB -> option error * repository.DB)
    : H (option error) := fun s =>
  let (e, d) := q (db s) in (inr e, withDB s d).

(** [uuid.New()]: a fresh identifier. *)
Definition uuid_New : H UUID := fun s => (inr (uuids s), withUuids s (uuids s + 1)%N).

Notation "x <- m ;; k" := (bind m (fun x => k))
  (at level 100, m at next level, right associativity).

(** [if err != nil { return c.JSON(status, msg) }]. *)
Definition orFail {A} (r : result A) (status : N) (msg : string) : H A :=
  match r with
  | Ok a => ret a
  | Err _ => respond (errorJSON status msg)
  end.

(** [x, _ := f()]: the zero value on error. *)
Definition orZero (r : result string) : string :=
  match r with Ok a => a | Err _ => EmptyString end.

(** [c.Bind(&req)]: [None] is a body that does not decode. *)
Definition Bind {A} (req : option A) : H A :=
  match req with
  | Some r => ret r
  | None => respond (errorJSON StatusBadRequest "invalid request")
  end.

(** ** auth.go: the ceremony handlers *)

(** [generateJWT]. *)
Definition generateJWT (now : Time) (secret : string) (user : User.t)
    (encryptedDEK : bytes) : result Token :=
  let claims := JWTClaims.mk (UUID_String (User.ID user))
                  (base64_EncodeToString encryptedDEK)
                  (now + 24 * Hour)%Z now "ownu" in
  Ok (SignedString claims secret).

(** [beginRegistration].  The final [c.Set("recovery_phrase_"+sessionID, ...)]
    writes to the context of this request, which ends with the response;
    nothing of it reaches the server state. *)
Definition beginRegistration (now : Time) (body : option RegisterBeginRequest.t)
    : Server -> Response * Server :=
  run (
    req <- Bind body ;;
    if String.eqb (RegisterBeginRequest.Username req) EmptyString
    then respond (errorJSON StatusBadRequest "username is required")
    else
    found <- query (repository.GetByUsername (RegisterBeginRequest.Username req)) ;;
    match found with
    | Ok _ => respond (errorJSON StatusConflict "username already exists")
    | Err err =>
      if negb (bool_decide (err = repository.ErrNotFound))
      then respond (errorJSON StatusInternalServerError "database error")
      else
      tempID <- uuid_New ;;
      let tempUser := User.mk tempID (RegisterBeginRequest.Username req) [] [] [] 0%Z 0%Z [] in
      began <- rand (BeginRegistration tempUser) ;;
      started <- orFail began StatusInternalServerError
                   "failed to begin registration" ;;
      let '(options, session) := started in
      phrase <- rand crypto.GenerateRecoveryPhrase ;;
      recoveryPhrase <- orFail phrase StatusInternalServerError
                          "failed to generate recovery phrase" ;;
      sid <- uuid_New ;;
      let sessionID := UUID_String sid in
      _ <- (fun s => (inr tt, withSessions s
              (auth.Save sessionID session (RegisterBeginRequest.Username req)
                         tempID now (sessionStore s)))) ;;
      ret (JSON StatusOK (RegisterBeginResponse options recoveryPhrase sessionID))
    end).

(** [finishRegistration]. *)
Definition finishRegistration (now : Time) (body : option RegisterFinishRequest.t)
    : Server -> Response * Server :=
  run (
    req <- Bind body ;;
    got <- (fun s => (inr (auth.Get (RegisterFinishRequest.SessionID req) now
                                    (sessionStore s)), s)) ;;
    match got with
    | None => respond (errorJSON StatusBadRequest "session expired or invalid")
    | Some sessionData =>
      defer (fun s => withSessions s
               (auth.Delete (RegisterFinishRequest.SessionID req) (sessionStore s))) (
      let tempUser := User.mk (auth.SessionData.UserID sessionData)
                        (auth.SessionData.Username sessionData) [] [] [] 0%Z 0%Z [] in
      let credentialData := bytes_of_string (RegisterFinishRequest.Credential req) in
      parsedResponse <- orFail (ParseCredentialCreationResponseBody credentialData)
                          StatusBadRequest "failed to parse credential" ;;
      credential <- orFail (CreateCredential tempUser
                              (auth.SessionData.Session sessionData) parsedResponse)
                      StatusBadRequest "failed to verify credential" ;;
      gen <- rand crypto.GenerateDEK ;;
      dek <- orFail gen StatusInternalServerError "failed to generate encryption key" ;;
      gen <- rand crypto.GenerateSalt ;;
      salt <- orFail gen StatusInternalServerError "failed to generate salt" ;;
      kek <- (if negb (String.eqb (RegisterFinishRequest.PRFOutput req) EmptyString)
              then
                match base64_DecodeString (RegisterFinishRequest.PRFOutput req) with
                | None => respond (errorJSON StatusBadRequest "invalid PRF output")
                | Some prfBytes => ret (crypto.DeriveKeyFromSecret prfBytes salt)
                end
              else
                gen <- rand (crypto.GenerateRandomHex 32) ;;
                let tempSecret := orZero gen in
                ret (crypto.DeriveKeyFromSecret (bytes_of_string tempSecret) salt)) ;;
      enc <- rand (crypto.EncryptDEK dek kek) ;;
      encryptedDEK <- orFail enc StatusInternalServerError "failed to encrypt DEK" ;;
      gen <- rand crypto.GenerateRecoveryPhrase ;;
      let recoveryPhrase := orZero gen in
      let recoveryHash := crypto.HashRecoveryPhrase recoveryPhrase in
      let user := User.mk (User.ID tempUser) (auth.SessionData.Username sessionData)
                    encryptedDEK salt recoveryHash now now [] in
      err <- exec (repository.Create user) ;;
      match err with
      | Some _ => respond (errorJSON StatusInternalServerError "failed to create user")
      | None =>
        let cred := Credential.mk (webauthn.Credential.ID credential) (User.ID user)
                      (webauthn.Credential.PublicKey credential)
                      (webauthn.Credential.AttestationType credential)
                      (webauthn.Authenticator.SignCount
                         (webauthn.Credential.Authenticator credential))
                      now in
        err <- exec (repository.CreateCredential cred) ;;
        match err with
        | Some _ =>
            respond (errorJSON StatusInternalServerError "failed to save credential")
        | None =>
          secret <- (fun s => (inr (JWTSecret s), s)) ;;
          token <- orFail (generateJWT now secret user encryptedDEK)
                     StatusInternalServerError "failed to generate token" ;;
          ret (JSON StatusOK
                 (AuthResponse token (UUID_String (User.ID user)) (User.Username user)))
        end
      end)
    end).

(** [beginLogin]. *)
Definition beginLogin (now : Time) (body : option LoginBeginRequest.t)
    : Server -> Response * Server :=
  run (
    req <- Bind body ;;
    if String.eqb (LoginBeginRequest.Username req) EmptyString
    then respond (errorJSON StatusBadRequest "username is required")
    else
    found <- query (repository.GetByUsername (LoginBeginRequest.Username req)) ;;
    match found with
    | Err err =>
      if bool_decide (err = repository.ErrNotFound)
      then respond (errorJSON StatusNotFound "user not found")
      else respond (errorJSON StatusInternalServerError "database error")
    | Ok user =>
      began <- rand (BeginLogin user) ;;
      started <- orFail began StatusInternalServerError "failed to begin login" ;;
      let '(options, session) := started in
      sid <- uuid_New ;;
      let sessionID := UUID_String sid in
      _ <- (fun s => (inr tt, withSessions s
              (auth.Save sessionID session (User.Username user) (User.ID user)
                         now (sessionStore s)))) ;;
      ret (JSON StatusOK (LoginBeginResponse options sessionID))
    end).

(** [finishLogin]. *)
Definition finishLogin (now : Time) (body : option LoginFinishRequest.t)
    : Server -> Response * Server :=
  run (
    req <- Bind body ;;
    got <- (fun s => (inr (auth.Get (LoginFinishRequest.SessionID req) now
                                    (sessionStore s)), s)) ;;
    match got with
    | None => respond (errorJSON StatusBadRequest "session expired or invalid")
    | Some sessionData =>
      defer (fun s => withSessions s
               (auth.Delete (LoginFinishRequest.SessionID req) (sessionStore s))) (
      found <- query (repository.GetByUsername (auth.SessionData.Username sessionData)) ;;
      user <- orFail found StatusInternalServerError "failed to get user" ;;
      let credentialData := bytes_of_string (LoginFinishRequest.Credential req) in
      parsedResponse <- orFail (ParseCredentialRequestResponseBody credentialData)
                          StatusBadRequest "failed to parse credential" ;;
      credential <- orFail (ValidateLogin user (auth.SessionData.Session sessionData)
                              parsedResponse)
                      StatusUnauthorized "authentication failed" ;;
      (* the error of the counter update is dropped *)
      _ <- exec (repository.UpdateCredentialSignCount (webauthn.Credential.ID credential)
                   (webauthn.Authenticator.SignCount
                      (webauthn.Credential.Authenticator credential))) ;;
      secret <- (fun s => (inr (JWTSecret s), s)) ;;
      token <- orFail (generateJWT now secret user (User.EncryptedDEK user))
                 StatusInternalServerError "failed to generate token" ;;
      ret (JSON StatusOK
             (AuthResponse token (UUID_String (User.ID user)) (User.Username user))))
    end).

(** ** Unwrapping the DEK of a request *)

(** [decryptDEK]: the KEK is derived from a fixed placeholder and the
    user's salt. *)
Definition decryptDEK (encryptedDEKB64 : string) (user : User.t) : result bytes :=
  match base64_DecodeString encryptedDEKB64 with
  | None => Err (errorString "illegal base64 data")
  | Some encryptedDEK =>
      let kek := crypto.DeriveKeyFromSecret (bytes_of_string "placeholder-secret")
                   (User.DEKSalt user) in
      crypto.DecryptDEK encryptedDEK kek
  end.

(** ** Plaid handlers *)

(** [processPlaidTransaction]: resolves the linked account, encrypts the
    record and builds the [models.Transaction]; the value is then dropped
    ([_ = transaction]) and [nil] is returned. *)
Definition processPlaidTransaction (now : Time) (userID plaidItemID : UUID)
    (txn : plaid.Transaction.t) (dek : bytes) (s : Server) : option error * Server :=
  match repository.GetAccountsByItemID plaidItemID (db s) with
  | Err err => (Some err, s)
  | Ok plaidAccounts =>
    let linkedAccountID :=
      match find (fun acc => String.eqb (PlaidAccount.PlaidAccountID acc)
                                        (plaid.Transaction.AccountId txn)
                             && bool_decide (PlaidAccount.AccountID acc <> None))
                 plaidAccounts with
      | Some acc => PlaidAccount.AccountID acc
      | None => None
      end in
    match linkedAccountID with
    | None =>
        (Some (errorString ("no linked account for plaid account "
                            ++ plaid.Transaction.AccountId txn)), s)
    | Some accountID =>
      let txnData := TransactionData.mk (plaid.Transaction.Amount txn)
                       (plaid.Transaction.Name txn)
                       (plaid.Transaction.MerchantName txn)
                       (plaid.Transaction.Date txn) in
      match json_Marshal txnData with
      | Err err => (Some err, s)
      | Ok txnDataJSON =>
        match crypto.Encrypt txnDataJSON dek (entropy s) with
        | (Err err, ent) => (Some err, withEntropy s ent)
        | (Ok encryptedData, ent) =>
          let s1 := withEntropy s ent in
          let txnDate := match time_Parse "2006-01-02" (plaid.Transaction.Date txn) with
                         | Ok t => t
                         | Err _ => now
                         end in
          let id := uuids s1 in
          let s2 := withUuids s1 (id + 1)%N in
          let transaction := Transaction.mk id userID accountID encryptedData None
                               txnDate now in
          (* TODO in the source: store the transaction; it is skipped *)
          (None, s2)
        end
      end
    end
  end.

(** The loop over [result.Added], counting the records that returned [nil]. *)
Fixpoint processAdded (now : Time) (userID itemID : UUID)
    (added : list plaid.Transaction.t) (dek : bytes) (addedCount : Z) (s : Server)
    : Z * Server :=
  match added with
  | [] => (addedCount, s)
  | txn :: rest =>
      match processPlaidTransaction now userID itemID txn dek s with
      | (None, s') => processAdded now userID itemID rest dek (addedCount + 1)%Z s'
      | (Some _, s') => processAdded now userID itemID rest dek addedCount s'
      end
  end.

(** The request's context as the handler finds it once the call to the
    provider has failed.  The provider is called under the request's
    context, and the client library reports a request cancelled under it by
    an error that wraps [context.Canceled]: after such an error the context
    is done.  After any other outcome the context is taken to be alive. *)
Definition contextAfter (err : error) : Context :=
  if errors_Is err context_Canceled then done context_Canceled else alive.

(** [syncTransactions]. *)
Definition syncTransactions (now : Time) (c : SyncRequest.t)
    : Server -> Response * Server :=
  run (
    svc <- (fun s => (inr (plaidService s), s)) ;;
    match svc with
    | None => respond (errorJSON StatusServiceUnavailable
                         "Plaid integration is not configured")
    | Some plaidSvc =>
    match SyncRequest.user_id c with
    | None => respond (errorJSON StatusUnauthorized "unauthorized")
    | Some userID =>
    match SyncRequest.encrypted_dek c with
    | None => respond (errorJSON StatusUnauthorized "missing encryption key")
    | Some encryptedDEKB64 =>
    match SyncRequest.id c with
    | None => respond (errorJSON StatusBadRequest "invalid item ID")
    | Some itemID =>
      got <- query (repository.GetItemByID itemID) ;;
      item <- orFail got StatusNotFound "item not found" ;;
      if negb (PlaidItem.UserID item =? userID)%N
      then respond (errorJSON StatusForbidden "access denied")
      else
      got <- query (repository.GetByID userID) ;;
      user <- orFail got StatusInternalServerError "failed to get user" ;;
      dek <- orFail (decryptDEK encryptedDEKB64 user)
               StatusInternalServerError "failed to decrypt key" ;;
      accessToken <- orFail (crypto.Decrypt (PlaidItem.EncryptedAccessToken item) dek)
                       StatusInternalServerError "failed to decrypt access token" ;;
      match plaid.SyncTransactions plaidSvc (string_of_bytes accessToken)
              (PlaidItem.Cursor item) with
      | Err err =>
        id <- uuid_New ;;
        let sync := PlaidSync.mk id itemID userID 0 0 0 (PlaidItem.Cursor item)
                      EmptyString (Error err) 0%Z in
        (* the error of the insert is dropped *)
        _ <- exec (repository.CreateSync (contextAfter err) sync now) ;;
        respond (errorJSON StatusInternalServerError
                   ("failed to sync transactions: " ++ Error err))
      | Ok result =>
        addedCount <- (fun s =>
          let (n, s') := processAdded now userID itemID
                           (plaid.SyncTransactionsResult.Added result) dek 0%Z s in
          (inr n, s')) ;;
        let modifiedCount :=
          Z.of_nat (length (plaid.SyncTransactionsResult.Modified result)) in
        let removedCount :=
          Z.of_nat (length (plaid.SyncTransactionsResult.Removed result)) in
        (* the error of the cursor update is dropped *)
        _ <- exec (repository.UpdateItemCursor alive itemID
                     (plaid.SyncTransactionsResult.NextCursor result) now) ;;
        id <- uuid_New ;;
        let sync := PlaidSync.mk id itemID userID addedCount modifiedCount removedCount
                      (PlaidItem.Cursor item)
                      (plaid.SyncTransactionsResult.NextCursor result)
                      EmptyString 0%Z in
        (* the error of the insert is dropped *)
        _ <- exec (repository.CreateSync alive sync now) ;;
        ret (JSON StatusOK
               (SyncTransactionsResponse addedCount modifiedCount removedCount
                  (plaid.SyncTransactionsResult.HasMore result)))
      end
    end end end end).
End Handlers.
End api.

(* ===================================================================== *)
(** * Reference instances of the library interfaces                       *)
(* ===================================================================== *)

(** Executable stand-ins for the external libraries, used to run the
    handlers on concrete requests.  They keep what the handlers rely on:
    a deterministic 32-byte KDF, an AEAD whose tag depends on key and nonce,
    and go-webauthn's treatment of the signature counter. *)
Module Ref.

Definition xorByte (a b : byte) : byte :=
  byte_of_N (N.lxor (Byte.to_N a) (Byte.to_N b)).

(** The [i]-th byte of the key stream: key and nonce bytes, cycling. *)
Definition padByte (key nonce : bytes) (i : nat) : byte :=
  xorByte (nth (i mod 32) key x00) (nth (i mod 12) nonce x00).

Fixpoint xorStream (key nonce : bytes) (i : nat) (data : bytes) : bytes :=
  match data with
  | [] => []
  | b :: data' => xorByte b (padByte key nonce i) :: xorStream key nonce (S i) data'
  end.

Definition tag (key nonce body : bytes) : bytes :=
  firstn 16 (SHA256.Sum256 (key ++ nonce ++ body)).

Definition Seal (key nonce plaintext : bytes) : bytes :=
  let body := xorStream key nonce 0 plaintext in
  body ++ tag key nonce body.

Definition Open (key nonce ciphertext : bytes) : option bytes :=
  let n := (length ciphertext - 16)%nat in
  let body := firstn n ciphertext in
  if bool_decide (skipn n ciphertext = tag key nonce body)
  then Some (xorStream key nonce 0 body)
  else None.

Definition IDKey (secret salt : bytes) (time memory threads keyLen : N) : bytes :=
  firstn (N.to_nat keyLen) (SHA256.Sum256 (salt ++ secret)).

Definition cryptoLib : CryptoLib :=
  {| argon2_IDKey := IDKey; aead_Seal := Seal; aead_Open := Open |}.

(** A device response is the text [<flag><counter><credential id>]: flag
    ["1"] for a response whose signature (or attestation) verifies, one
    decimal digit for the authenticator's signature counter. *)
Record DeviceResponse : Type := mkDeviceResponse {
  verifies : bool;
  counter : N;
  credentialID : bytes;
}.

Definition parseDevice (data : bytes) : result DeviceResponse :=
  match data with
  | flag :: digit :: cid =>
      let d := Byte.to_N digit in
      if ((48 <=? d) && (d <=? 57))%N
      then Ok (mkDeviceResponse (bool_decide (flag = "1"%byte)) (d - 48) cid)
      else Err (errorString "Parse error for Registration")
  | _ => Err (errorString "Parse error for Registration")
  end.

Definition newChallenge (user : User.t)
    : Rand (string * webauthn.SessionData.t) := fun ent =>
  match ReadFull 32 ent with
  | (Err e, ent') => (Err e, ent')
  | (Ok c, ent') =>
      let challenge := base64_EncodeToString c in
      (Ok (challenge,
           webauthn.SessionData.mk challenge (User.WebAuthnID user)
             (map webauthn.Credential.ID (User.WebAuthnCredentials user))), ent')
  end.

Definition createCredential (user : User.t) (session : webauthn.SessionData.t)
    (parsed : DeviceResponse) : result webauthn.Credential.t :=
  if verifies parsed
  then Ok (webauthn.Credential.mk (credentialID parsed) (bytes_of_string "public-key")
             "none" (webauthn.Authenticator.mk (counter parsed) false))
  else Err (errorString "Error validating challenge").

Definition beginLoginCeremony (user : User.t)
    : Rand (string * webauthn.SessionData.t) := fun ent =>
  match User.WebAuthnCredentials user with
  | [] => (Err (errorString "Found no credentials for user"), ent)
  | _ => newChallenge user ent
  end.

(** [ValidateLogin]: the credential must be one of the user's and the
    signature must verify; then the counter goes through
    [Authenticator.UpdateCounter] and the credential is returned. *)
Definition validateLogin (user : User.t) (session : webauthn.SessionData.t)
    (parsed : DeviceResponse) : result webauthn.Credential.t :=
  match find (fun c => bool_decide (webauthn.Credential.ID c = credentialID parsed))
             (User.WebAuthnCredentials user) with
  | None => Err (errorString "Unable to find the credential for the returned credential ID")
  | Some c =>
      if verifies parsed
      then Ok (webauthn.Credential.mk (webauthn.Credential.ID c)
                 (webauthn.Credential.PublicKey c)
                 (webauthn.Credential.AttestationType c)
                 (webauthn.UpdateCounter (webauthn.Credential.Authenticator c)
                    (counter parsed)))
      else Err (errorString "Error validating the assertion signature")
  end.

Definition webAuthnLib : WebAuthnLib :=
  {| CredentialCreation := string;
     CredentialAssertion := string;
     ParsedCredentialCreationData := DeviceResponse;
     ParsedCredentialAssertionData := DeviceResponse;
     BeginRegistration := newChallenge;
     ParseCredentialCreationResponseBody := parseDevice;
     CreateCredential := createCredential;
     BeginLogin := beginLoginCeremony;
     ParseCredentialRequestResponseBody := parseDevice;
     ValidateLogin := validateLogin |}.

Definition encodingLib : EncodingLib :=
  {| json_Marshal := fun d =>
       Ok (bytes_of_string (TransactionData.Amount d ++ "|" ++ TransactionData.Description d
                            ++ "|" ++ TransactionData.Merchant d ++ "|"
                            ++ TransactionData.Date d));
     time_Parse := fun _ _ => Err (errorString "parsing time") |}.

(** Handlers and helpers at the reference libraries. *)
Definition State : Type := @api.Server.
Definition Reply : Type := @api.Response webAuthnLib.

Definition registerBegin := @api.beginRegistration webAuthnLib.
Definition registerFinish := @api.finishRegistration cryptoLib webAuthnLib.
Definition loginBegin := @api.beginLogin webAuthnLib.
Definition loginFinish := @api.finishLogin webAuthnLib.
Definition dekOfToken := @api.decryptDEK cryptoLib.
Definition sync := @api.syncTransactions cryptoLib webAuthnLib encodingLib.

(** Entropy: the bytes 1, 2, 3, ... (wrapping). *)
Definition countingEntropy (n : nat) : bytes :=
  map (fun i => byte_of_N (N.of_nat i)) (seq 1 n).

Definition emptyDB : repository.DB := repository.mkDB [] [] [] [] [] [] [].

Definition freshServer : State :=
  api.mkServer "jwt-secret" auth.NewSessionStore emptyDB (countingEntropy 400) 1%N None.
End Ref.

(* ===================================================================== *)
(** * Vocabulary of the statements                                        *)
(* ===================================================================== *)

(** Two characters that are equal up to letter case. *)
Definition sameLetter (a b : ascii) : Prop :=
  a = b \/ (isUpper a = true /\ b = toLowerChar a) \/ (isUpper b = true /\ a = toLowerChar b).

(** Two strings that differ only in letter case. *)
Inductive caseVariant : string -> string -> Prop :=
| caseVariant_nil : caseVariant EmptyString EmptyString
| caseVariant_cons a b s t :
    sameLetter a b -> caseVariant s t -> caseVariant (String a s) (String b t).

Fixpoint allSpace (s : string) : bool :=
  match s with
  | EmptyString => true
  | String c s' => isSpace c && allSpace s'
  end.

Fixpoint isASCII (s : string) : bool :=
  match s with
  | EmptyString => true
  | String c s' => (N_of_ascii c <? 128)%N && isASCII s'
  end.

(** [p'] differs from [p] only in letter case and in leading and trailing
    whitespace. *)
Definition outerVariant (p p' : string) : Prop :=
  exists l r l' r' core core' : string,
    p = (l ++ core ++ r)%string /\ p' = (l' ++ core' ++ r')%string /\
    allSpace l = true /\ allSpace r = true /\
    allSpace l' = true /\ allSpace r' = true /\
    caseVariant core core'.

(** [p'] differs from [p] only in letter case and in whitespace, the width
    of the runs between words included: the same words in the same order. *)
Definition whitespaceVariant (p p' : string) : Prop :=
  Forall2 caseVariant (Fields p) (Fields p').

(** The answers the statements name. *)
Definition sessionExpired {WL : WebAuthnLib} : api.Response :=
  api.errorJSON api.StatusBadRequest "session expired or invalid".

Definition saveCredentialFailed {WL : WebAuthnLib} : api.Response :=
  api.errorJSON api.StatusInternalServerError "failed to save credential".

(** Referential integrity of [credentials.user_id]. *)
Definition credentialsReferToUsers (d : repository.DB) : Prop :=
  forall c, In c (repository.credentials d) ->
    exists u, In u (repository.users d) /\ User.ID u = Credential.UserID c.

(* ===================================================================== *)
(** * Concrete runs                                                       *)
(* ===================================================================== *)

Module Scenario.
Import Ref.

Definition sessionOf (r : Reply) : string :=
  match api.Payload r with
  | api.RegisterBeginResponse _ _ sid => sid
  | api.LoginBeginResponse _ sid => sid
  | _ => EmptyString
  end.

Definition phraseOf (r : Reply) : string :=
  match api.Payload r with
  | api.RegisterBeginResponse _ phrase _ => phrase
  | _ => EmptyString
  end.

Definition errorOf (r : Reply) : option string :=
  match api.Payload r with
  | api.ErrorBody msg => Some msg
  | _ => None
  end.

Definition countsOf (r : Reply) : option (Z * Z * Z * bool) :=
  match api.Payload r with
  | api.SyncTransactionsResponse added modified removed hasMore =>
      Some (added, modified, removed, hasMore)
  | _ => None
  end.

Definition tokenDEK (r : Reply) : string :=
  match api.Payload r with
  | api.AuthResponse token _ _ => api.JWTClaims.EncryptedDEK (api.Claims token)
  | _ => EmptyString
  end.

(** Register [username] with the device response [device] and the PRF
    output [prf], on server [s]: begin at [t], finish at [t + 1]. *)
Definition register (t : Time) (username device prf : string) (s : State)
    : Reply * Reply * State :=
  let (begun, s1) := registerBegin t (Some (api.RegisterBeginRequest.mk username)) s in
  let (finished, s2) :=
    registerFinish (t + 1)%Z
      (Some (api.RegisterFinishRequest.mk (sessionOf begun) device prf)) s1 in
  (begun, finished, s2).

Definition login (t : Time) (username device : string) (s : State)
    : Reply * Reply * State :=
  let (begun, s1) := loginBegin t (Some (api.LoginBeginRequest.mk username)) s in
  let (finished, s2) :=
    loginFinish (t + 1)%Z
      (Some (api.LoginFinishRequest.mk (sessionOf begun) device EmptyString)) s1 in
  (begun, finished, s2).

(** alice registers without PRF output (the fallback branch). *)
Definition aliceFallback : Reply * Reply * State :=
  register 1000%Z "alice" "10cred-A" EmptyString freshServer.

(** alice registers with the PRF output [01 02 03]. *)
Definition alicePRF : Reply * Reply * State :=
  register 1000%Z "alice" "10cred-A" "AQID" freshServer.

(** alice registers a device whose counter is 5, then logs in with a
    validly signed assertion whose counter is 3. *)
Definition aliceCounter5 : State :=
  snd (register 1000%Z "alice" "15cred-A" EmptyString freshServer).
Definition replayedLogin : Reply * Reply * State :=
  login 5000%Z "alice" "13cred-A" aliceCounter5.

(** bob registers credential [cred-A]; alice then finishes a registration
    that presents the same credential identifier. *)
Definition bobRegistered : State :=
  snd (register 1000%Z "bob" "10cred-A" EmptyString freshServer).
Definition aliceSameCredential : Reply * Reply * State :=
  register 5000%Z "alice" "10cred-A" EmptyString bobRegistered.

(** A server with one user whose DEK is wrapped under the KEK that
    [dekOfToken] derives, one linked Plaid item and one linked account. *)
Definition salt : bytes := bytes_of_string "0123456789abcdef".
Definition dek : bytes := repeat "k"%byte 32.
Definition nonce0 : bytes := bytes_of_string "nonce-000000".
Definition nonce1 : bytes := bytes_of_string "nonce-000001".
Definition placeholderKEK : bytes :=
  @crypto.DeriveKeyFromSecret cryptoLib (bytes_of_string "placeholder-secret") salt.
Definition wrappedDEK : bytes := nonce0 ++ Seal placeholderKEK nonce0 dek.
Definition accessToken : string := "access-sandbox-1".
Definition sealedToken : bytes := nonce1 ++ Seal dek nonce1 (bytes_of_string accessToken).

Definition carol : User.t :=
  User.mk 7%N "carol" wrappedDEK salt (crypto.HashRecoveryPhrase "abandon ability")
          0%Z 0%Z [].
Definition item : PlaidItem.t :=
  PlaidItem.mk 9%N 7%N "item-1" sealedToken "ins_1" "First Bank" "cursor-0" "active" 0%Z.
Definition checking : Account.t := Account.mk 21%N 7%N (bytes_of_string "sealed-account") 0%Z 0%Z.
Definition linked : PlaidAccount.t := PlaidAccount.mk 11%N 9%N 7%N (Some 21%N) "acc-1" "Checking".

Definition syncDB : repository.DB :=
  repository.mkDB [carol] [] [checking] [] [item] [linked] [].

Definition coffee : plaid.Transaction.t :=
  plaid.Transaction.mk "txn-1" "acc-1" "4.50" "Coffee" "Cafe" "2024-01-15".
Definition rent : plaid.Transaction.t :=
  plaid.Transaction.mk "txn-2" "acc-1" "900.00" "Rent" "" "2024-01-01".

(** The provider answers the first cursor with one added, one modified
    and one removed record. *)
Definition batch : plaid.SyncTransactionsResult.t :=
  plaid.SyncTransactionsResult.mk [coffee] [rent]
    [plaid.RemovedTransaction.mk "txn-0"] "cursor-1" false.

Definition provider : plaid.Service :=
  plaid.mkService (fun token cursor =>
    if String.eqb token accessToken && String.eqb cursor "cursor-0"
    then Ok batch else Err (errorString "INVALID_ACCESS_TOKEN")).

Definition providerDown : plaid.Service :=
  plaid.mkService (fun _ _ =>
    Err (wrapError "failed to sync transactions" (errorString "connection refused"))).

(** The client gave up while the provider was being called. *)
Definition providerCancelled : plaid.Service :=
  plaid.mkService (fun _ _ =>
    Err (wrapError "failed to sync transactions" context_Canceled)).

Definition syncServer (svc : plaid.Service) : State :=
  api.mkServer "jwt-secret" auth.NewSessionStore syncDB (countingEntropy 64) 100%N (Some svc).

Definition syncRequest : api.SyncRequest.t :=
  api.SyncRequest.mk (Some 7%N) (Some (base64_EncodeToString wrappedDEK)) (Some 9%N).

(** What a protected handler does with the token of [finished]: look the
    user up and call [dekOfToken] on the token's wrapped DEK. *)
Definition requestDEK (username : string) (finished : Reply) (s : State)
    : result bytes :=
  match repository.GetByUsername username (api.db s) with
  | Ok u => dekOfToken (tokenDEK finished) u
  | Err e => Err e
  end.

(** The wrapped DEK of the token, opened with the KEK derived from
    [secret] and the stored salt. *)
Definition unwrapWith (secret : bytes) (username : string) (finished : Reply)
    (s : State) : result bytes :=
  match repository.GetByUsername username (api.db s),
        base64_DecodeString (tokenDEK finished) with
  | Ok u, Some wrapped =>
      @crypto.DecryptDEK cryptoLib wrapped
        (@crypto.DeriveKeyFromSecret cryptoLib secret (User.DEKSalt u))
  | _, _ => Err repository.ErrNotFound
  end.

Definition storedPhraseHash (username : string) (s : State) : bytes :=
  match repository.GetByUsername username (api.db s) with
  | Ok u => User.RecoveryPhraseHash u
  | Err _ => []
  end.

(** A server holding dave, his credential [cred-D] with stored counter 5,
    and a login ceremony in flight under the handle [sess-1]. *)
Definition dave : User.t :=
  User.mk 40%N "dave" (bytes_of_string "wrapped-dek") (bytes_of_string "salt") []
          0%Z 0%Z [].
Definition daveCredential : Credential.t :=
  Credential.mk (bytes_of_string "cred-D") 40%N (bytes_of_string "public-key")
                "none" 5%N 0%Z.
Definition daveCeremony : auth.SessionData.t :=
  auth.SessionData.mk
    (webauthn.SessionData.mk "challenge" (UUID_bytes 40%N) [bytes_of_string "cred-D"])
    "dave" 40%N (5 * Minute)%Z.
Definition daveServer : State :=
  api.mkServer "jwt-secret" {["sess-1" := daveCeremony]}
    (repository.mkDB [dave] [daveCredential] [] [] [] [] []) [] 50%N None.
Definition daveAssertion : api.LoginFinishRequest.t :=
  api.LoginFinishRequest.mk "sess-1" "13cred-D" EmptyString.
End Scenario.

(* ===================================================================== *)
(** * More of the Go language and standard library                        *)
(* ===================================================================== *)

(** [strings.Split(s, sep)] for a non-empty separator: the pieces of [s]
    between the occurrences of [sep], scanning from the left.  [skip]
    counts the bytes of a separator just matched that are still to be
    passed over. *)
Fixpoint splitFrom (sep : string) (skip : nat) (s cur : string) : list string :=
  match s with
  | EmptyString => [cur]
  | String c s' =>
      match skip with
      | S k => splitFrom sep k s' cur
      | O =>
          if String.prefix sep s
          then cur :: splitFrom sep (String.length sep - 1) s' EmptyString
          else splitFrom sep 0 s' (cur ++ String c EmptyString)
      end
  end.

Definition Split (s sep : string) : list string := splitFrom sep 0 s EmptyString.

(** The conversion [rune(n)] of an [int]: the low 32 bits, signed. *)
Definition rune (n : Z) : Z := ((n + 2147483648) mod 4294967296 - 2147483648)%Z.

Definition byteChar (n : Z) : ascii := ascii_of_N (Z.to_N n).

(** U+FFFD, the replacement character, in UTF-8. *)
Definition RuneError : string :=
  String (byteChar 239) (String (byteChar 191) (String (byteChar 189) EmptyString)).

(** The conversion [string(r)] of a rune: its UTF-8 encoding, and U+FFFD
    for a value that is not a Unicode code point. *)
Definition string_of_rune (r : Z) : string :=
  if ((r <? 0) || (1114111 <? r) || ((55296 <=? r) && (r <=? 57343)))%Z
  then RuneError
  else if (r <? 128)%Z then String (byteChar r) EmptyString
  else if (r <? 2048)%Z
  then String (byteChar (192 + r / 64)) (String (byteChar (128 + r mod 64)) EmptyString)
  else if (r <? 65536)%Z
  then String (byteChar (224 + r / 4096))
         (String (byteChar (128 + (r / 64) mod 64))
            (String (byteChar (128 + r mod 64)) EmptyString))
  else String (byteChar (240 + r / 262144))
         (String (byteChar (128 + (r / 4096) mod 64))
            (String (byteChar (128 + (r / 64) mod 64))
               (String (byteChar (128 + r mod 64)) EmptyString))).

(** [Time.IsZero]: times are counted from the zero [time.Time]. *)
Definition IsZero (t : Time) : bool := (t =? 0)%Z.

(* ===================================================================== *)
(** * package api: answers of the handlers behind the middleware          *)
(* ===================================================================== *)

(** [c.JSON(status, map[string]string{...})] and [c.NoContent(status)]. *)
Module echo.
Record Response : Type := mk { Status : N; Body : option (gmap string string) }.

Definition JSON (status : N) (body : gmap string string) : Response :=
  mk status (Some body).
Definition NoContent (status : N) : Response := mk status None.
Definition errorJSON (status : N) (msg : string) : Response :=
  JSON status {["error" := msg]}.
End echo.

(** golang-jwt's [ParseWithClaims] together with the [token.Valid] flag
    (the key the key function returned, and the clock the expiry is
    checked against), and google/uuid's [Parse]. *)
Class TokenLib : Type := {
  jwt_ParseWithClaims : string -> bytes -> Time -> result api.JWTClaims.t;
  uuid_Parse : string -> result UUID;
}.

Module middleware.
(** [jwtMiddleware]: the answer of the middleware itself, or the two
    values it stores under [user_id] and [encrypted_dek] before it calls
    the next handler. *)
Definition jwtMiddleware {TL : TokenLib} (now : Time) (authHeader : string)
    (s : api.Server) : echo.Response + UUID * string :=
  if String.eqb authHeader EmptyString
  then inl (echo.errorJSON 401 "missing authorization header")
  else
    match Split authHeader " " with
    | [scheme; tokenString] =>
        if negb (String.eqb scheme "Bearer")
        then inl (echo.errorJSON 401 "invalid authorization header")
        else
          match jwt_ParseWithClaims tokenString (bytes_of_string (api.JWTSecret s)) now with
          | Err _ => inl (echo.errorJSON 401 "invalid token")
          | Ok claims =>
              match uuid_Parse (api.JWTClaims.UserID claims) with
              | Err _ => inl (echo.errorJSON 401 "invalid user ID in token")
              | Ok userID => inr (userID, api.JWTClaims.EncryptedDEK claims)
              end
          end
    | _ => inl (echo.errorJSON 401 "invalid authorization header")
    end.
End middleware.

(** The account and privacy handlers, and the Plaid handlers that remove
    data.  A handler that calls the provider's [RemoveItem] returns the
    access tokens it called it with, in order; the result of the call is
    ignored by the code. *)
Module handlers.
Section WithLibrary.
Context {CL : CryptoLib}.

(** [deleteAccount]. *)
Definition deleteAccount (c : api.SyncRequest.t) (s : api.Server)
    : echo.Response * api.Server :=
  match api.SyncRequest.user_id c with
  | None => (echo.errorJSON 401 "unauthorized", s)
  | Some userID =>
    match api.SyncRequest.id c with
    | None => (echo.errorJSON 400 "invalid account ID", s)
    | Some accountID =>
      match repository.AccountRepository.Delete accountID userID (api.db s) with
      | (Some err, d) =>
          if bool_decide (err = repository.ErrNotFound)
          then (echo.errorJSON 404 "account not found", api.withDB s d)
          else (echo.errorJSON 500 "failed to delete account", api.withDB s d)
      | (None, d) => (echo.NoContent 204, api.withDB s d)
      end
    end
  end.

(** [deletePlaidItem]. *)
Definition deletePlaidItem (c : api.SyncRequest.t) (s : api.Server)
    : echo.Response * list string * api.Server :=
  match api.plaidService s with
  | None => (echo.errorJSON 503 "Plaid integration is not configured", [], s)
  | Some _ =>
    match api.SyncRequest.user_id c with
    | None => (echo.errorJSON 401 "unauthorized", [], s)
    | Some userID =>
      match api.SyncRequest.encrypted_dek c with
      | None => (echo.errorJSON 401 "missing encryption key", [], s)
      | Some encryptedDEKB64 =>
        match api.SyncRequest.id c with
        | None => (echo.errorJSON 400 "invalid item ID", [], s)
        | Some itemID =>
          match repository.GetItemByID itemID (api.db s) with
          | Err _ => (echo.errorJSON 404 "item not found", [], s)
          | Ok item =>
            if negb (PlaidItem.UserID item =? userID)%N
            then (echo.errorJSON 403 "access denied", [], s)
            else
              match repository.GetByID userID (api.db s) with
              | Err _ => (echo.errorJSON 500 "failed to get user", [], s)
              | Ok user =>
                match api.decryptDEK encryptedDEKB64 user with
                | Err _ => (echo.errorJSON 500 "failed to decrypt key", [], s)
                | Ok dek =>
                  let removed :=
                    match crypto.Decrypt (PlaidItem.EncryptedAccessToken item) dek with
                    | Ok accessToken => [string_of_bytes accessToken]
                    | Err _ => []
                    end in
                  match repository.DeleteItem itemID userID (api.db s) with
                  | (Some err, d) =>
                      (echo.errorJSON 500 ("failed to delete item: " ++ Error err),
                       removed, api.withDB s d)
                  | (None, d) =>
                      (echo.JSON 200 {["status" := "deleted"]}, removed, api.withDB s d)
                  end
                end
              end
          end
        end
      end
    end
  end.

Definition quote : string := String (ascii_of_N 34) EmptyString.

Definition confirmationRequired : string :=
  "confirmation required: send {" ++ quote ++ "confirmation" ++ quote ++ ": "
    ++ quote ++ "DELETE MY ACCOUNT" ++ quote ++ "}".

(** The loop of [deleteUserAccount] over the user's items. *)
Definition removeItems (items : list PlaidItem.t) (dek : bytes) : list string :=
  flat_map (fun item =>
              match crypto.Decrypt (PlaidItem.EncryptedAccessToken item) dek with
              | Ok accessToken => [string_of_bytes accessToken]
              | Err _ => []
              end) items.

(** [deleteUserAccount]; [body] is the decoded request ([None]: a body that
    does not decode), of which the handler reads [Confirmation]. *)
Definition deleteUserAccount (c : api.SyncRequest.t) (body : option string)
    (s : api.Server) : echo.Response * list string * api.Server :=
  match api.SyncRequest.user_id c with
  | None => (echo.errorJSON 401 "unauthorized", [], s)
  | Some userID =>
    match body with
    | None => (echo.errorJSON 400 "invalid request", [], s)
    | Some Confirmation =>
      if negb (String.eqb Confirmation "DELETE MY ACCOUNT")
      then (echo.errorJSON 400 confirmationRequired, [], s)
      else
        match repository.GetByID userID (api.db s) with
        | Err _ => (echo.errorJSON 500 "failed to get user", [], s)
        | Ok user =>
          let removed :=
            match api.plaidService s, api.SyncRequest.encrypted_dek c with
            | Some _, Some encryptedDEKB64 =>
                match api.decryptDEK encryptedDEKB64 user with
                | Ok dek =>
                    match repository.GetItemsByUserID userID (api.db s) with
                    | Ok items => removeItems items dek
                    | Err _ => []
                    end
                | Err _ => []
                end
            | _, _ => []
            end in
          match repository.Delete userID (api.db s) with
          | (Some _, d) =>
              (echo.errorJSON 500 "failed to delete account", removed, api.withDB s d)
          | (None, d) =>
              (echo.JSON 200
                 {["status" := "deleted";
                   "message" := "Your account and all associated data have been permanently deleted"]},
               removed, api.withDB s d)
          end
        end
    end
  end.
End WithLibrary.
End handlers.

(** [credentialReader] of auth.go: an [io.Reader] over a byte slice. *)
Module credentialReader.
Record t : Type := mk { data : bytes; pos : nat }.

Definition EOF : error := errorString "EOF".

(** [Read(p)] with [len(p) = n]: the bytes copied into [p], the error, and
    the reader afterwards. *)
Definition Read (n : nat) (r : t) : bytes * option error * t :=
  if (length (data r) <=? pos r)%nat
  then ([], Some EOF, r)
  else
    let copied := firstn n (skipn (pos r) (data r)) in
    (copied, None, mk (data r) (pos r + length copied)).
End credentialReader.

(* ===================================================================== *)
(** * package api: security.go                                            *)
(* ===================================================================== *)

Module security.
Module SecurityConfig.
Record t : Type := mk {
  HSTSMaxAge : Z;
  HSTSIncludeSubdomains : bool;
  HSTSPreload : bool;
  CSPDirectives : gmap string (list string);
  RateLimitRequests : Z;
  RateLimitWindow : Z;
  FrameOptions : string;
  ContentTypeNoSniff : bool;
  XSSProtection : bool;
  ReferrerPolicy : string;
}.
End SecurityConfig.

Definition DefaultSecurityConfig : SecurityConfig.t :=
  SecurityConfig.mk 31536000 true false
    (list_to_map
       [("default-src", ["'self'"]);
        ("script-src", ["'self'"]);
        ("style-src", ["'self'"; "'unsafe-inline'"]);
        ("img-src", ["'self'"; "data:"; "https:"]);
        ("font-src", ["'self'"]);
        ("connect-src", ["'self'"; "https://*.plaid.com"]);
        ("frame-src", ["'self'"; "https://*.plaid.com"]);
        ("object-src", ["'none'"]);
        ("base-uri", ["'self'"]);
        ("form-action", ["'self'"])])
    100 Minute "DENY" true true "strict-origin-when-cross-origin".

(** [buildHSTSValue]. *)
Definition buildHSTSValue (config : SecurityConfig.t) : string :=
  let value : string :=
    ("max-age=" ++ string_of_rune (rune (SecurityConfig.HSTSMaxAge config)))%string in
  let value : string := if SecurityConfig.HSTSIncludeSubdomains config
                        then (value ++ "; includeSubDomains")%string else value in
  let value : string := if SecurityConfig.HSTSPreload config
                        then (value ++ "; preload")%string else value in
  value.

(** [RateLimiter]: the admitted requests of each key, oldest first. *)
Module RateLimiter.
Record t : Type := mk {
  requests : gmap string (list Time);
  limit : Z;
  window : Z;
}.
End RateLimiter.

Definition NewRateLimiter (limit window : Z) : RateLimiter.t :=
  RateLimiter.mk ∅ limit window.

(** The loop that keeps the requests after [windowStart]. *)
Definition validRequests (windowStart : Time) (requests : list Time) : list Time :=
  filter (fun t => (windowStart < t)%Z) requests.

(** [Allow]. *)
Definition Allow (key : string) (now : Time) (rl : RateLimiter.t) : bool * RateLimiter.t :=
  let windowStart := (now - RateLimiter.window rl)%Z in
  let requests := default [] (RateLimiter.requests rl !! key) in
  let valid := validRequests windowStart requests in
  if (RateLimiter.limit rl <=? Z.of_nat (length valid))%Z
  then (false,
        RateLimiter.mk (<[key := valid]> (RateLimiter.requests rl))
          (RateLimiter.limit rl) (RateLimiter.window rl))
  else (true,
        RateLimiter.mk (<[key := valid ++ [now]]> (RateLimiter.requests rl))
          (RateLimiter.limit rl) (RateLimiter.window rl)).

(** One tick of the [cleanup] goroutine. *)
Definition cleanup (now : Time) (rl : RateLimiter.t) : RateLimiter.t :=
  let windowStart := (now - RateLimiter.window rl)%Z in
  RateLimiter.mk
    (omap (fun requests =>
             match validRequests windowStart requests with
             | [] => None
             | valid => Some valid
             end) (RateLimiter.requests rl))
    (RateLimiter.limit rl) (RateLimiter.window rl).

(** [RateLimitMiddleware]: the answer of the middleware itself ([None]: the
    next handler runs), keyed by the client address. *)
Definition RateLimitMiddleware (realIP : string) (now : Time) (rl : RateLimiter.t)
    : option echo.Response * RateLimiter.t :=
  match Allow realIP now rl with
  | (false, rl') => (Some (echo.errorJSON 429 "rate limit exceeded"), rl')
  | (true, rl') => (None, rl')
  end.
End security.

(* ===================================================================== *)
(** * package audit                                                       *)
(* ===================================================================== *)

Module audit.
Module Event.
Record t : Type := mk {
  ID : string;
  Timestamp : Time;
  Type_ : string;
  UserID : string;
  SessionID : string;
  Resource : string;
  Action : string;
  Outcome : string;
  Reason : string;
  IP : string;
  UserAgent : string;
  Details : gmap string string;
}.

Definition withID (e : t) (id : string) : t :=
  mk id (Timestamp e) (Type_ e) (UserID e) (SessionID e) (Resource e) (Action e)
     (Outcome e) (Reason e) (IP e) (UserAgent e) (Details e).
Definition withTimestamp (e : t) (ts : Time) : t :=
  mk (ID e) ts (Type_ e) (UserID e) (SessionID e) (Resource e) (Action e)
     (Outcome e) (Reason e) (IP e) (UserAgent e) (Details e).
End Event.

Module QueryFilter.
Record t : Type := mk {
  UserID : string;
  Type_ : string;
  StartTime : Time;
  EndTime : Time;
  Limit : Z;
  Offset : Z;
}.
End QueryFilter.

(** [FileLogger]: the lines appended to the file and the in-memory buffer. *)
Record FileLogger : Type := mkFileLogger {
  file : list bytes;
  events : list Event.t;
}.

Definition maxEvents : Z := 10000.

(** [Log]; [marshal] is [json.Marshal] on events, [id] the next
    [uuid.New()].  A failed write is only reported on the process log; the
    file here takes every line. *)
Definition Log (marshal : Event.t -> result bytes) (now : Time) (id : UUID)
    (event : Event.t) (l : FileLogger) : FileLogger :=
  let event := if String.eqb (Event.ID event) EmptyString
               then Event.withID event (UUID_String id) else event in
  let event := if IsZero (Event.Timestamp event)
               then Event.withTimestamp event now else event in
  let events := events l ++ [event] in
  let events := if (maxEvents <? Z.of_nat (length events))%Z
                then skipn (Z.to_nat (Z.of_nat (length events) - maxEvents)) events
                else events in
  match marshal event with
  | Err _ => mkFileLogger (file l) events
  | Ok data => mkFileLogger (file l ++ [data ++ [x0a]]) events
  end.

(** The four [continue] tests of [Query]. *)
Definition selected (filter : QueryFilter.t) (event : Event.t) : bool :=
  negb (negb (String.eqb (QueryFilter.UserID filter) EmptyString)
        && negb (String.eqb (Event.UserID event) (QueryFilter.UserID filter)))
  && negb (negb (String.eqb (QueryFilter.Type_ filter) EmptyString)
           && negb (String.eqb (Event.Type_ event) (QueryFilter.Type_ filter)))
  && negb (negb (IsZero (QueryFilter.StartTime filter))
           && (Event.Timestamp event <? QueryFilter.StartTime filter)%Z)
  && negb (negb (IsZero (QueryFilter.EndTime filter))
           && (QueryFilter.EndTime filter <? Event.Timestamp event)%Z).

(** [Query]. *)
Definition Query (filter : QueryFilter.t) (l : FileLogger) : result (list Event.t) :=
  let results := List.filter (selected filter) (events l) in
  let results :=
    if ((0 <? QueryFilter.Offset filter)
        && (QueryFilter.Offset filter <? Z.of_nat (length results)))%Z
    then skipn (Z.to_nat (QueryFilter.Offset filter)) results else results in
  let results :=
    if ((0 <? QueryFilter.Limit filter)
        && (QueryFilter.Limit filter <? Z.of_nat (length results)))%Z
    then firstn (Z.to_nat (QueryFilter.Limit filter)) results else results in
  Ok results.
End audit.

(* ===================================================================== *)
(** * More vocabulary of the statements                                   *)
(* ===================================================================== *)

(** A text without white space, and a text of lower-case hexadecimal
    digits. *)
Fixpoint noSpace (s : string) : bool :=
  match s with
  | EmptyString => true
  | String c s' => negb (isSpace c) && noSpace s'
  end.

(** A text without the space character. *)
Fixpoint noBlank (s : string) : bool :=
  match s with
  | EmptyString => true
  | String c s' => negb (Ascii.eqb c " ") && noBlank s'
  end.

Definition isHexDigit (c : ascii) : bool :=
  let n := N_of_ascii c in
  ((48 <=? n) && (n <=? 57))%N || ((97 <=? n) && (n <=? 102))%N.

Fixpoint isLowerHex (s : string) : bool :=
  match s with
  | EmptyString => true
  | String c s' => isHexDigit c && isLowerHex s'
  end.

(** The primary key and the unique constraint of [users], and the primary
    keys of [accounts] and [plaid_items]. *)
Definition usersUnique (d : repository.DB) : Prop :=
  NoDup (map User.ID (repository.users d))
  /\ NoDup (map User.Username (repository.users d)).

Definition accountsUnique (d : repository.DB) : Prop :=
  NoDup (map Account.ID (repository.accounts d)).

Definition itemsUnique (d : repository.DB) : Prop :=
  NoDup (map PlaidItem.ID (repository.plaid_items d)).

(** Some row of some table carries the user identifier [userID]. *)
Definition mentionsUser (userID : UUID) (d : repository.DB) : Prop :=
  (exists u, In u (repository.users d) /\ User.ID u = userID)
  \/ (exists c, In c (repository.credentials d) /\ Credential.UserID c = userID)
  \/ (exists a, In a (repository.accounts d) /\ Account.UserID a = userID)
  \/ (exists t, In t (repository.transactions d) /\ Transaction.UserID t = userID)
  \/ (exists i, In i (repository.plaid_items d) /\ PlaidItem.UserID i = userID)
  \/ (exists a, In a (repository.plaid_accounts d) /\ PlaidAccount.UserID a = userID)
  \/ (exists y, In y (repository.plaid_syncs d) /\ PlaidSync.UserID y = userID).

Definition userExists (d : repository.DB) (id : UUID) : Prop :=
  exists u, In u (repository.users d) /\ User.ID u = id.
Definition accountExists (d : repository.DB) (id : UUID) : Prop :=
  exists a, In a (repository.accounts d) /\ Account.ID a = id.
Definition itemExists (d : repository.DB) (id : UUID) : Prop :=
  exists i, In i (repository.plaid_items d) /\ PlaidItem.ID i = id.

(** Referential integrity: every foreign key of the migrations that the
    tables of the model carry points at a row. *)
Definition integrity (d : repository.DB) : Prop :=
  (forall c, In c (repository.credentials d) -> userExists d (Credential.UserID c))
  /\ (forall a, In a (repository.accounts d) -> userExists d (Account.UserID a))
  /\ (forall t, In t (repository.transactions d) ->
        userExists d (Transaction.UserID t) /\ accountExists d (Transaction.AccountID t))
  /\ (forall i, In i (repository.plaid_items d) -> userExists d (PlaidItem.UserID i))
  /\ (forall a, In a (repository.plaid_accounts d) ->
        userExists d (PlaidAccount.UserID a)
        /\ itemExists d (PlaidAccount.PlaidItemID a)
        /\ forall x, PlaidAccount.AccountID a = Some x -> accountExists d x)
  /\ (forall y, In y (repository.plaid_syncs d) ->
        userExists d (PlaidSync.UserID y) /\ itemExists d (PlaidSync.PlaidItemID y)).

(** Reading a [credentialReader] to its end with a buffer of [n] bytes, as
    the parser of the credential does: the bytes read until the reader
    answers [EOF] ([None]: no [EOF] within [fuel] reads). *)
Fixpoint readAll (fuel n : nat) (r : credentialReader.t) : option bytes :=
  match fuel with
  | O => None
  | S fuel' =>
      match credentialReader.Read n r with
      | (_, Some _, _) => Some []
      | (copied, None, r') =>
          match readAll fuel' n r' with
          | Some rest => Some (copied ++ rest)
          | None => None
          end
      end
  end.

(** The traffic of a rate limiter: requests through [RateLimitMiddleware]
    and ticks of the cleanup goroutine, each at the time the clock shows. *)
Inductive call : Type :=
| request (realIP : string) (now : Time)
| tick (now : Time).

Definition clock (c : call) : Time :=
  match c with
  | request _ now => now
  | tick now => now
  end.

(** One call: the requests let through so far, oldest first, and the
    limiter. *)
Definition serve1 (st : list (string * Time) * security.RateLimiter.t) (c : call)
    : list (string * Time) * security.RateLimiter.t :=
  match c with
  | request realIP now =>
      match security.RateLimitMiddleware realIP now (snd st) with
      | (None, rl') => (fst st ++ [(realIP, now)], rl')
      | (Some _, rl') => (fst st, rl')
      end
  | tick now => (fst st, security.cleanup now (snd st))
  end.

Definition serve (calls : list call) (rl : security.RateLimiter.t)
    : list (string * Time) * security.RateLimiter.t :=
  fold_left serve1 calls ([], rl).

(** A clock that never runs backwards. *)
Fixpoint nondecreasing (ts : list Time) : Prop :=
  match ts with
  | a :: (b :: _) as rest => (a <= b)%Z /\ nondecreasing rest
  | _ => True
  end.

(** The requests of [key] let through in the window that ends at [t]. *)
Definition inWindow (window : Z) (key : string) (t : Time)
    (admitted : list (string * Time)) : list (string * Time) :=
  List.filter (fun a => bool_decide (fst a = key) && (t - window <? snd a)%Z
                        && (snd a <=? t)%Z) admitted.

(** The times at which requests of [key] were let through. *)
Definition timesOf (key : string) (admitted : list (string * Time)) : list Time :=
  map snd (List.filter (fun a => bool_decide (fst a = key)) admitted).

(** What the limiter remembers at time [T]: every request let through that
    is still inside the window. *)
Definition remembers (limit window : Z) (T : Time)
    (st : list (string * Time) * security.RateLimiter.t) : Prop :=
  security.RateLimiter.limit (snd st) = limit
  /\ security.RateLimiter.window (snd st) = window
  /\ Forall (fun a => (snd a <= T)%Z) (fst st)
  /\ forall key : string,
       security.validRequests (T - window)%Z
         (default [] (security.RateLimiter.requests (snd st) !! key))
       = security.validRequests (T - window)%Z (timesOf key (fst st)).

(** An audit event passes [filter]. *)
Definition matches (filter : audit.QueryFilter.t) (e : audit.Event.t) : Prop :=
  (audit.QueryFilter.UserID filter = EmptyString
   \/ audit.Event.UserID e = audit.QueryFilter.UserID filter)
  /\ (audit.QueryFilter.Type_ filter = EmptyString
      \/ audit.Event.Type_ e = audit.QueryFilter.Type_ filter)
  /\ (audit.QueryFilter.StartTime filter = 0%Z
      \/ (audit.QueryFilter.StartTime filter <= audit.Event.Timestamp e)%Z)
  /\ (audit.QueryFilter.EndTime filter = 0%Z
      \/ (audit.Event.Timestamp e <= audit.QueryFilter.EndTime filter)%Z).

(* ===================================================================== *)
(** * More concrete runs                                                  *)
(* ===================================================================== *)

Module Examples.
Import Ref.

(** dave and his credential, with entropy left for a ceremony. *)
Definition daveReady : State :=
  api.mkServer "jwt-secret" auth.NewSessionStore
    (repository.mkDB [Scenario.dave] [Scenario.daveCredential] [] [] [] [] [])
    (countingEntropy 64) 50%N None.

(** carol's item with its provider account not linked to any account. *)
Definition unlinked : PlaidAccount.t := PlaidAccount.mk 11%N 9%N 7%N None "acc-1" "Checking".

Definition unlinkedServer : State :=
  api.mkServer "jwt-secret" auth.NewSessionStore
    (repository.mkDB [Scenario.carol] [] [Scenario.checking] [] [Scenario.item]
       [unlinked] [])
    (countingEntropy 64) 100%N (Some Scenario.provider).
End Examples.

(* ===================================================================== *)
(** * Bytes and digests                                                   *)
(* ===================================================================== *)

Lemma to_N_byte_of_N (n : N) : Byte.to_N (byte_of_N n) = (n mod 256)%N.
Proof.
  unfold byte_of_N. destruct (Byte.of_N (n mod 256)) as [b|] eqn:E.
  - by apply Byte.to_of_N.
  - apply Byte.of_N_None_iff in E.
    pose proof (N.mod_upper_bound n 256). lia.
Qed.

Lemma byte_of_to_N (b : byte) : byte_of_N (Byte.to_N b) = b.
Proof.
  unfold byte_of_N. pose proof (Byte.to_N_bounded b).
  rewrite N.mod_small by lia. by rewrite Byte.of_to_N.
Qed.

Lemma to_N_inj (a b : byte) : Byte.to_N a = Byte.to_N b -> a = b.
Proof. intros E. rewrite <- (byte_of_to_N a), <- (byte_of_to_N b). by rewrite E. Qed.

Lemma Sum256_length (msg : bytes) : length (SHA256.Sum256 msg) = 32.
Proof.
  unfold SHA256.Sum256.
  destruct (SHA256.blocks _ _ _) as [[[[[[[a b] c] d] e] f] g] h]. reflexivity.
Qed.

(** The accumulating comparison of [VerifyRecoveryPhrase] ends at zero
    exactly when it started at zero and the two arrays are equal. *)
Lemma compare_loop (l1 l2 : bytes) (acc : N) :
  length l1 = length l2 ->
  fold_left (fun (diff : N) (hs : byte * byte) =>
               N.lor diff (N.lxor (Byte.to_N (fst hs)) (Byte.to_N (snd hs))))
            (combine l1 l2) acc = 0%N
  <-> acc = 0%N /\ l1 = l2.
Proof.
  revert l2 acc. induction l1 as [|a l1 IH]; intros [|b l2] acc Hlen; simpl in *; try lia.
  - split; [intros ->; done | intros [-> _]; done].
  - rewrite IH by lia. rewrite N.lor_eq_0_iff, N.lxor_eq_0_iff. split.
    + intros [[-> E] ->]. apply to_N_inj in E. by subst.
    + intros [-> [= -> ->]]. done.
Qed.

Lemma VerifyRecoveryPhrase_spec (q : string) (stored : bytes) :
  crypto.VerifyRecoveryPhrase q stored = true <-> crypto.HashRecoveryPhrase q = stored.
Proof.
  unfold crypto.VerifyRecoveryPhrase.
  destruct (length (crypto.HashRecoveryPhrase q) =? length stored)%nat eqn:E; simpl.
  - apply Nat.eqb_eq in E. rewrite N.eqb_eq, compare_loop by done.
    split; [by intros [_ ?] | done].
  - apply Nat.eqb_neq in E. split; [done | by intros <-].
Qed.

(* ===================================================================== *)
(** * package strings                                                     *)
(* ===================================================================== *)

Lemma isSpace_toLowerChar (c : ascii) : isSpace (toLowerChar c) = isSpace c.
Proof. destruct c as [[] [] [] [] [] [] [] []]; reflexivity. Qed.

Lemma toLowerChar_idem (c : ascii) : toLowerChar (toLowerChar c) = toLowerChar c.
Proof. destruct c as [[] [] [] [] [] [] [] []]; reflexivity. Qed.

Lemma sameLetter_lower (a b : ascii) : sameLetter a b -> toLowerChar a = toLowerChar b.
Proof.
  intros [-> | [[_ ->] | [_ ->]]]; [done | |]; by rewrite toLowerChar_idem.
Qed.

Lemma caseVariant_ToLower (s t : string) : caseVariant s t -> ToLower s = ToLower t.
Proof.
  induction 1 as [|a b s t Hab _ IH]; simpl; [done|].
  by rewrite (sameLetter_lower _ _ Hab), IH.
Qed.

Lemma TrimLeft_ToLower (s : string) : TrimLeft (ToLower s) = ToLower (TrimLeft s).
Proof.
  induction s as [|c s IH]; simpl; [done|].
  rewrite isSpace_toLowerChar. by destruct (isSpace c).
Qed.

Lemma TrimRight_ToLower (s : string) : TrimRight (ToLower s) = ToLower (TrimRight s).
Proof.
  induction s as [|c s IH]; simpl; [done|].
  rewrite IH, isSpace_toLowerChar.
  destruct (TrimRight s); simpl; [by destruct (isSpace c) | done].
Qed.

Lemma TrimSpace_ToLower (s : string) : TrimSpace (ToLower s) = ToLower (TrimSpace s).
Proof. unfold TrimSpace. by rewrite TrimLeft_ToLower, TrimRight_ToLower. Qed.

Lemma TrimLeft_allSpace (l : string) : allSpace l = true -> TrimLeft l = EmptyString.
Proof.
  induction l as [|c l IH]; simpl; [done|].
  intros [-> ?]%andb_true_iff. auto.
Qed.

Lemma TrimRight_allSpace (r : string) : allSpace r = true -> TrimRight r = EmptyString.
Proof.
  induction r as [|c r IH]; simpl; [done|].
  intros [-> ?]%andb_true_iff. by rewrite IH.
Qed.

Lemma TrimLeft_app_l (l s : string) :
  allSpace l = true -> TrimLeft (l ++ s)%string = TrimLeft s.
Proof.
  induction l as [|c l IH]; simpl; [done|].
  intros [-> ?]%andb_true_iff. auto.
Qed.

Lemma TrimRight_app_r (s r : string) :
  allSpace r = true -> TrimRight (s ++ r)%string = TrimRight s.
Proof.
  intros Hr. induction s as [|c s IH]; simpl.
  - by apply TrimRight_allSpace.
  - by rewrite IH.
Qed.

Lemma TrimSpace_app_r (s r : string) :
  allSpace r = true -> TrimSpace (s ++ r)%string = TrimSpace s.
Proof.
  intros Hr. unfold TrimSpace. induction s as [|c s IH]; simpl.
  - by rewrite TrimLeft_allSpace.
  - destruct (isSpace c); [done|].
    change (String c (s ++ r)%string) with (String c s ++ r)%string.
    by apply TrimRight_app_r.
Qed.

Lemma TrimSpace_pad (l core r : string) :
  allSpace l = true -> allSpace r = true ->
  TrimSpace (l ++ core ++ r)%string = TrimSpace core.
Proof.
  intros Hl Hr. unfold TrimSpace at 1. rewrite TrimLeft_app_l by done.
  by apply TrimSpace_app_r.
Qed.

Lemma outerVariant_normalized (p p' : string) :
  outerVariant p p' -> ToLower (TrimSpace p') = ToLower (TrimSpace p).
Proof.
  intros (l & r & l' & r' & core & core' & -> & -> & Hl & Hr & Hl' & Hr' & Hc).
  rewrite !TrimSpace_pad by done.
  rewrite <- !TrimSpace_ToLower. by rewrite (caseVariant_ToLower _ _ Hc).
Qed.

(* ===================================================================== *)
(** * The reference AEAD meets the cipher.AEAD contract                   *)
(* ===================================================================== *)

Lemma firstn_app_exact {A} (n : nat) (a b : list A) :
  length a = n -> firstn n (a ++ b) = a.
Proof. intros <-. apply take_app_length. Qed.

Lemma skipn_app_exact {A} (n : nat) (a b : list A) :
  length a = n -> skipn n (a ++ b) = b.
Proof. intros <-. apply drop_app_length. Qed.

Lemma lxor_byte_bound (a b : N) : (a < 256 -> b < 256 -> N.lxor a b < 256)%N.
Proof.
  intros Ha Hb. destruct (N.eq_dec (N.lxor a b) 0%N) as [->|Hne]; [lia|].
  change 256%N with (2 ^ 8)%N. apply N.log2_lt_pow2; [lia|].
  pose proof (N.log2_lxor a b) as Hl.
  assert (N.log2 a < 8)%N.
  { destruct (N.eq_dec a 0%N) as [->|?]; [done|]. apply N.log2_lt_pow2; lia. }
  assert (N.log2 b < 8)%N.
  { destruct (N.eq_dec b 0%N) as [->|?]; [done|]. apply N.log2_lt_pow2; lia. }
  lia.
Qed.

Lemma xorByte_involutive (a b : byte) : Ref.xorByte (Ref.xorByte a b) b = a.
Proof.
  unfold Ref.xorByte. rewrite to_N_byte_of_N.
  pose proof (Byte.to_N_bounded a). pose proof (Byte.to_N_bounded b).
  rewrite N.mod_small by (apply lxor_byte_bound; lia).
  rewrite N.lxor_assoc, N.lxor_nilpotent, N.lxor_0_r. apply byte_of_to_N.
Qed.

Lemma xorStream_involutive (key nonce data : bytes) (i : nat) :
  Ref.xorStream key nonce i (Ref.xorStream key nonce i data) = data.
Proof.
  revert i. induction data as [|b data IH]; intros i; simpl; [done|].
  by rewrite xorByte_involutive, IH.
Qed.

Lemma xorStream_length (key nonce data : bytes) (i : nat) :
  length (Ref.xorStream key nonce i data) = length data.
Proof. revert i. induction data as [|b data IH]; intros i; simpl; [done|]. by rewrite IH. Qed.

Lemma tag_length (key nonce body : bytes) : length (Ref.tag key nonce body) = 16.
Proof. unfold Ref.tag. rewrite length_firstn, Sum256_length. reflexivity. Qed.

Lemma Ref_seal_length (key nonce p : bytes) :
  length (Ref.Seal key nonce p) = length p + 16.
Proof. unfold Ref.Seal. by rewrite length_app, xorStream_length, tag_length. Qed.

Lemma Ref_open_seal (key nonce p : bytes) :
  Ref.Open key nonce (Ref.Seal key nonce p) = Some p.
Proof.
  unfold Ref.Open, Ref.Seal.
  set (body := Ref.xorStream key nonce 0 p).
  rewrite length_app, tag_length, Nat.add_sub.
  rewrite firstn_app_exact, skipn_app_exact by done.
  rewrite bool_decide_eq_true_2 by done.
  unfold body. by rewrite xorStream_involutive.
Qed.

(* ===================================================================== *)
(** * Envelope encryption                                                 *)
(* ===================================================================== *)

Lemma ReadFull_enough (n : nat) (ent : bytes) :
  n <= length ent -> ReadFull n ent = (Ok (firstn n ent), skipn n ent).
Proof. intros H. unfold ReadFull. by rewrite (proj2 (Nat.leb_le _ _) H). Qed.

Section EnvelopeRoundTrip.
Context {CL : CryptoLib}.

(** The contract of [cipher.AEAD]: [Open] undoes [Seal] under the same key
    and nonce, and [Seal] appends a 16-byte tag. *)
Hypothesis open_seal : forall key nonce p : bytes,
  length key = 32 -> length nonce = 12 ->
  aead_Open key nonce (aead_Seal key nonce p) = Some p.
Hypothesis seal_length : forall key nonce p : bytes,
  length (aead_Seal key nonce p) = length p + 16.

Lemma Decrypt_Encrypt (P K ent ent' c : bytes) :
  length K = 32 ->
  crypto.Encrypt P K ent = (Ok c, ent') -> crypto.Decrypt c K = Ok P.
Proof.
  intros HK. unfold crypto.Encrypt, crypto.Decrypt, crypto.keySize.
  rewrite HK. simpl negb. cbv iota.
  unfold ReadFull, crypto.nonceSize, crypto.tagSize.
  destruct (12 <=? length ent)%nat eqn:E; [|done].
  apply Nat.leb_le in E. intros [= <- <-].
  assert (Hn : length (firstn 12 ent) = 12) by (rewrite length_firstn; lia).
  rewrite length_app, seal_length, Hn.
  rewrite (proj2 (Nat.ltb_ge _ _)) by lia.
  rewrite firstn_app_exact, skipn_app_exact by done.
  by rewrite open_seal.
Qed.

(** C8 (spec-modelled [Encrypt] / [Decrypt]).  For every plaintext [P], the
    empty one included, and every key [K] of exactly 32 bytes, [Encrypt]
    returns a ciphertext as soon as the random source yields a nonce, and
    [Decrypt] of whatever [Encrypt] returned gives back [P]; for every key
    whose length is not 32 bytes [Encrypt] fails with the key-length
    error. *)
Theorem C8_decrypt_encrypt_roundtrip (P K ent : bytes) :
  (length K = 32 -> 12 <= length ent ->
     exists c, crypto.Encrypt P K ent = (Ok c, skipn 12 ent)
               /\ crypto.Decrypt c K = Ok P)
  /\ (length K = 32 -> forall c ent',
        crypto.Encrypt P K ent = (Ok c, ent') -> crypto.Decrypt c K = Ok P)
  /\ (length K <> 32 -> crypto.Encrypt P K ent = (Err crypto.ErrKeyLength, ent)).
Proof.
  split; [|split].
  - intros HK Hent.
    assert (E : crypto.Encrypt P K ent
                = (Ok (firstn 12 ent ++ aead_Seal K (firstn 12 ent) P), skipn 12 ent)).
    { unfold crypto.Encrypt, crypto.keySize, crypto.nonceSize.
      rewrite HK. simpl negb. cbv iota. by rewrite ReadFull_enough. }
    eexists. split; [exact E|]. by eapply Decrypt_Encrypt.
  - intros HK c ent' E. by eapply Decrypt_Encrypt.
  - intros HK. unfold crypto.Encrypt, crypto.keySize.
    by rewrite (proj2 (Nat.eqb_neq _ _) HK).
Qed.
End EnvelopeRoundTrip.

Lemma C8_witness :
  exists c, @crypto.Encrypt Ref.cryptoLib [] (repeat x00 32) (Ref.countingEntropy 12)
            = (Ok c, [])
            /\ @crypto.Decrypt Ref.cryptoLib c (repeat x00 32) = Ok [].
Proof.
  apply (proj1 (@C8_decrypt_encrypt_roundtrip Ref.cryptoLib
                  (fun key nonce p _ _ => Ref_open_seal key nonce p) Ref_seal_length
                  [] (repeat x00 32) (Ref.countingEntropy 12))).
  - reflexivity.
  - vm_compute. lia.
Defined.

(* ===================================================================== *)
(** * Recovery phrases                                                    *)
(* ===================================================================== *)

Lemma caseVariant_refl (s : string) : caseVariant s s.
Proof. induction s; constructor; [by left | done]. Qed.

(** C9 (as amended).  For every recovery phrase [p] and every variant [p']
    that differs from [p] only in letter case and in leading or trailing
    whitespace, [VerifyRecoveryPhrase p' (HashRecoveryPhrase p)] is true; and
    for every [q], [VerifyRecoveryPhrase q (HashRecoveryPhrase p)] is true
    exactly when the two phrases have the same digest, so a phrase whose
    trimmed, lower-cased form has another SHA-256 digest is rejected. *)
Theorem C9_verify_recovery_phrase :
  (forall p p' : string,
     isASCII p = true -> isASCII p' = true -> outerVariant p p' ->
     crypto.VerifyRecoveryPhrase p' (crypto.HashRecoveryPhrase p) = true)
  /\ (forall p q : string,
        crypto.VerifyRecoveryPhrase q (crypto.HashRecoveryPhrase p) = true
        <-> crypto.HashRecoveryPhrase q = crypto.HashRecoveryPhrase p).
Proof.
  split.
  - intros p p' _ _ Hv. apply VerifyRecoveryPhrase_spec.
    unfold crypto.HashRecoveryPhrase. by rewrite (outerVariant_normalized _ _ Hv).
  - intros p q. apply VerifyRecoveryPhrase_spec.
Qed.

Lemma C9_witness :
  crypto.VerifyRecoveryPhrase "  ABANDON ability "
    (crypto.HashRecoveryPhrase "abandon Ability") = true.
Proof.
  apply (proj1 C9_verify_recovery_phrase); [reflexivity | reflexivity |].
  exists EmptyString, EmptyString, "  ", " ", "abandon Ability", "ABANDON ability".
  repeat split.
  repeat (apply caseVariant_cons;
          [first [ by left | right; left; split; reflexivity
                 | right; right; split; reflexivity ] |]).
  apply caseVariant_nil.
Defined.

(** C9, counterexample to the claim as stated: a phrase that differs from
    the hashed one only in the width of the whitespace run between two words
    does not verify. *)
Lemma C9_internal_whitespace_not_collapsed :
  whitespaceVariant "abandon ability" "abandon  ability"
  /\ crypto.VerifyRecoveryPhrase "abandon  ability"
       (crypto.HashRecoveryPhrase "abandon ability") = false.
Proof.
  split.
  - unfold whitespaceVariant.
    change (Fields "abandon ability") with ["abandon"; "ability"].
    change (Fields "abandon  ability") with ["abandon"; "ability"].
    repeat constructor; apply caseVariant_refl.
  - vm_compute. reflexivity.
Qed.

(* ===================================================================== *)
(** * The ceremony session store                                          *)
(* ===================================================================== *)

Lemma Get_Delete (h : string) (now : Time) (st : auth.SessionStore) :
  auth.Get h now (auth.Delete h st) = None.
Proof. unfold auth.Get, auth.Delete. by rewrite lookup_delete_eq. Qed.

Lemma Get_None_iff (h : string) (now : Time) (st : auth.SessionStore) :
  auth.Get h now st = None
  <-> st !! h = None
      \/ exists d, st !! h = Some d /\ (auth.SessionData.ExpiresAt d < now)%Z.
Proof.
  unfold auth.Get. destruct (st !! h) as [d|]; [|by split; [left|]].
  destruct (auth.SessionData.ExpiresAt d <? now)%Z eqn:E.
  - apply Z.ltb_lt in E. split; [intros _; right; by exists d | done].
  - apply Z.ltb_ge in E. split; [done|].
    intros [? | (d' & [= <-] & ?)]; [done | lia].
Qed.

Lemma Get_None_later (h : string) (now now' : Time) (st : auth.SessionStore) :
  (now <= now')%Z -> auth.Get h now st = None -> auth.Get h now' st = None.
Proof.
  rewrite !Get_None_iff. intros Hle [? | (d & ? & ?)]; [by left|].
  right. exists d. split; [done | lia].
Qed.

Lemma Get_lookup_None (h : string) (now : Time) (st : auth.SessionStore) :
  st !! h = None -> auth.Get h now st = None.
Proof. intros H. apply Get_None_iff. by left. Qed.

Section Ceremonies.
Context {CL : CryptoLib} {WL : WebAuthnLib}.

Ltac enter_handler :=
  cbv [api.finishRegistration api.finishLogin api.run api.bind api.Bind api.ret].

Ltac split_deferred :=
  cbv beta iota;
  match goal with
  | |- context [api.defer ?f ?rest ?s0] =>
      change (api.defer f rest s0) with (let (r, s') := rest s0 in (r, f s'));
      destruct (rest s0) as [[?|?] ?]
  end.

Lemma finishRegistration_not_found now req s :
  auth.Get (api.RegisterFinishRequest.SessionID req) now (api.sessionStore s) = None ->
  api.finishRegistration now (Some req) s = (sessionExpired, s).
Proof. intros H. enter_handler. by rewrite H. Qed.

Lemma finishLogin_not_found now req s :
  auth.Get (api.LoginFinishRequest.SessionID req) now (api.sessionStore s) = None ->
  api.finishLogin now (Some req) s = (sessionExpired, s).
Proof. intros H. enter_handler. by rewrite H. Qed.

Lemma finishRegistration_consumes now req s d :
  auth.Get (api.RegisterFinishRequest.SessionID req) now (api.sessionStore s) = Some d ->
  api.sessionStore (snd (api.finishRegistration now (Some req) s))
    !! api.RegisterFinishRequest.SessionID req = None.
Proof.
  intros H. enter_handler. rewrite H. split_deferred; simpl; apply lookup_delete_eq.
Qed.

Lemma finishLogin_consumes now req s d :
  auth.Get (api.LoginFinishRequest.SessionID req) now (api.sessionStore s) = Some d ->
  api.sessionStore (snd (api.finishLogin now (Some req) s))
    !! api.LoginFinishRequest.SessionID req = None.
Proof.
  intros H. enter_handler. rewrite H. split_deferred; simpl; apply lookup_delete_eq.
Qed.

Lemma finishRegistration_kills_handle now now' req s :
  (now <= now')%Z ->
  auth.Get (api.RegisterFinishRequest.SessionID req) now'
    (api.sessionStore (snd (api.finishRegistration now (Some req) s))) = None.
Proof.
  intros Hle.
  destruct (auth.Get (api.RegisterFinishRequest.SessionID req) now (api.sessionStore s))
    as [d|] eqn:E.
  - apply Get_lookup_None. by eapply finishRegistration_consumes.
  - rewrite finishRegistration_not_found by done. by eapply Get_None_later.
Qed.

Lemma finishLogin_kills_handle now now' req s :
  (now <= now')%Z ->
  auth.Get (api.LoginFinishRequest.SessionID req) now'
    (api.sessionStore (snd (api.finishLogin now (Some req) s))) = None.
Proof.
  intros Hle.
  destruct (auth.Get (api.LoginFinishRequest.SessionID req) now (api.sessionStore s))
    as [d|] eqn:E.
  - apply Get_lookup_None. by eapply finishLogin_consumes.
  - rewrite finishLogin_not_found by done. by eapply Get_None_later.
Qed.

(** C6.  [finishRegistration] and [finishLogin] answer "session expired or
    invalid" for a handle that is unknown or expired; a Finish call that
    found the session deletes it, whatever the outcome of the ceremony;
    and after any Finish call with a handle, every later Finish call with
    that handle answers "session expired or invalid" and changes nothing. *)
Theorem C6_session_handle_single_use
    (now now' : Time) (h cred prf cred' prf' : string) (s : api.Server) :
  let regReq := Some (api.RegisterFinishRequest.mk h cred prf) in
  let logReq := Some (api.LoginFinishRequest.mk h cred prf) in
  let regReq' := Some (api.RegisterFinishRequest.mk h cred' prf') in
  let logReq' := Some (api.LoginFinishRequest.mk h cred' prf') in
  (api.sessionStore s !! h = None
   \/ (exists d, api.sessionStore s !! h = Some d
                 /\ (auth.SessionData.ExpiresAt d < now)%Z) ->
   api.finishRegistration now regReq s = (sessionExpired, s)
   /\ api.finishLogin now logReq s = (sessionExpired, s))
  /\ (forall d, auth.Get h now (api.sessionStore s) = Some d ->
      api.sessionStore (snd (api.finishRegistration now regReq s)) !! h = None
      /\ api.sessionStore (snd (api.finishLogin now logReq s)) !! h = None)
  /\ ((now <= now')%Z ->
      forall s1,
        s1 = snd (api.finishRegistration now regReq s)
        \/ s1 = snd (api.finishLogin now logReq s) ->
        api.finishRegistration now' regReq' s1 = (sessionExpired, s1)
        /\ api.finishLogin now' logReq' s1 = (sessionExpired, s1)).
Proof.
  intros regReq logReq regReq' logReq'. split; [|split].
  - intros H%Get_None_iff. split.
    + by apply finishRegistration_not_found.
    + by apply finishLogin_not_found.
  - intros d H. split.
    + by apply (finishRegistration_consumes now (api.RegisterFinishRequest.mk h cred prf) s d).
    + by apply (finishLogin_consumes now (api.LoginFinishRequest.mk h cred prf) s d).
  - intros Hle s1 Hs1.
    assert (Hdead : auth.Get h now' (api.sessionStore s1) = None).
    { destruct Hs1 as [-> | ->].
      - by apply (finishRegistration_kills_handle now now'
                    (api.RegisterFinishRequest.mk h cred prf)).
      - by apply (finishLogin_kills_handle now now'
                    (api.LoginFinishRequest.mk h cred prf)). }
    split.
    + by apply finishRegistration_not_found.
    + by apply finishLogin_not_found.
Qed.
End Ceremonies.

(** What the library hands back for a counter that did not strictly
    increase (both values not zero): the stored counter, with the clone
    warning raised. *)
Lemma UpdateCounter_not_increased (a : webauthn.Authenticator.t) (incoming : N) :
  (incoming <= webauthn.Authenticator.SignCount a)%N ->
  (incoming <> 0 \/ webauthn.Authenticator.SignCount a <> 0)%N ->
  webauthn.UpdateCounter a incoming
  = webauthn.Authenticator.mk (webauthn.Authenticator.SignCount a) true.
Proof.
  intros Hle Hnz. unfold webauthn.UpdateCounter.
  rewrite (proj2 (N.leb_le _ _) Hle). simpl.
  destruct (incoming =? 0)%N eqn:E1; [|done].
  destruct (webauthn.Authenticator.SignCount a =? 0)%N eqn:E2; [|done].
  apply N.eqb_eq in E1, E2. lia.
Qed.

Section Login.
Context {WL : WebAuthnLib}.

(** C2 (as amended).  [finishLogin] fails closed on what [ValidateLogin]
    reports as an error (401, no token, nothing written but the consumed
    session), and compares no counters itself: whenever [ValidateLogin]
    returns a credential -- whatever its signature counter and whether or
    not the library raised its clone warning on it -- the login succeeds,
    a token carrying the stored wrapped DEK is issued, and the repository
    is asked to overwrite the stored counter with the counter of the
    returned credential; the result of that write is dropped, so the
    database afterwards is what [UpdateCredentialSignCount] left. *)
Theorem C2_login_follows_ValidateLogin
    (now : Time) (req : api.LoginFinishRequest.t) (s : api.Server)
    (sessionData : auth.SessionData.t) (user : User.t)
    (parsed : ParsedCredentialAssertionData) :
  auth.Get (api.LoginFinishRequest.SessionID req) now (api.sessionStore s)
    = Some sessionData ->
  repository.GetByUsername (auth.SessionData.Username sessionData) (api.db s) = Ok user ->
  ParseCredentialRequestResponseBody
    (bytes_of_string (api.LoginFinishRequest.Credential req)) = Ok parsed ->
  let consumed :=
    auth.Delete (api.LoginFinishRequest.SessionID req) (api.sessionStore s) in
  (forall err,
     ValidateLogin user (auth.SessionData.Session sessionData) parsed = Err err ->
     api.finishLogin now (Some req) s
     = (api.errorJSON api.StatusUnauthorized "authentication failed",
        api.withSessions s consumed))
  /\ (forall credential,
        ValidateLogin user (auth.SessionData.Session sessionData) parsed = Ok credential ->
        api.finishLogin now (Some req) s
        = (api.JSON api.StatusOK
             (api.AuthResponse
                (api.SignedString
                   (api.JWTClaims.mk (UUID_String (User.ID user))
                      (base64_EncodeToString (User.EncryptedDEK user))
                      (now + 24 * Hour)%Z now "ownu")
                   (api.JWTSecret s))
                (UUID_String (User.ID user)) (User.Username user)),
           api.withSessions
             (api.withDB s
                (snd (repository.UpdateCredentialSignCount
                        (webauthn.Credential.ID credential)
                        (webauthn.Authenticator.SignCount
                           (webauthn.Credential.Authenticator credential))
                        (api.db s))))
             consumed)).
Proof.
  intros Hget Huser Hparse consumed. split.
  - intros err Hval.
    cbv [api.finishLogin api.run api.bind api.Bind api.ret api.defer api.query
         api.orFail api.respond].
    by rewrite Hget, Huser, Hparse, Hval.
  - intros credential Hval.
    cbv [api.finishLogin api.run api.bind api.Bind api.ret api.defer api.query
         api.orFail api.respond api.exec api.generateJWT].
    rewrite Hget, Huser, Hparse, Hval. cbv beta iota.
    by destruct (repository.UpdateCredentialSignCount _ _ _).
Qed.
End Login.

(* ===================================================================== *)
(** * Users and credentials                                               *)
(* ===================================================================== *)

Lemma Create_inserted (user : User.t) (d d' : repository.DB) :
  repository.Create user d = (None, d') ->
  d' = repository.withUsers d (repository.users d ++ [User.withCredentials user []])
  /\ forall u, In u (repository.users d) ->
       User.ID u <> User.ID user /\ User.Username u <> User.Username user.
Proof.
  unfold repository.Create.
  destruct (existsb _ (repository.users d)) eqn:E; [done|].
  intros [= <-]. split; [done|]. intros u Hu.
  destruct ((User.ID u =? User.ID user)%N
            || String.eqb (User.Username u) (User.Username user)) eqn:Hf.
  - exfalso. rewrite <- not_true_iff_false in E. apply E.
    apply existsb_exists. by exists u.
  - apply orb_false_iff in Hf as [H1 H2].
    apply N.eqb_neq in H1. apply String.eqb_neq in H2. done.
Qed.

Lemma CreateCredential_refused (cred : Credential.t) (d d' : repository.DB) (e : error) :
  repository.CreateCredential cred d = (Some e, d') -> d' = d.
Proof.
  unfold repository.CreateCredential.
  destruct (existsb _ (repository.credentials d)); [by intros [= _ <-]|].
  destruct (negb _); [by intros [= _ <-] | done].
Qed.

Lemma find_app_last {A} (f : A -> bool) (l : list A) (x : A) :
  (forall y, In y l -> f y = false) -> f x = true -> find f (l ++ [x]) = Some x.
Proof.
  intros Hl Hx. induction l as [|y l IH]; simpl; [by rewrite Hx|].
  rewrite (Hl y) by (by left). apply IH. intros z Hz. apply Hl. by right.
Qed.

Lemma filter_none {A} (P : A -> Prop) `{forall x, Decision (P x)} (l : list A) :
  (forall x, In x l -> ~ P x) -> filter P l = [].
Proof.
  induction l as [|x l IH]; intros Hl; [done|].
  rewrite filter_cons_False by (apply Hl; by left).
  apply IH. intros y Hy. apply Hl. by right.
Qed.

Lemma credentialsReferToUsers_check (d : repository.DB) :
  forallb (fun c => existsb (fun u => (User.ID u =? Credential.UserID c)%N)
                            (repository.users d))
          (repository.credentials d) = true ->
  credentialsReferToUsers d.
Proof.
  intros H c Hc. rewrite forallb_forall in H.
  apply H, existsb_exists in Hc as (u & Hu & E).
  exists u. split; [done | by apply N.eqb_eq].
Qed.

(** One step through a handler: case on the innermost scrutinee of [H]. *)
Ltac step H :=
  match type of H with
  | context [match ?X with _ => _ end] =>
      lazymatch X with
      | context [match _ with _ => _ end] => fail
      | _ => destruct X eqn:?
      end
  end; cbv beta iota zeta in H.

Section Registration.
Context {CL : CryptoLib} {WL : WebAuthnLib}.

(** C4 (as amended).  [finishRegistration] is not atomic: in every
    execution in which credential persistence fails after the user record
    was created, the handler answers 500 "failed to save credential" and
    issues no token, the ceremony session is consumed, no rollback or
    compensating delete is performed, and the user record stays persisted
    -- it can be looked up by name -- with no credential. *)
Theorem C4_failed_credential_keeps_user
    (now : Time) (body : option api.RegisterFinishRequest.t) (s : api.Server) :
  fst (api.finishRegistration now body s) = saveCredentialFailed ->
  credentialsReferToUsers (api.db s) ->
  let s' := snd (api.finishRegistration now body s) in
  exists (req : api.RegisterFinishRequest.t) (user : User.t),
    body = Some req
    /\ api.sessionStore s' !! api.RegisterFinishRequest.SessionID req = None
    /\ repository.users (api.db s') = repository.users (api.db s) ++ [user]
    /\ repository.credentials (api.db s') = repository.credentials (api.db s)
    /\ repository.GetByUsername (User.Username user) (api.db s') = Ok user
    /\ User.Credentials user = [].
Proof.
  intros H Hfk s'. subst s'.
  destruct body as [req|]; [|discriminate H].
  exists req.
  destruct (api.finishRegistration now (Some req) s) as [r s'] eqn:Heq.
  simpl in H. subst r. simpl snd.
  cbv [api.finishRegistration api.run api.bind api.Bind api.ret api.defer api.query
       api.orFail api.respond api.exec api.rand api.generateJWT] in Heq.
  repeat (step Heq; try (injection Heq as Hr Hs; discriminate Hr)).
  all: injection Heq as <-; simpl in *.
  all: match goal with
       | Hc : repository.Create _ _ = (None, _) |- _ =>
           apply Create_inserted in Hc as [-> Hfresh]
       end.
  all: match goal with
       | Hc : repository.CreateCredential _ _ = (Some _, _) |- _ =>
           apply CreateCredential_refused in Hc as ->
       end.
  all: eexists; split; [reflexivity|]; split; [apply lookup_delete_eq|].
  all: split; [reflexivity|]; split; [reflexivity|]; split; [|reflexivity].
  all: unfold repository.GetByUsername; simpl.
  all: rewrite find_app_last;
         [ | intros y Hy; apply String.eqb_neq; by apply Hfresh
           | apply String.eqb_refl ].
  all: unfold repository.loadCredentials, repository.GetCredentialsByUserID; simpl.
  all: rewrite filter_none; [reflexivity|].
  all: intros c Hc Heq; destruct (Hfk c Hc) as (u & Hu & Hid).
  all: destruct (Hfresh u Hu) as [Hne _]; apply Hne; simpl in *.
  all: by rewrite Hid.
Qed.
End Registration.

(* ===================================================================== *)
(** * Transaction sync                                                    *)
(* ===================================================================== *)

(** [CreateSync] either refuses and changes nothing, or appends the row as
    the table stores it. *)
Lemma CreateSync_cases (ctx : Context) (sync : PlaidSync.t) (now : Time)
    (d : repository.DB) :
  (exists e, repository.CreateSync ctx sync now d = (Some e, d))
  \/ (exists row,
        ctx = alive
        /\ repository.storedSync sync now = Ok row
        /\ repository.CreateSync ctx sync now d
           = (None, repository.withPlaidSyncs d (repository.plaid_syncs d ++ [row]))).
Proof.
  unfold repository.CreateSync.
  destruct ctx as [|e0]; [|left; by eexists].
  destruct (repository.storedSync sync now) as [row|e]; [|left; by eexists].
  destruct (existsb _ (repository.plaid_syncs d)); [left; by eexists|].
  destruct (negb _); [left; by eexists|].
  right. by exists row.
Qed.

Lemma storedSync_row (sync row : PlaidSync.t) (now : Time) :
  repository.storedSync sync now = Ok row ->
  exists cursorBefore cursorAfter,
    repository.varchar 255 (PlaidSync.CursorBefore sync) = Ok cursorBefore
    /\ repository.varchar 255 (PlaidSync.CursorAfter sync) = Ok cursorAfter
    /\ row = PlaidSync.mk (PlaidSync.ID sync) (PlaidSync.PlaidItemID sync)
               (PlaidSync.UserID sync) (PlaidSync.AddedCount sync)
               (PlaidSync.ModifiedCount sync) (PlaidSync.RemovedCount sync)
               cursorBefore cursorAfter (PlaidSync.ErrorMessage sync) now.
Proof.
  unfold repository.storedSync, repository.text.
  destruct (negb _); [done|].
  destruct (repository.varchar 255 (PlaidSync.CursorBefore sync)) as [b|]; [|done].
  destruct (repository.varchar 255 (PlaidSync.CursorAfter sync)) as [a|]; [|done].
  destruct (repository.characters (PlaidSync.ErrorMessage sync)); [|done].
  intros [= <-]. by exists b, a.
Qed.

(** [UpdateItemCursor] either refuses and changes nothing, or stores the
    cursor in the rows of the item. *)
Lemma UpdateItemCursor_cases (ctx : Context) (id : UUID) (cursor : string)
    (now : Time) (d : repository.DB) :
  (exists e, repository.UpdateItemCursor ctx id cursor now d = (Some e, d))
  \/ (exists stored,
        repository.varchar 255 cursor = Ok stored
        /\ repository.UpdateItemCursor ctx id cursor now d
           = (None,
              repository.withPlaidItems d
                (map (fun i => if (PlaidItem.ID i =? id)%N
                               then PlaidItem.withCursor i stored now else i)
                   (repository.plaid_items d)))).
Proof.
  unfold repository.UpdateItemCursor.
  destruct ctx as [|e0]; [|left; by eexists].
  destruct (repository.varchar 255 cursor) as [stored|e]; [|left; by eexists].
  right. by exists stored.
Qed.

(** Neither write touches a table other than its own. *)
Lemma CreateSync_frame (ctx : Context) (sync : PlaidSync.t) (now : Time)
    (d : repository.DB) :
  let d' := snd (repository.CreateSync ctx sync now d) in
  repository.users d' = repository.users d
  /\ repository.credentials d' = repository.credentials d
  /\ repository.accounts d' = repository.accounts d
  /\ repository.transactions d' = repository.transactions d
  /\ repository.plaid_items d' = repository.plaid_items d
  /\ repository.plaid_accounts d' = repository.plaid_accounts d.
Proof.
  destruct (CreateSync_cases ctx sync now d) as [[e ->] | (row & _ & _ & ->)]; done.
Qed.

Lemma UpdateItemCursor_frame (ctx : Context) (id : UUID) (cursor : string)
    (now : Time) (d : repository.DB) :
  let d' := snd (repository.UpdateItemCursor ctx id cursor now d) in
  repository.users d' = repository.users d
  /\ repository.credentials d' = repository.credentials d
  /\ repository.accounts d' = repository.accounts d
  /\ repository.transactions d' = repository.transactions d
  /\ repository.plaid_accounts d' = repository.plaid_accounts d
  /\ repository.plaid_syncs d' = repository.plaid_syncs d.
Proof.
  destruct (UpdateItemCursor_cases ctx id cursor now d)
    as [[e ->] | (stored & _ & ->)]; done.
Qed.

Section Sync.
Context {CL : CryptoLib} {WL : WebAuthnLib} {EL : EncodingLib}.

(** Processing one added record draws a nonce and a uuid and touches
    nothing else. *)
Lemma processPlaidTransaction_frame now userID itemID txn dek s :
  let s' := snd (api.processPlaidTransaction now userID itemID txn dek s) in
  api.db s' = api.db s /\ api.sessionStore s' = api.sessionStore s
  /\ api.plaidService s' = api.plaidService s /\ api.JWTSecret s' = api.JWTSecret s.
Proof.
  unfold api.processPlaidTransaction.
  repeat match goal with
         | |- context [match ?X with _ => _ end] => destruct X
         end; done.
Qed.

Lemma processAdded_frame now userID itemID added dek n s :
  let s' := snd (api.processAdded now userID itemID added dek n s) in
  api.db s' = api.db s /\ api.sessionStore s' = api.sessionStore s
  /\ api.plaidService s' = api.plaidService s /\ api.JWTSecret s' = api.JWTSecret s.
Proof.
  revert n s. induction added as [|txn rest IH]; intros n s; simpl; [done|].
  pose proof (processPlaidTransaction_frame now userID itemID txn dek s) as Hf.
  destruct (api.processPlaidTransaction now userID itemID txn dek s) as [[e|] s1];
    simpl in Hf; destruct Hf as (H1 & H2 & H3 & H4);
    rewrite <- H1, <- H2, <- H3, <- H4; apply IH.
Qed.

(** C7 (as amended).  When the call to the provider fails,
    [syncTransactions] answers 500 with the provider's error, leaves the
    item (and so its cursor) unchanged and writes no transaction or account
    record.  It asks the repository for one sync-history record carrying
    the prior cursor and the error, under the request's context, and drops
    the result of that call: the database afterwards is what [CreateSync]
    left, with the record appended when the insert reported no error and
    unchanged when it reported one -- as it does whenever the provider's
    error says that the request was cancelled. *)
Theorem C7_provider_failure_keeps_cursor
    (now : Time) (c : api.SyncRequest.t) (s : api.Server) (svc : plaid.Service)
    (userID itemID : UUID) (encryptedDEKB64 : string) (item : PlaidItem.t)
    (user : User.t) (dek accessToken : bytes) (err : error) :
  api.plaidService s = Some svc ->
  api.SyncRequest.user_id c = Some userID ->
  api.SyncRequest.encrypted_dek c = Some encryptedDEKB64 ->
  api.SyncRequest.id c = Some itemID ->
  repository.GetItemByID itemID (api.db s) = Ok item ->
  PlaidItem.UserID item = userID ->
  repository.GetByID userID (api.db s) = Ok user ->
  api.decryptDEK encryptedDEKB64 user = Ok dek ->
  crypto.Decrypt (PlaidItem.EncryptedAccessToken item) dek = Ok accessToken ->
  plaid.SyncTransactions svc (string_of_bytes accessToken) (PlaidItem.Cursor item)
    = Err err ->
  let r := fst (api.syncTransactions now c s) in
  let s' := snd (api.syncTransactions now c s) in
  let sync := PlaidSync.mk (api.uuids s) itemID userID 0 0 0 (PlaidItem.Cursor item)
                EmptyString (Error err) 0%Z in
  let created := repository.CreateSync (api.contextAfter err) sync now (api.db s) in
  r = api.errorJSON api.StatusInternalServerError
        ("failed to sync transactions: " ++ Error err)
  /\ repository.plaid_items (api.db s') = repository.plaid_items (api.db s)
  /\ repository.GetItemByID itemID (api.db s') = Ok item
  /\ api.db s' = snd created
  /\ (fst created = None ->
      exists cursorBefore,
        repository.varchar 255 (PlaidItem.Cursor item) = Ok cursorBefore
        /\ repository.plaid_syncs (api.db s')
           = repository.plaid_syncs (api.db s)
             ++ [PlaidSync.mk (api.uuids s) itemID userID 0 0 0 cursorBefore
                   EmptyString (Error err) now])
  /\ (fst created <> None -> api.db s' = api.db s)
  /\ (errors_Is err context_Canceled = true -> fst created <> None)
  /\ repository.transactions (api.db s') = repository.transactions (api.db s)
  /\ repository.accounts (api.db s') = repository.accounts (api.db s).
Proof.
  intros Hsvc Huid Henc Hid Hitem Hown Huser Hdek Htok Hfail r s' sync created.
  assert (Hrun : api.syncTransactions now c s
                 = (api.errorJSON api.StatusInternalServerError
                      ("failed to sync transactions: " ++ Error err),
                    api.withDB (api.withUuids s (api.uuids s + 1)%N) (snd created))).
  { cbv [api.syncTransactions api.run api.bind api.ret api.query api.orFail
         api.respond api.exec api.uuid_New].
    rewrite Hsvc, Huid, Henc, Hid. cbv beta iota. rewrite Hitem. cbv beta iota.
    rewrite Hown, N.eqb_refl. cbv beta iota delta [negb].
    rewrite Huser. cbv beta iota. rewrite Hdek. cbv beta iota.
    rewrite Htok. cbv beta iota. rewrite Hfail. cbv beta iota zeta.
    change (api.db (api.withUuids s (api.uuids s + 1)%N)) with (api.db s).
    fold sync. fold created. by destruct created. }
  subst r s'. rewrite Hrun. cbn [fst snd].
  change (api.db (api.withDB ?x ?d)) with d.
  pose proof (CreateSync_frame (api.contextAfter err) sync now (api.db s))
    as (_ & _ & Ha & Ht & Hi & _).
  fold created in Ha, Ht, Hi.
  split; [done|]. split; [done|]. split.
  { unfold repository.GetItemByID in *. by rewrite Hi. }
  split; [done|].
  destruct (CreateSync_cases (api.contextAfter err) sync now (api.db s))
    as [[e He] | (row & Hctx & Hrow & He)]; fold created in He; rewrite He; simpl.
  - split; [done|]. split; [done|]. split; [done|]. by rewrite He in Ha, Ht.
  - split.
    { intros _. apply storedSync_row in Hrow as (b & a & Hb & Ha' & ->).
      exists b. split; [done|].
      assert (a = EmptyString) as -> by (by vm_compute in Ha'; injection Ha' as <-).
      done. }
    split; [done|]. split.
    { intros Hc. unfold api.contextAfter in Hctx. by rewrite Hc in Hctx. }
    by rewrite He in Ha, Ht.
Qed.

(** Whatever the request and the provider's answer, [syncTransactions]
    writes only to [plaid_items] and [plaid_syncs]. *)
Lemma syncTransactions_frame now c s :
  let s' := snd (api.syncTransactions now c s) in
  repository.transactions (api.db s') = repository.transactions (api.db s)
  /\ repository.accounts (api.db s') = repository.accounts (api.db s)
  /\ repository.plaid_accounts (api.db s') = repository.plaid_accounts (api.db s)
  /\ repository.users (api.db s') = repository.users (api.db s)
  /\ repository.credentials (api.db s') = repository.credentials (api.db s).
Proof.
  intros s'. subst s'.
  destruct (api.syncTransactions now c s) as [r s'] eqn:Heq. simpl snd.
  cbv [api.syncTransactions api.run api.bind api.ret api.query api.orFail
       api.respond api.exec api.uuid_New] in Heq.
  repeat (step Heq; try (injection Heq as _ <-; done)).
  all: injection Heq as _ <-.
  all: try match goal with
       | Hp : api.processAdded ?now ?u ?i ?a ?d ?n ?s0 = _ |- _ =>
           pose proof (processAdded_frame now u i a d n s0) as Hf; rewrite Hp in Hf;
           simpl in Hf; destruct Hf as (Hdb & _)
       end.
  all: try match goal with
       | Hx : repository.UpdateItemCursor _ ?i ?k ?t ?d = _ |- _ =>
           pose proof (UpdateItemCursor_frame alive i k t d) as Hu; rewrite Hx in Hu;
           simpl in Hu; rewrite Hdb in Hu
       end.
  all: match goal with
       | Hx : repository.CreateSync ?x ?y ?t ?d = _ |- _ =>
           pose proof (CreateSync_frame x y t d) as Hc; rewrite Hx in Hc; simpl in Hc
       end.
  all: simpl; intuition congruence.
Qed.

(** C10.  No sync call changes a stored transaction, account or linked
    provider account; and in every successful call the [ModifiedCount] and
    [RemovedCount] of the response are the lengths of the modified and
    removed sets the provider delivered for the item's cursor. *)
Theorem C10_modified_and_removed_only_counted
    (now : Time) (c : api.SyncRequest.t) (s : api.Server) :
  let r := fst (api.syncTransactions now c s) in
  let s' := snd (api.syncTransactions now c s) in
  (repository.transactions (api.db s') = repository.transactions (api.db s)
   /\ repository.accounts (api.db s') = repository.accounts (api.db s)
   /\ repository.plaid_accounts (api.db s') = repository.plaid_accounts (api.db s))
  /\ forall addedCount modifiedCount removedCount hasMore,
       r = api.JSON api.StatusOK
             (api.SyncTransactionsResponse addedCount modifiedCount removedCount hasMore) ->
       exists svc itemID item accessToken result,
         api.plaidService s = Some svc
         /\ api.SyncRequest.id c = Some itemID
         /\ repository.GetItemByID itemID (api.db s) = Ok item
         /\ plaid.SyncTransactions svc (string_of_bytes accessToken)
              (PlaidItem.Cursor item) = Ok result
         /\ modifiedCount
            = Z.of_nat (length (plaid.SyncTransactionsResult.Modified result))
         /\ removedCount
            = Z.of_nat (length (plaid.SyncTransactionsResult.Removed result))
         /\ hasMore = plaid.SyncTransactionsResult.HasMore result.
Proof.
  intros r s'. split.
  - pose proof (syncTransactions_frame now c s) as Hf. simpl in Hf. tauto.
  - subst r s'. intros a m rm hm.
    destruct (api.syncTransactions now c s) as [r s'] eqn:Heq. simpl fst.
    intros ->.
    cbv [api.syncTransactions api.run api.bind api.ret api.query api.orFail
         api.respond api.exec api.uuid_New] in Heq.
    repeat (step Heq; try (injection Heq as Hr _; discriminate Hr)).
    inversion Heq; subst.
    repeat esplit; eassumption.
Qed.
End Sync.

(* ===================================================================== *)
(** * Runs of the handlers on concrete requests                           *)
(* ===================================================================== *)

(** The embedded [sha256.Sum256] and [base64.StdEncoding] on known vectors. *)
Example Sum256_abc :
  hex_EncodeToString (SHA256.Sum256 (bytes_of_string "abc"))
  = "ba7816bf8f01cfea414140de5dae2223b00361a396177a9cb410ff61f20015ad".
Proof. vm_compute. reflexivity. Qed.

Example Sum256_two_blocks :
  hex_EncodeToString
    (SHA256.Sum256 (bytes_of_string "abcdbcdecdefdefgefghfghighijhijkijkljklmklmnlmnomnopnopq"))
  = "248d6a61d20638b8e5c026930c3e6039a33ce45964ff2167f6ecedd419db06c1".
Proof. vm_compute. reflexivity. Qed.

Example base64_placeholder :
  base64_EncodeToString (bytes_of_string "placeholder-secret") = "cGxhY2Vob2xkZXItc2VjcmV0"
  /\ base64_DecodeString "cGxhY2Vob2xkZXItc2VjcmV0" = Some (bytes_of_string "placeholder-secret")
  /\ base64_DecodeString "AQID" = Some [x01; x02; x03].
Proof. vm_compute. repeat split. Qed.

Example DeriveKeyFromPassphrase_collapses_whitespace `{CL : CryptoLib} (salt : bytes) :
  crypto.DeriveKeyFromPassphrase "  Abandon   ability  " salt
  = crypto.DeriveKeyFromPassphrase "abandon ability" salt.
Proof. reflexivity. Qed.

Lemma error_response (r : Ref.Reply) (status : N) (msg : string) :
  api.Status r = status -> Scenario.errorOf r = Some msg -> r = api.errorJSON status msg.
Proof.
  destruct r as [st body]. unfold Scenario.errorOf. simpl.
  intros <-. by destruct body; intros [= <-].
Qed.

Lemma sync_response (r : Ref.Reply) (status : N) (a m rm : Z) (h : bool) :
  api.Status r = status -> Scenario.countsOf r = Some (a, m, rm, h) ->
  r = api.JSON status (api.SyncTransactionsResponse a m rm h).
Proof.
  destruct r as [st body]. unfold Scenario.countsOf. simpl.
  intros <-. by destruct body; intros [= <- <- <- <-].
Qed.

Lemma hex_EncodeToString_length (b : bytes) :
  String.length (hex_EncodeToString b) = 2 * length b.
Proof. induction b as [|x b IH]; simpl; [done | rewrite IH; lia]. Qed.

(** The secret behind the fallback KEK of [finishRegistration] -- 64
    hexadecimal characters, or the empty string when the random source
    fails -- is never the text [decryptDEK] derives its KEK from. *)
Lemma fallback_secret_is_not_placeholder (ent : bytes) :
  api.orZero (fst (crypto.GenerateRandomHex 32 ent)) <> "placeholder-secret".
Proof.
  unfold crypto.GenerateRandomHex, ReadFull.
  destruct (32 <=? length ent)%nat eqn:E; simpl; [|done].
  apply Nat.leb_le in E. intros Heq.
  apply (f_equal String.length) in Heq.
  rewrite hex_EncodeToString_length, length_firstn in Heq.
  change (String.length "placeholder-secret") with 18 in Heq. lia.
Qed.

(** C1, the code at a failing input.  alice registers, once with the PRF
    output [01 02 03] and once without any; both registrations succeed and
    return a token.  The wrapped DEK of the token opens under the KEK
    re-derived from the PRF output and the stored salt and yields the DEK
    drawn at registration; [decryptDEK], which derives the KEK from the fixed
    text "placeholder-secret", fails on it with the integrity error, in both
    runs. *)
Theorem C1_decryptDEK_rejects_registered_dek :
  let '(_, finishedPRF, sPRF) := Scenario.alicePRF in
  let '(_, finishedFallback, sFallback) := Scenario.aliceFallback in
  api.Status finishedPRF = 200%N
  /\ Scenario.unwrapWith [x01; x02; x03] "alice" finishedPRF sPRF
     = Ok (firstn 32 (skipn 48 (Ref.countingEntropy 400)))
  /\ Scenario.requestDEK "alice" finishedPRF sPRF = Err crypto.ErrIntegrity
  /\ api.Status finishedFallback = 200%N
  /\ Scenario.requestDEK "alice" finishedFallback sFallback = Err crypto.ErrIntegrity.
Proof. vm_compute. repeat split. Qed.

(** C2, counterexample to the claim as stated.  alice's credential is stored
    with signature counter 5; an assertion that verifies and reports counter
    3 logs her in: the answer is 200 with a token, and the stored counter is
    still 5. *)
Lemma C2_replayed_counter_logs_in :
  let '(_, finished, s) := Scenario.replayedLogin in
  map Credential.SignCount (repository.credentials (api.db Scenario.aliceCounter5)) = [5%N]
  /\ Ref.parseDevice (bytes_of_string "13cred-A")
     = Ok (Ref.mkDeviceResponse true 3 (bytes_of_string "cred-A"))
  /\ api.Status finished = 200%N
  /\ Scenario.tokenDEK finished <> EmptyString
  /\ map Credential.SignCount (repository.credentials (api.db s)) = [5%N].
Proof. vm_compute. repeat split. discriminate. Qed.

Lemma C2_witness :
  api.Status (fst (Ref.loginFinish 1000%Z (Some Scenario.daveAssertion) Scenario.daveServer))
  = 200%N.
Proof.
  unfold Ref.loginFinish.
  rewrite (proj2 (@C2_login_follows_ValidateLogin Ref.webAuthnLib 1000%Z
                    Scenario.daveAssertion Scenario.daveServer Scenario.daveCeremony
                    (User.withCredentials Scenario.dave [Scenario.daveCredential])
                    (Ref.mkDeviceResponse true 3 (bytes_of_string "cred-D"))
                    eq_refl eq_refl eq_refl)
                 (webauthn.Credential.mk (bytes_of_string "cred-D")
                    (bytes_of_string "public-key") "none"
                    (webauthn.Authenticator.mk 5 true))
                 eq_refl).
  reflexivity.
Defined.

(** C4, counterexample to the claim as stated.  bob has registered the
    credential [cred-A]; alice finishes a registration that presents the same
    credential identifier.  Her user row is inserted, the credential insert
    is refused, the answer is 500 "failed to save credential", and alice
    stays in [users] with no credential. *)
Lemma C4_user_left_without_credential :
  let '(_, finished, s) := Scenario.aliceSameCredential in
  api.Status finished = 500%N
  /\ Scenario.errorOf finished = Some "failed to save credential"
  /\ map User.Username (repository.users (api.db s)) = ["bob"; "alice"]
  /\ (match repository.GetByUsername "alice" (api.db s) with
      | Ok u => User.Credentials u
      | Err _ => [Scenario.daveCredential]
      end) = []
  /\ map Credential.UserID (repository.credentials (api.db s)) = [1%N].
Proof. vm_compute. repeat split. Qed.

Lemma C4_witness :
  let begun := Ref.registerBegin 5000%Z (Some (api.RegisterBeginRequest.mk "alice"))
                 Scenario.bobRegistered in
  let body := Some (api.RegisterFinishRequest.mk (Scenario.sessionOf (fst begun))
                      "10cred-A" EmptyString) in
  let s' := snd (Ref.registerFinish 5001%Z body (snd begun)) in
  exists req user,
    body = Some req
    /\ api.sessionStore s' !! api.RegisterFinishRequest.SessionID req = None
    /\ repository.users (api.db s') = repository.users (api.db (snd begun)) ++ [user]
    /\ repository.credentials (api.db s') = repository.credentials (api.db (snd begun))
    /\ repository.GetByUsername (User.Username user) (api.db s') = Ok user
    /\ User.Credentials user = [].
Proof.
  intros begun body.
  apply (@C4_failed_credential_keeps_user Ref.cryptoLib Ref.webAuthnLib 5001%Z body
           (snd begun)).
  - apply error_response; vm_compute; reflexivity.
  - apply credentialsReferToUsers_check. vm_compute. reflexivity.
Defined.

(** C5, the code at a failing input.  The phrase [beginRegistration] returns
    to alice is not the phrase [finishRegistration] hashes: the stored hash
    is the hash of a second phrase, generated at Finish, and the phrase
    shown at Begin does not verify against it. *)
Theorem C5_finish_hashes_another_phrase :
  let '(begun, finished, s) := Scenario.aliceFallback in
  api.Status finished = 200%N
  /\ Scenario.phraseOf begun
     = "about ability abstract ability about ability acid ability about ability abstract ability"
  /\ Scenario.storedPhraseHash "alice" s
     = crypto.HashRecoveryPhrase
         "about ability advance ability about ability abstract ability about ability acid ability"
  /\ crypto.VerifyRecoveryPhrase (Scenario.phraseOf begun)
       (Scenario.storedPhraseHash "alice" s) = false.
Proof. vm_compute. repeat split. Qed.

Lemma C6_witness :
  let s1 := snd (Ref.loginFinish 1000%Z (Some Scenario.daveAssertion) Scenario.daveServer) in
  Ref.registerFinish 2000%Z
    (Some (api.RegisterFinishRequest.mk "sess-1" "10cred-D" EmptyString)) s1
  = (sessionExpired, s1)
  /\ Ref.loginFinish 2000%Z (Some Scenario.daveAssertion) s1 = (sessionExpired, s1).
Proof.
  intros s1.
  apply (proj2 (proj2 (@C6_session_handle_single_use Ref.cryptoLib Ref.webAuthnLib
                         1000%Z 2000%Z "sess-1" "13cred-D" EmptyString
                         "10cred-D" EmptyString Scenario.daveServer))).
  - lia.
  - right. reflexivity.
Defined.

(** C3, the code at a failing input.  The provider delivers one added record
    for a linked account.  The call succeeds and reports one added record,
    the cursor moves to the provider's next cursor, and the [transactions]
    table is as empty as before: the record was encrypted and dropped. *)
Theorem C3_added_record_not_persisted :
  let '(r, s') := Ref.sync 77%Z Scenario.syncRequest
                    (Scenario.syncServer Scenario.provider) in
  plaid.SyncTransactionsResult.Added Scenario.batch = [Scenario.coffee]
  /\ api.Status r = 200%N
  /\ Scenario.countsOf r = Some (1%Z, 1%Z, 1%Z, false)
  /\ map PlaidItem.Cursor (repository.plaid_items (api.db s')) = ["cursor-1"]
  /\ repository.transactions (api.db (Scenario.syncServer Scenario.provider)) = []
  /\ repository.transactions (api.db s') = [].
Proof. vm_compute. repeat split. Qed.

Lemma C7_witness :
  let srv := Scenario.syncServer Scenario.providerDown in
  let err := wrapError "failed to sync transactions" (errorString "connection refused") in
  let r := fst (Ref.sync 77%Z Scenario.syncRequest srv) in
  let s' := snd (Ref.sync 77%Z Scenario.syncRequest srv) in
  let sync := PlaidSync.mk (api.uuids srv) 9%N 7%N 0 0 0 (PlaidItem.Cursor Scenario.item)
                EmptyString (Error err) 0%Z in
  let created := repository.CreateSync (api.contextAfter err) sync 77%Z (api.db srv) in
  fst created = None
  /\ r = api.errorJSON api.StatusInternalServerError
        ("failed to sync transactions: " ++ Error err)
  /\ repository.plaid_items (api.db s') = repository.plaid_items (api.db srv)
  /\ repository.GetItemByID 9%N (api.db s') = Ok Scenario.item
  /\ api.db s' = snd created
  /\ (fst created = None ->
      exists cursorBefore,
        repository.varchar 255 (PlaidItem.Cursor Scenario.item) = Ok cursorBefore
        /\ repository.plaid_syncs (api.db s')
           = repository.plaid_syncs (api.db srv)
             ++ [PlaidSync.mk (api.uuids srv) 9%N 7%N 0 0 0 cursorBefore
                   EmptyString (Error err) 77%Z])
  /\ (fst created <> None -> api.db s' = api.db srv)
  /\ (errors_Is err context_Canceled = true -> fst created <> None)
  /\ repository.transactions (api.db s') = repository.transactions (api.db srv)
  /\ repository.accounts (api.db s') = repository.accounts (api.db srv).
Proof.
  intros srv err. split; [vm_compute; reflexivity|].
  refine (@C7_provider_failure_keeps_cursor Ref.cryptoLib Ref.webAuthnLib Ref.encodingLib
            77%Z Scenario.syncRequest srv Scenario.providerDown 7%N 9%N
            (base64_EncodeToString Scenario.wrappedDEK) Scenario.item
            (User.withCredentials Scenario.carol []) Scenario.dek
            (bytes_of_string Scenario.accessToken) err
            eq_refl eq_refl eq_refl eq_refl eq_refl eq_refl eq_refl _ _ eq_refl).
  - vm_compute. reflexivity.
  - vm_compute. reflexivity.
Defined.

(** C7, the claim as it was made, at a failing input.  The client gives the
    request up while the provider is being called: the call to the provider
    fails with an error that wraps [context.Canceled], the handler answers
    the 500, and the insert of the sync-history record, made under the same
    context, is refused.  No record carrying the error is appended. *)
Theorem C7_cancelled_request_leaves_no_record :
  let srv := Scenario.syncServer Scenario.providerCancelled in
  let '(r, s') := Ref.sync 77%Z Scenario.syncRequest srv in
  plaid.SyncTransactions Scenario.providerCancelled Scenario.accessToken
    (PlaidItem.Cursor Scenario.item)
  = Err (wrapError "failed to sync transactions" context_Canceled)
  /\ api.Status r = 500%N
  /\ Scenario.errorOf r
     = Some "failed to sync transactions: failed to sync transactions: context canceled"
  /\ repository.plaid_syncs (api.db srv) = []
  /\ repository.plaid_syncs (api.db s') = []
  /\ api.db s' = api.db srv.
Proof. vm_compute. repeat split. Qed.

Lemma C10_witness :
  exists svc itemID item accessToken result,
    api.plaidService (Scenario.syncServer Scenario.provider) = Some svc
    /\ api.SyncRequest.id Scenario.syncRequest = Some itemID
    /\ repository.GetItemByID itemID (api.db (Scenario.syncServer Scenario.provider))
       = Ok item
    /\ plaid.SyncTransactions svc (string_of_bytes accessToken) (PlaidItem.Cursor item)
       = Ok result
    /\ 1%Z = Z.of_nat (length (plaid.SyncTransactionsResult.Modified result))
    /\ 1%Z = Z.of_nat (length (plaid.SyncTransactionsResult.Removed result))
    /\ false = plaid.SyncTransactionsResult.HasMore result.
Proof.
  apply (proj2 (@C10_modified_and_removed_only_counted Ref.cryptoLib Ref.webAuthnLib
                  Ref.encodingLib 77%Z Scenario.syncRequest
                  (Scenario.syncServer Scenario.provider)) 1%Z 1%Z 1%Z false).
  apply sync_response; vm_compute; reflexivity.
Defined.

(* ===================================================================== *)
(** * Recovery phrases, random identifiers and passphrase keys            *)
(* ===================================================================== *)

Lemma string_app_cons (x : ascii) (a b : string) :
  (String x a ++ b)%string = String x (a ++ b)%string.
Proof. reflexivity. Qed.

Lemma string_app_assoc (a b c : string) : ((a ++ b) ++ c = a ++ (b ++ c))%string.
Proof.
  induction a as [|x a IH]; [done|]. by rewrite !string_app_cons, IH.
Qed.

Lemma string_app_nil_r (a : string) : (a ++ EmptyString)%string = a.
Proof.
  induction a as [|x a IH]; [done|]. by rewrite string_app_cons, IH.
Qed.

Lemma fieldsFrom_word (w rest cur : string) :
  noSpace w = true ->
  fieldsFrom (w ++ rest) cur = fieldsFrom rest (cur ++ w).
Proof.
  revert cur. induction w as [|c w IH]; intros cur H; simpl.
  - by rewrite string_app_nil_r.
  - simpl in H. apply andb_true_iff in H as [Hc Hw].
    apply negb_true_iff in Hc. rewrite Hc, IH by done.
    by rewrite string_app_assoc.
Qed.

Lemma fieldsFrom_space_nonempty (rest cur : string) :
  cur <> EmptyString ->
  fieldsFrom (" " ++ rest) cur = cur :: fieldsFrom rest EmptyString.
Proof. intros H. simpl. by destruct cur. Qed.

Lemma Fields_Join (words : list string) :
  Forall (fun w => w <> EmptyString /\ noSpace w = true) words ->
  Fields (Join words " ") = words.
Proof.
  unfold Fields. induction 1 as [|w ws [Hne Hns] Hws IH]; [done|].
  destruct ws as [|w' ws].
  - simpl. rewrite <- (string_app_nil_r w) at 1.
    rewrite fieldsFrom_word by done. simpl. by destruct w.
  - change (Join (w :: w' :: ws) " ") with (w ++ " " ++ Join (w' :: ws) " ")%string.
    rewrite fieldsFrom_word by done. simpl (EmptyString ++ w)%string.
    rewrite fieldsFrom_space_nonempty by done. by rewrite IH.
Qed.

Lemma wordList_words :
  forallb (fun w => negb (String.eqb w EmptyString) && noSpace w) crypto.wordList = true.
Proof. vm_compute. reflexivity. Qed.

Lemma phraseWord_in (entropy : bytes) (i : nat) :
  In (crypto.phraseWord entropy i) crypto.wordList.
Proof.
  unfold crypto.phraseWord. apply nth_In.
  apply Nat.mod_upper_bound. discriminate.
Qed.

Lemma wordList_word (w : string) :
  In w crypto.wordList -> w <> EmptyString /\ noSpace w = true.
Proof.
  intros H. pose proof wordList_words as Hall. rewrite forallb_forall in Hall.
  apply Hall, andb_true_iff in H as [H1 H2].
  apply negb_true_iff, String.eqb_neq in H1. done.
Qed.

Lemma GenerateRecoveryPhrase_Ok (ent ent' : bytes) (phrase : string) :
  crypto.GenerateRecoveryPhrase ent = (Ok phrase, ent') ->
  16 <= length ent /\ ent' = skipn 16 ent
  /\ exists words,
       phrase = Join words " " /\ length words = 12
       /\ Forall (fun w => In w crypto.wordList) words
       /\ Fields phrase = words.
Proof.
  unfold crypto.GenerateRecoveryPhrase, ReadFull.
  destruct (16 <=? length ent)%nat eqn:E; [|done].
  apply Nat.leb_le in E. intros Heq.
  assert (H1 : phrase = Join (map (crypto.phraseWord (firstn 16 ent)) (seq 0 12)) " ")
    by congruence.
  assert (H2 : ent' = skipn 16 ent) by congruence.
  clear Heq. subst phrase ent'. split; [done|]. split; [done|].
  exists (map (crypto.phraseWord (firstn 16 ent)) (seq 0 12)).
  assert (Hin : Forall (fun w => In w crypto.wordList)
                  (map (crypto.phraseWord (firstn 16 ent)) (seq 0 12))).
  { apply List.Forall_forall. intros w Hw. apply in_map_iff in Hw as (i & <- & _).
    apply phraseWord_in. }
  split; [done|]. split; [by rewrite length_map, length_seq|]. split; [exact Hin|].
  apply Fields_Join. eapply List.Forall_impl; [|exact Hin].
  intros w. apply wordList_word.
Qed.

(** X1.  Given the 16 bytes it asks the random source for,
    [GenerateRecoveryPhrase] consumes exactly those and answers twelve words
    of the word list joined by single spaces, so that splitting the phrase
    at white space gives the twelve words back. *)
Theorem GenerateRecoveryPhrase_twelve_words (ent : bytes) :
  16 <= length ent ->
  exists words,
    crypto.GenerateRecoveryPhrase ent = (Ok (Join words " "), skipn 16 ent)
    /\ length words = 12
    /\ Forall (fun w => In w crypto.wordList) words
    /\ Fields (Join words " ") = words.
Proof.
  intros H.
  destruct (crypto.GenerateRecoveryPhrase ent) as [[phrase|e] ent'] eqn:E.
  - apply GenerateRecoveryPhrase_Ok in E as (_ & -> & words & -> & Hl & Hin & Hf).
    by exists words.
  - unfold crypto.GenerateRecoveryPhrase in E.
    rewrite ReadFull_enough in E by done. done.
Qed.

Lemma GenerateRecoveryPhrase_twelve_words_witness :
  exists words,
    crypto.GenerateRecoveryPhrase (Ref.countingEntropy 20)
    = (Ok (Join words " "), skipn 16 (Ref.countingEntropy 20))
    /\ length words = 12
    /\ Forall (fun w => In w crypto.wordList) words
    /\ Fields (Join words " ") = words.
Proof.
  apply (GenerateRecoveryPhrase_twelve_words (Ref.countingEntropy 20)).
  vm_compute. lia.
Defined.

Lemma nth_firstn_lt {A} (i n : nat) (l : list A) (d : A) :
  i < n -> nth i (firstn n l) d = nth i l d.
Proof.
  revert i l. induction n as [|n IH]; intros i l H; [lia|].
  destruct l as [|x l]; [by destruct i|].
  destruct i as [|i]; simpl; [done|]. apply IH. lia.
Qed.

Lemma phraseWord_firstn (ent : bytes) (i : nat) :
  i < 12 ->
  crypto.phraseWord (firstn 16 ent) i
  = crypto.phraseWord (firstn 13 ent) i.
Proof.
  intros Hi. unfold crypto.phraseWord.
  rewrite !(Nat.mod_small i 16), !(Nat.mod_small (i + 1) 16) by lia.
  by rewrite !nth_firstn_lt by lia.
Qed.

(** X2.  The phrase is a function of the first 13 of the 16 entropy bytes
    drawn: word [i] is picked by bytes [i] and [i + 1], for [i] below 12. *)
Theorem GenerateRecoveryPhrase_reads_13_bytes (ent1 ent2 : bytes) :
  16 <= length ent1 -> 16 <= length ent2 ->
  firstn 13 ent1 = firstn 13 ent2 ->
  fst (crypto.GenerateRecoveryPhrase ent1) = fst (crypto.GenerateRecoveryPhrase ent2).
Proof.
  intros H1 H2 Heq. unfold crypto.GenerateRecoveryPhrase.
  rewrite !ReadFull_enough by done. cbn [fst]. do 2 f_equal.
  apply map_ext_in. intros i Hi. apply in_seq in Hi.
  rewrite !phraseWord_firstn by lia. by rewrite Heq.
Qed.

Lemma GenerateRecoveryPhrase_reads_13_bytes_witness :
  fst (crypto.GenerateRecoveryPhrase (Ref.countingEntropy 16))
  = fst (crypto.GenerateRecoveryPhrase (Ref.countingEntropy 13 ++ [xff; xfe; xfd])).
Proof.
  apply GenerateRecoveryPhrase_reads_13_bytes.
  - vm_compute. lia.
  - vm_compute. lia.
  - reflexivity.
Defined.

Lemma hexDigit_isHexDigit (n : N) : (n < 16)%N -> isHexDigit (hexDigit n) = true.
Proof.
  intros H.
  assert (Hall : forallb (fun k => isHexDigit (hexDigit (N.of_nat k))) (seq 0 16) = true)
    by reflexivity.
  rewrite forallb_forall in Hall.
  rewrite <- (N2Nat.id n). apply Hall. apply in_seq. lia.
Qed.

Lemma hex_EncodeToString_isLowerHex (b : bytes) : isLowerHex (hex_EncodeToString b) = true.
Proof.
  induction b as [|x b IH]; [done|]. simpl.
  pose proof (Byte.to_N_bounded x) as Hx.
  rewrite !hexDigit_isHexDigit, IH; [done | |].
  - apply N.mod_lt. done.
  - apply N.Div0.div_lt_upper_bound. lia.
Qed.

(** X3.  Given the [n] bytes it asks the random source for,
    [GenerateRandomHex n] consumes exactly those and answers [2n] lower-case
    hexadecimal digits. *)
Theorem GenerateRandomHex_shape (n : nat) (ent : bytes) :
  n <= length ent ->
  exists h,
    crypto.GenerateRandomHex n ent = (Ok h, skipn n ent)
    /\ String.length h = 2 * n
    /\ isLowerHex h = true.
Proof.
  intros H. exists (hex_EncodeToString (firstn n ent)). split; [|split].
  - unfold crypto.GenerateRandomHex. by rewrite ReadFull_enough.
  - rewrite hex_EncodeToString_length, length_firstn. lia.
  - apply hex_EncodeToString_isLowerHex.
Qed.

Lemma GenerateRandomHex_shape_witness :
  exists h,
    crypto.GenerateRandomHex 4 (Ref.countingEntropy 6)
    = (Ok h, skipn 4 (Ref.countingEntropy 6))
    /\ String.length h = 2 * 4
    /\ isLowerHex h = true.
Proof.
  apply (GenerateRandomHex_shape 4 (Ref.countingEntropy 6)). vm_compute. lia.
Defined.

Lemma ToLower_app (a b : string) :
  ToLower (a ++ b)%string = (ToLower a ++ ToLower b)%string.
Proof.
  induction a as [|x a IH]; [done|].
  rewrite string_app_cons. simpl ToLower. by rewrite string_app_cons, IH.
Qed.

Lemma fieldsFrom_ToLower (s cur : string) :
  fieldsFrom (ToLower s) (ToLower cur) = map ToLower (fieldsFrom s cur).
Proof.
  revert cur. induction s as [|c s IH]; intros cur; simpl.
  - by destruct cur.
  - rewrite isSpace_toLowerChar. destruct (isSpace c).
    + destruct cur; simpl; [apply (IH EmptyString) | f_equal; apply (IH EmptyString)].
    + rewrite <- IH. by rewrite ToLower_app.
Qed.

Lemma fieldsFrom_TrimRight (s cur : string) :
  fieldsFrom (TrimRight s) cur = fieldsFrom s cur.
Proof.
  revert cur. induction s as [|c s IH]; intros cur; [done|].
  simpl TrimRight. destruct (TrimRight s) as [|c' r] eqn:E.
  - destruct (isSpace c) eqn:Hc; simpl; rewrite Hc.
    + rewrite <- IH. simpl. by destruct cur.
    + by rewrite <- IH.
  - simpl. destruct (isSpace c); [destruct cur|]; by rewrite <- IH.
Qed.

Lemma Fields_TrimLeft (s : string) : Fields (TrimLeft s) = Fields s.
Proof.
  unfold Fields. induction s as [|c s IH]; [done|].
  simpl. destruct (isSpace c) eqn:Hc; [done|]. simpl. by rewrite Hc.
Qed.

Lemma Fields_normalized (p : string) :
  Fields (ToLower (TrimSpace p)) = map ToLower (Fields p).
Proof.
  unfold Fields at 1. rewrite (fieldsFrom_ToLower _ EmptyString).
  unfold TrimSpace. rewrite fieldsFrom_TrimRight.
  by rewrite <- Fields_TrimLeft.
Qed.

(** X4.  [DeriveKeyFromPassphrase] derives the same key from any two
    ASCII passphrases that hold the same words in the same order, whatever
    the letter case and the white space before, between and after the
    words. *)
Theorem DeriveKeyFromPassphrase_whitespace_and_case
    `{CL : CryptoLib} (p p' : string) (salt : bytes) :
  isASCII p = true -> isASCII p' = true -> whitespaceVariant p p' ->
  crypto.DeriveKeyFromPassphrase p salt = crypto.DeriveKeyFromPassphrase p' salt.
Proof.
  intros _ _ Hv. unfold crypto.DeriveKeyFromPassphrase.
  rewrite !Fields_normalized. do 3 f_equal.
  unfold whitespaceVariant in Hv.
  induction Hv as [|w w' ws ws' Hw _ IH]; [done|].
  simpl. by rewrite (caseVariant_ToLower _ _ Hw), IH.
Qed.

Lemma DeriveKeyFromPassphrase_whitespace_and_case_witness :
  @crypto.DeriveKeyFromPassphrase Ref.cryptoLib "abandon ability" Scenario.salt
  = @crypto.DeriveKeyFromPassphrase Ref.cryptoLib "abandon  ability" Scenario.salt.
Proof.
  apply (@DeriveKeyFromPassphrase_whitespace_and_case Ref.cryptoLib);
    [reflexivity | reflexivity |].
  unfold whitespaceVariant.
  change (Fields "abandon ability") with ["abandon"; "ability"].
  change (Fields "abandon  ability") with ["abandon"; "ability"].
  repeat constructor; apply caseVariant_refl.
Defined.

(* ===================================================================== *)
(** * The session store over time                                         *)
(* ===================================================================== *)

(** X5.  A session saved at [now] is returned by [Get] under its key up to
    and including five minutes later and not after that, and [Save] changes
    what [Get] answers under no other key. *)
Theorem Save_Get_lifetime
    (key key' : string) (session : webauthn.SessionData.t) (username : string)
    (userID : UUID) (now now' : Time) (s : auth.SessionStore) :
  let s' := auth.Save key session username userID now s in
  ((now' <= now + 5 * Minute)%Z ->
   auth.Get key now' s'
   = Some (auth.SessionData.mk session username userID (now + 5 * Minute)%Z))
  /\ ((now + 5 * Minute < now')%Z -> auth.Get key now' s' = None)
  /\ (key' <> key -> auth.Get key' now' s' = auth.Get key' now' s).
Proof.
  intros s'. subst s'. unfold auth.Get, auth.Save. repeat split.
  - intros H. rewrite lookup_insert_eq. simpl.
    by rewrite (proj2 (Z.ltb_ge _ _) H).
  - intros H. rewrite lookup_insert_eq. simpl.
    by rewrite (proj2 (Z.ltb_lt _ _) H).
  - intros H. by rewrite lookup_insert_ne.
Qed.

Lemma Save_Get_lifetime_witness :
  let s' := auth.Save "sess-2" (auth.SessionData.Session Scenario.daveCeremony) "dave"
              40%N 1000%Z (api.sessionStore Scenario.daveServer) in
  auth.Get "sess-2" (1000 + 5 * Minute)%Z s'
  = Some (auth.SessionData.mk (auth.SessionData.Session Scenario.daveCeremony) "dave"
            40%N (1000 + 5 * Minute)%Z)
  /\ auth.Get "sess-2" (1001 + 5 * Minute)%Z s' = None
  /\ auth.Get "sess-1" 2000%Z s'
     = auth.Get "sess-1" 2000%Z (api.sessionStore Scenario.daveServer).
Proof.
  intros s'. split; [|split].
  - apply (proj1 (Save_Get_lifetime "sess-2" "sess-1"
                    (auth.SessionData.Session Scenario.daveCeremony) "dave" 40%N
                    1000%Z (1000 + 5 * Minute)%Z (api.sessionStore Scenario.daveServer))).
    lia.
  - apply (proj1 (proj2 (Save_Get_lifetime "sess-2" "sess-1"
                    (auth.SessionData.Session Scenario.daveCeremony) "dave" 40%N
                    1000%Z (1001 + 5 * Minute)%Z (api.sessionStore Scenario.daveServer)))).
    lia.
  - apply (proj2 (proj2 (Save_Get_lifetime "sess-2" "sess-1"
                    (auth.SessionData.Session Scenario.daveCeremony) "dave" 40%N
                    1000%Z 2000%Z (api.sessionStore Scenario.daveServer)))).
    discriminate.
Defined.

(** X6.  A tick of the [cleanup] goroutine removes exactly the entries
    whose expiry lies before the tick, and no [Get] at the time of the tick
    or later can tell whether the tick has happened. *)
Theorem cleanup_invisible_to_Get
    (key : string) (now now' : Time) (s : auth.SessionStore) :
  (forall d, auth.cleanup now s !! key = Some d
             <-> s !! key = Some d /\ (now <= auth.SessionData.ExpiresAt d)%Z)
  /\ ((now <= now')%Z -> auth.Get key now' (auth.cleanup now s) = auth.Get key now' s).
Proof.
  assert (Hl : forall d, auth.cleanup now s !! key = Some d
             <-> s !! key = Some d /\ (now <= auth.SessionData.ExpiresAt d)%Z).
  { intros d. unfold auth.cleanup. rewrite map_lookup_filter_Some. simpl.
    split; intros [? ?]; (split; [done | lia]). }
  split; [exact Hl|]. intros Hle. unfold auth.Get.
  destruct (auth.cleanup now s !! key) as [d|] eqn:E.
  - destruct (proj1 (Hl d) eq_refl) as [-> _]. done.
  - destruct (s !! key) as [d|] eqn:E'; [|done].
    destruct (auth.SessionData.ExpiresAt d <? now')%Z eqn:Hx; [done|].
    apply Z.ltb_ge in Hx.
    assert (None = Some d) as Hc by (apply Hl; split; [done | lia]).
    discriminate Hc.
Qed.

Lemma cleanup_invisible_to_Get_witness :
  auth.Get "sess-1" (6 * Minute)%Z
    (auth.cleanup (5 * Minute + 1)%Z (api.sessionStore Scenario.daveServer))
  = auth.Get "sess-1" (6 * Minute)%Z (api.sessionStore Scenario.daveServer).
Proof.
  apply (proj2 (cleanup_invisible_to_Get "sess-1" (5 * Minute + 1)%Z (6 * Minute)%Z
                  (api.sessionStore Scenario.daveServer))).
  vm_compute. discriminate.
Defined.

(* ===================================================================== *)
(** * The tables under inserts, updates and deletes                       *)
(* ===================================================================== *)

Lemma In_filter {A} (P : A -> Prop) `{!forall x, Decision (P x)} (l : list A) (x : A) :
  In x (filter P l) <-> P x /\ In x l.
Proof. rewrite <- !list_elem_of_In. apply list_elem_of_filter. Qed.

Lemma find_none_iff {A} (f : A -> bool) (l : list A) :
  find f l = None <-> forall x, In x l -> f x = false.
Proof.
  split; [apply find_none|].
  induction l as [|x l IH]; intros H; [done|]. simpl.
  rewrite (H x) by (by left). apply IH. intros y Hy. apply H. by right.
Qed.

Lemma NoDup_map_In {A B} (f : A -> B) (l : list A) (x y : A) :
  NoDup (map f l) -> In x l -> In y l -> f x = f y -> x = y.
Proof.
  induction l as [|z l IH]; simpl; [done|].
  rewrite NoDup_cons. intros [Hz Hl] [-> | Hx] [-> | Hy] E; auto.
  - exfalso. apply Hz. rewrite E. apply list_elem_of_In. by apply in_map.
  - exfalso. apply Hz. rewrite <- E. apply list_elem_of_In. by apply in_map.
Qed.

Lemma find_unique {A B} (f : A -> B) (eqb : B -> B -> bool) (l : list A) (u : A) :
  (forall a b, eqb a b = true <-> a = b) ->
  NoDup (map f l) -> In u l -> find (fun x => eqb (f x) (f u)) l = Some u.
Proof.
  intros Heqb. induction l as [|z l IH]; simpl; [done|].
  rewrite NoDup_cons. intros [Hz Hl] [-> | Hu].
  - by rewrite (proj2 (Heqb _ _) eq_refl).
  - destruct (eqb (f z) (f u)) eqn:E; [|auto].
    apply Heqb in E. exfalso. apply Hz. rewrite E.
    apply list_elem_of_In. by apply in_map.
Qed.

Lemma N_eqb_iff (a b : N) : (a =? b)%N = true <-> a = b.
Proof. apply N.eqb_eq. Qed.

Lemma lookups_agree (d : repository.DB) (u : User.t) :
  usersUnique d -> In u (repository.users d) ->
  repository.GetByID (User.ID u) d = Ok (repository.loadCredentials d u)
  /\ repository.GetByUsername (User.Username u) d = Ok (repository.loadCredentials d u).
Proof.
  intros [Hid Hname] Hu. unfold repository.GetByID, repository.GetByUsername.
  rewrite (find_unique User.ID N.eqb _ u N_eqb_iff Hid Hu).
  by rewrite (find_unique User.Username String.eqb _ u String.eqb_eq Hname Hu).
Qed.

Lemma Create_refused (user : User.t) (d d' : repository.DB) (e : error) :
  repository.Create user d = (Some e, d') -> d' = d.
Proof.
  unfold repository.Create. destruct (existsb _ _); [by intros [= _ <-] | done].
Qed.

(** X7.  [Create] keeps the identifiers and the names of [users] free of
    duplicates, whether it inserts or refuses; and in a table free of
    duplicates [GetByID] and [GetByUsername] find the same row for each
    stored user, with that user's credentials loaded. *)
Theorem Create_keeps_users_unique (user : User.t) (d : repository.DB) :
  usersUnique d ->
  let d' := snd (repository.Create user d) in
  usersUnique d'
  /\ forall u, In u (repository.users d') ->
       repository.GetByID (User.ID u) d' = Ok (repository.loadCredentials d' u)
       /\ repository.GetByUsername (User.Username u) d'
          = Ok (repository.loadCredentials d' u).
Proof.
  intros Hd d'.
  assert (Hd' : usersUnique d').
  { subst d'. destruct (repository.Create user d) as [[e|] d1] eqn:E; simpl.
    - by rewrite (Create_refused _ _ _ _ E).
    - apply Create_inserted in E as [-> Hfresh]. destruct Hd as [Hid Hname].
      unfold usersUnique. simpl. rewrite !map_app. simpl. split.
      + apply NoDup_app. split; [done|]. split; [|apply NoDup_singleton].
        intros x Hx%list_elem_of_In%in_map_iff Hy%list_elem_of_In.
        destruct Hy as [<- | []].
        destruct Hx as (u & Hu & Hin). by destruct (Hfresh u Hin).
      + apply NoDup_app. split; [done|]. split; [|apply NoDup_singleton].
        intros x Hx%list_elem_of_In%in_map_iff Hy%list_elem_of_In.
        destruct Hy as [<- | []].
        destruct Hx as (u & Hu & Hin). by destruct (Hfresh u Hin). }
  split; [done|]. intros u Hu. by apply lookups_agree.
Qed.

Lemma Create_keeps_users_unique_witness :
  let d' := snd (repository.Create Scenario.dave (api.db (Scenario.syncServer Scenario.provider))) in
  usersUnique d'
  /\ forall u, In u (repository.users d') ->
       repository.GetByID (User.ID u) d' = Ok (repository.loadCredentials d' u)
       /\ repository.GetByUsername (User.Username u) d'
          = Ok (repository.loadCredentials d' u).
Proof.
  apply (Create_keeps_users_unique Scenario.dave
           (api.db (Scenario.syncServer Scenario.provider))).
  split; simpl; apply NoDup_singleton.
Defined.




Lemma unlink_keeps (gone : list UUID) (a : PlaidAccount.t) :
  PlaidAccount.UserID (repository.unlink gone a) = PlaidAccount.UserID a
  /\ PlaidAccount.PlaidItemID (repository.unlink gone a) = PlaidAccount.PlaidItemID a
  /\ PlaidAccount.ID (repository.unlink gone a) = PlaidAccount.ID a
  /\ forall x, PlaidAccount.AccountID (repository.unlink gone a) = Some x ->
       PlaidAccount.AccountID a = Some x /\ ~ In x gone.
Proof.
  unfold repository.unlink. destruct (PlaidAccount.AccountID a) as [y|] eqn:E.
  - destruct (bool_decide (y ∈ gone)) eqn:Hy; simpl;
      (split; [done|]); (split; [done|]); (split; [done|]); intros z Hz; [done|].
    rewrite E in Hz. injection Hz as <-. split; [done|].
    apply bool_decide_eq_false in Hy. by rewrite <- list_elem_of_In.
  - (split; [done|]); (split; [done|]); (split; [done|]).
    intros z Hz. rewrite E in Hz. done.
Qed.

Lemma existsb_false {A} (f : A -> bool) (l : list A) :
  existsb f l = false <-> forall x, In x l -> f x = false.
Proof.
  rewrite <- not_true_iff_false, existsb_exists. split.
  - intros H x Hx. destruct (f x) eqn:E; [|done]. exfalso. apply H. by exists x.
  - intros H (x & Hx & E). rewrite (H x Hx) in E. done.
Qed.

Lemma Delete_success (userID : UUID) (d d' : repository.DB) :
  repository.Delete userID d = (None, d') ->
  let goneAccounts :=
    map Account.ID (filter (fun a => Account.UserID a = userID) (repository.accounts d)) in
  let goneItems :=
    map PlaidItem.ID (filter (fun i => PlaidItem.UserID i = userID)
                        (repository.plaid_items d)) in
  d' = repository.mkDB
         (filter (fun u => User.ID u <> userID) (repository.users d))
         (filter (fun c => Credential.UserID c <> userID) (repository.credentials d))
         (filter (fun a => Account.UserID a <> userID) (repository.accounts d))
         (filter (fun t => Transaction.UserID t <> userID
                           /\ Transaction.AccountID t ∉ goneAccounts)
                 (repository.transactions d))
         (filter (fun i => PlaidItem.UserID i <> userID) (repository.plaid_items d))
         (map (repository.unlink goneAccounts)
            (filter (fun a => PlaidAccount.UserID a <> userID
                              /\ PlaidAccount.PlaidItemID a ∉ goneItems)
                    (repository.plaid_accounts d)))
         (filter (fun y => PlaidSync.UserID y <> userID
                           /\ PlaidSync.PlaidItemID y ∉ goneItems)
                 (repository.plaid_syncs d)).
Proof.
  unfold repository.Delete. destruct (negb _); [done|]. by intros [= <-].
Qed.

Lemma Delete_forgets (userID : UUID) (d d' : repository.DB) :
  repository.Delete userID d = (None, d') ->
  ~ mentionsUser userID d'
  /\ repository.GetByID userID d' = Err repository.ErrNotFound
  /\ forall u, In u (repository.users d) -> User.ID u <> userID ->
       In u (repository.users d').
Proof.
  intros E. apply Delete_success in E. simpl in E. subst d'. simpl. split; [|split].
  - unfold mentionsUser. simpl.
    intros [(x & Hx & E) | [(x & Hx & E) | [(x & Hx & E) | [(x & Hx & E)
          | [(x & Hx & E) | [(x & Hx & E) | (x & Hx & E)]]]]]].
    all: try (apply In_filter in Hx as [Hp _]; tauto).
    apply in_map_iff in Hx as (a & <- & Ha). apply In_filter in Ha as [Hp _].
    destruct (unlink_keeps
                (map Account.ID (filter (fun a => Account.UserID a = userID)
                                   (repository.accounts d))) a) as (Hu & _).
    rewrite Hu in E. tauto.
  - unfold repository.GetByID. simpl.
    rewrite (proj2 (find_none_iff _ _)); [done|].
    intros u [Hu _]%In_filter. by apply N.eqb_neq.
  - intros u Hu Hne. apply In_filter. done.
Qed.

Lemma Delete_refused (userID : UUID) (d d' : repository.DB) (e : error) :
  repository.Delete userID d = (Some e, d') ->
  e = repository.ErrNotFound /\ d' = d
  /\ repository.GetByID userID d = Err repository.ErrNotFound.
Proof.
  unfold repository.Delete.
  destruct (existsb _ (repository.users d)) eqn:E; simpl; [done|].
  intros [= <- <-]. repeat split. unfold repository.GetByID.
  rewrite (proj2 (find_none_iff _ _)); [done|]. by apply existsb_false.
Qed.

(** X9.  [UserRepository.Delete] answers [ErrNotFound] and changes nothing
    when no user has the identifier; when it succeeds, no row of any table
    carries the identifier any more, [GetByID] no longer finds the user, and
    every other user's row is still in [users]. *)
Theorem Delete_erases_user (userID : UUID) (d : repository.DB) :
  let d' := snd (repository.Delete userID d) in
  (fst (repository.Delete userID d) = None ->
   ~ mentionsUser userID d'
   /\ repository.GetByID userID d' = Err repository.ErrNotFound
   /\ forall u, In u (repository.users d) -> User.ID u <> userID ->
        In u (repository.users d'))
  /\ (forall e, fst (repository.Delete userID d) = Some e ->
      e = repository.ErrNotFound /\ d' = d
      /\ repository.GetByID userID d = Err repository.ErrNotFound).
Proof.
  intros d'. subst d'.
  destruct (repository.Delete userID d) as [[e|] d'] eqn:E; simpl; split; try done.
  - intros e' [= <-]. by eapply Delete_refused.
  - intros _. by apply Delete_forgets.
Qed.

Lemma Delete_erases_user_witness :
  let d := api.db (Scenario.syncServer Scenario.provider) in
  let d' := snd (repository.Delete 7%N d) in
  (~ mentionsUser 7%N d'
   /\ repository.GetByID 7%N d' = Err repository.ErrNotFound
   /\ forall u, In u (repository.users d) -> User.ID u <> 7%N ->
        In u (repository.users d'))
  /\ (repository.ErrNotFound = repository.ErrNotFound
      /\ snd (repository.Delete 8%N d) = d
      /\ repository.GetByID 8%N d = Err repository.ErrNotFound).
Proof.
  intros d d'. split.
  - apply (proj1 (Delete_erases_user 7%N d)). reflexivity.
  - apply (proj2 (Delete_erases_user 8%N d)). reflexivity.
Defined.

Lemma gone_In {A} (P : A -> Prop) `{!forall x, Decision (P x)} (f : A -> UUID)
    (l : list A) (x : A) :
  In x l -> f x ∉ map f (filter P l) -> ~ P x.
Proof.
  intros Hx Hnot HP. apply Hnot, list_elem_of_In, in_map. by apply In_filter.
Qed.

Lemma Delete_keeps_integrity (userID : UUID) (d : repository.DB) :
  integrity d -> integrity (snd (repository.Delete userID d)).
Proof.
  intros (Hc & Ha & Ht & Hi & Hp & Hy).
  destruct (repository.Delete userID d) as [[e|] d'] eqn:E.
  { unfold repository.Delete in E. destruct (negb _); [|done].
    injection E as _ <-. done. }
  apply Delete_success in E. simpl in E. subst d'. simpl.
  assert (Hu : forall id, id <> userID -> userExists d id ->
                 userExists (repository.mkDB
                   (filter (fun u => User.ID u <> userID) (repository.users d))
                   [] [] [] [] [] []) id).
  { intros id Hne (u & Hu & <-). exists u. split; [|done]. by apply In_filter. }
  unfold integrity, userExists, accountExists, itemExists in *. simpl in *.
  split; [|split; [|split; [|split; [|split]]]].
  - intros c [Hne Hin]%In_filter. by apply Hu, Hc.
  - intros a [Hne Hin]%In_filter. by apply Hu, Ha.
  - intros t [[Hne Hgone] Hin]%In_filter. split; [by apply Hu, Ht|].
    destruct (Ht t Hin) as [_ (a & Hain & Hid)]. exists a. split; [|done].
    apply In_filter. split; [|done]. rewrite <- Hid in Hgone.
    by apply (gone_In (fun a => Account.UserID a = userID) Account.ID
                (repository.accounts d) a).
  - intros i [Hne Hin]%In_filter. by apply Hu, Hi.
  - intros a (a0 & <- & [[Hne Hgone] Hin]%In_filter)%in_map_iff.
    destruct (unlink_keeps
                (map Account.ID (filter (fun a => Account.UserID a = userID)
                                   (repository.accounts d))) a0) as (-> & -> & _ & Hl).
    destruct (Hp a0 Hin) as (Hpu & (i & Hiin & Hid) & Hacc).
    split; [by apply Hu|]. split.
    + exists i. split; [|done].
      apply In_filter. split; [|done]. rewrite <- Hid in Hgone.
      by apply (gone_In (fun i => PlaidItem.UserID i = userID) PlaidItem.ID
                  (repository.plaid_items d) i).
    + intros x Hx. destruct (Hl x Hx) as [Hx0 Hngone].
      destruct (Hacc x Hx0) as (acc & Hain & Hxid). exists acc. split; [|done].
      apply In_filter. split; [|done]. intros Hown. apply Hngone.
      rewrite <- Hxid. apply in_map. by apply In_filter.
  - intros y [[Hne Hgone] Hin]%In_filter. split; [by apply Hu, Hy|].
    destruct (Hy y Hin) as (_ & (i & Hiin & Hid)). exists i. split; [|done].
    apply In_filter. split; [|done]. rewrite <- Hid in Hgone.
    by apply (gone_In (fun i => PlaidItem.UserID i = userID) PlaidItem.ID
                (repository.plaid_items d) i).
Qed.

Lemma account_Delete_cases (id userID : UUID) (d : repository.DB) :
  (existsb (repository.AccountRepository.owned id userID) (repository.accounts d) = false
   /\ repository.AccountRepository.Delete id userID d = (Some repository.ErrNotFound, d))
  \/ (existsb (repository.AccountRepository.owned id userID) (repository.accounts d) = true
      /\ repository.AccountRepository.Delete id userID d
         = (None,
            repository.mkDB (repository.users d) (repository.credentials d)
              (filter (fun a => repository.AccountRepository.owned id userID a = false)
                      (repository.accounts d))
              (filter (fun t => Transaction.AccountID t <> id) (repository.transactions d))
              (repository.plaid_items d)
              (map (repository.unlink [id]) (repository.plaid_accounts d))
              (repository.plaid_syncs d))).
Proof.
  unfold repository.AccountRepository.Delete.
  destruct (existsb _ _); [right | left]; done.
Qed.

Lemma not_owned_other (id userID : UUID) (a : Account.t) :
  Account.ID a <> id -> repository.AccountRepository.owned id userID a = false.
Proof.
  intros H. unfold repository.AccountRepository.owned.
  by rewrite (proj2 (N.eqb_neq _ _) H).
Qed.

Lemma account_Delete_keeps_integrity (id userID : UUID) (d : repository.DB) :
  integrity d -> integrity (snd (repository.AccountRepository.Delete id userID d)).
Proof.
  intros Hint.
  destruct (account_Delete_cases id userID d) as [[_ ->] | [_ ->]]; [exact Hint|].
  destruct Hint as (Hc & Ha & Ht & Hi & Hp & Hy).
  unfold integrity, userExists, accountExists, itemExists in *. simpl in *.
  split; [|split; [|split; [|split; [|split]]]]; try done.
  - intros a [_ Hin]%In_filter. by apply Ha.
  - intros t [Hne Hin]%In_filter. split; [by apply Ht|].
    destruct (Ht t Hin) as [_ (a & Hain & Hid)]. exists a. split; [|done].
    apply In_filter. split; [|done]. apply not_owned_other. by rewrite Hid.
  - intros a (a0 & <- & Hin)%in_map_iff.
    destruct (unlink_keeps [id] a0) as (-> & -> & _ & Hl).
    destruct (Hp a0 Hin) as (Hpu & Hpi & Hacc).
    split; [done|]. split; [done|].
    intros x Hx. destruct (Hl x Hx) as [Hx0 Hngone].
    destruct (Hacc x Hx0) as (acc & Hain & Hxid). exists acc. split; [|done].
    apply In_filter. split; [|done]. apply not_owned_other.
    rewrite Hxid. intros Hid. apply Hngone. by left.
Qed.

Lemma DeleteItem_cases (id userID : UUID) (d : repository.DB) :
  let mine := fun i => (PlaidItem.ID i =? id)%N && (PlaidItem.UserID i =? userID)%N in
  (existsb mine (repository.plaid_items d) = false
   /\ repository.DeleteItem id userID d = (Some (errorString "plaid item not found"), d))
  \/ (existsb mine (repository.plaid_items d) = true
      /\ repository.DeleteItem id userID d
         = (None,
            repository.mkDB (repository.users d) (repository.credentials d)
              (repository.accounts d) (repository.transactions d)
              (filter (fun i => mine i = false) (repository.plaid_items d))
              (filter (fun a => PlaidAccount.PlaidItemID a <> id)
                      (repository.plaid_accounts d))
              (filter (fun y => PlaidSync.PlaidItemID y <> id)
                      (repository.plaid_syncs d)))).
Proof.
  intros mine. unfold repository.DeleteItem. fold mine.
  destruct (existsb mine _); [right | left]; done.
Qed.

Lemma DeleteItem_keeps_integrity (id userID : UUID) (d : repository.DB) :
  integrity d -> integrity (snd (repository.DeleteItem id userID d)).
Proof.
  intros Hint.
  destruct (DeleteItem_cases id userID d) as [[_ ->] | [_ ->]]; [exact Hint|].
  destruct Hint as (Hc & Ha & Ht & Hi & Hp & Hy).
  unfold integrity, userExists, accountExists, itemExists in *. simpl in *.
  assert (Hkeep : forall x, x <> id ->
            (exists i, In i (repository.plaid_items d) /\ PlaidItem.ID i = x) ->
            exists i, In i (filter (fun i => (PlaidItem.ID i =? id)%N
                                             && (PlaidItem.UserID i =? userID)%N = false)
                              (repository.plaid_items d)) /\ PlaidItem.ID i = x).
  { intros x Hne (i & Hin & <-). exists i. split; [|done].
    apply In_filter. split; [|done]. by rewrite (proj2 (N.eqb_neq _ _) Hne). }
  split; [|split; [|split; [|split; [|split]]]]; try done.
  - intros i [_ Hin]%In_filter. by apply Hi.
  - intros a [Hne Hin]%In_filter. destruct (Hp a Hin) as (Hpu & Hpi & Hacc).
    split; [done|]. split; [by apply Hkeep | done].
  - intros y [Hne Hin]%In_filter. destruct (Hy y Hin) as (Hyu & Hyi).
    split; [done | by apply Hkeep].
Qed.

(** X10.  The three deletes -- of a user, of an account, of a Plaid item --
    keep referential integrity: when every reference of the tables pointed
    at a row before, every reference of the rows that are left points at a
    row that is left. *)
Theorem deletes_keep_integrity (userID accountID itemID : UUID) (d : repository.DB) :
  integrity d ->
  integrity (snd (repository.Delete userID d))
  /\ integrity (snd (repository.AccountRepository.Delete accountID userID d))
  /\ integrity (snd (repository.DeleteItem itemID userID d)).
Proof.
  intros H. split; [|split].
  - by apply Delete_keeps_integrity.
  - by apply account_Delete_keeps_integrity.
  - by apply DeleteItem_keeps_integrity.
Qed.

Lemma integrity_check (d : repository.DB) :
  let user := fun id => existsb (fun u => (User.ID u =? id)%N) (repository.users d) in
  let account := fun id => existsb (fun a => (Account.ID a =? id)%N) (repository.accounts d) in
  let item := fun id => existsb (fun i => (PlaidItem.ID i =? id)%N) (repository.plaid_items d) in
  forallb (fun c => user (Credential.UserID c)) (repository.credentials d)
  && forallb (fun a => user (Account.UserID a)) (repository.accounts d)
  && forallb (fun t => user (Transaction.UserID t) && account (Transaction.AccountID t))
       (repository.transactions d)
  && forallb (fun i => user (PlaidItem.UserID i)) (repository.plaid_items d)
  && forallb (fun a => user (PlaidAccount.UserID a) && item (PlaidAccount.PlaidItemID a)
                       && match PlaidAccount.AccountID a with
                          | Some x => account x
                          | None => true
                          end) (repository.plaid_accounts d)
  && forallb (fun y => user (PlaidSync.UserID y) && item (PlaidSync.PlaidItemID y))
       (repository.plaid_syncs d) = true ->
  integrity d.
Proof.
  intros user account item H.
  repeat (apply andb_true_iff in H as [H ?]).
  assert (Hu : forall id, user id = true -> userExists d id).
  { intros id (u & ? & ?%N.eqb_eq)%existsb_exists. by exists u. }
  assert (Ha : forall id, account id = true -> accountExists d id).
  { intros id (u & ? & ?%N.eqb_eq)%existsb_exists. by exists u. }
  assert (Hi : forall id, item id = true -> itemExists d id).
  { intros id (u & ? & ?%N.eqb_eq)%existsb_exists. by exists u. }
  rewrite forallb_forall in *.
  split; [|split; [|split; [|split; [|split]]]].
  - intros c Hc. by apply Hu, H.
  - intros a Hin. by apply Hu, H4.
  - intros t Hin. apply H3, andb_true_iff in Hin as [? ?]. split; auto.
  - intros i Hin. by apply Hu, H2.
  - intros a Hin. apply H1 in Hin.
    apply andb_true_iff in Hin as [[? ?]%andb_true_iff Hl].
    split; [auto|]. split; [auto|]. intros x Hx. rewrite Hx in Hl. auto.
  - intros y Hin. apply H0, andb_true_iff in Hin as [? ?]. split; auto.
Qed.

Lemma deletes_keep_integrity_witness :
  let d := api.db (Scenario.syncServer Scenario.provider) in
  integrity (snd (repository.Delete 7%N d))
  /\ integrity (snd (repository.AccountRepository.Delete 21%N 7%N d))
  /\ integrity (snd (repository.DeleteItem 9%N 7%N d)).
Proof.
  intros d. apply (deletes_keep_integrity 7%N 21%N 9%N d).
  apply integrity_check. reflexivity.
Defined.

Lemma find_map_same {A} (f : A -> bool) (g : A -> A) (l : list A) :
  (forall x, f (g x) = f x) -> find f (map g l) = option_map g (find f l).
Proof.
  intros H. induction l as [|x l IH]; [done|]. simpl.
  rewrite H. by destruct (f x).
Qed.

Lemma owned_false_others (acc : Account.t) (userID : UUID) (d : repository.DB) :
  accountsUnique d -> In acc (repository.accounts d) -> Account.UserID acc <> userID ->
  existsb (repository.AccountRepository.owned (Account.ID acc) userID)
          (repository.accounts d) = false.
Proof.
  intros Hu Hin Hne. apply existsb_false. intros a Ha.
  unfold repository.AccountRepository.owned.
  destruct (Account.ID a =? Account.ID acc)%N eqn:E; [|done].
  apply N.eqb_eq in E.
  rewrite (NoDup_map_In Account.ID _ a acc Hu Ha Hin E).
  by rewrite (proj2 (N.eqb_neq _ _) Hne).
Qed.

Lemma owned_true_owner (acc : Account.t) (d : repository.DB) :
  In acc (repository.accounts d) ->
  existsb (repository.AccountRepository.owned (Account.ID acc) (Account.UserID acc))
          (repository.accounts d) = true.
Proof.
  intros Hin. apply existsb_exists. exists acc. split; [done|].
  unfold repository.AccountRepository.owned. by rewrite !N.eqb_refl.
Qed.

Lemma account_Delete_not_owner (acc : Account.t) (userID : UUID) (d : repository.DB) :
  accountsUnique d -> In acc (repository.accounts d) -> Account.UserID acc <> userID ->
  repository.AccountRepository.Delete (Account.ID acc) userID d
  = (Some repository.ErrNotFound, d).
Proof.
  intros Hu Hin Hne. unfold repository.AccountRepository.Delete.
  by rewrite owned_false_others.
Qed.

Lemma account_Delete_owner (acc : Account.t) (d : repository.DB) :
  accountsUnique d -> In acc (repository.accounts d) ->
  let d' := snd (repository.AccountRepository.Delete (Account.ID acc)
                   (Account.UserID acc) d) in
  fst (repository.AccountRepository.Delete (Account.ID acc) (Account.UserID acc) d)
  = None
  /\ repository.AccountRepository.GetByID (Account.ID acc) d'
     = Err repository.ErrNotFound
  /\ forall a, In a (repository.accounts d) -> Account.ID a <> Account.ID acc ->
       In a (repository.accounts d').
Proof.
  intros Hu Hin. unfold repository.AccountRepository.Delete.
  rewrite owned_true_owner by done. simpl. split; [done|]. split.
  - unfold repository.AccountRepository.GetByID. simpl.
    rewrite (proj2 (find_none_iff _ _)); [done|].
    intros a [Hf Ha]%In_filter.
    destruct (Account.ID a =? Account.ID acc)%N eqn:E; [|done].
    apply N.eqb_eq in E.
    rewrite (NoDup_map_In Account.ID _ a acc Hu Ha Hin E) in Hf.
    unfold repository.AccountRepository.owned in Hf. by rewrite !N.eqb_refl in Hf.
  - intros a Ha Hne. apply In_filter. split; [|done]. by apply not_owned_other.
Qed.

(** X11.  [AccountRepository.Update] and [Delete] reach an account only
    through its owner.  Called with another user's identifier they answer
    [ErrNotFound] and change nothing.  Called with the owner's, [Update]
    replaces the sealed data and the update time of that account and
    nothing else of it, and [Delete] removes it and keeps every other
    account. *)
Theorem account_Update_Delete_owner_only
    (acc account : Account.t) (userID : UUID) (now : Time) (d : repository.DB) :
  accountsUnique d -> In acc (repository.accounts d) ->
  Account.ID account = Account.ID acc ->
  (Account.UserID acc <> userID ->
   repository.AccountRepository.Delete (Account.ID acc) userID d
   = (Some repository.ErrNotFound, d)
   /\ (Account.UserID account = userID ->
       repository.AccountRepository.Update account now d
       = (Some repository.ErrNotFound, d)))
  /\ (Account.UserID account = Account.UserID acc ->
      fst (repository.AccountRepository.Update account now d) = None
      /\ repository.AccountRepository.GetByID (Account.ID acc)
           (snd (repository.AccountRepository.Update account now d))
         = Ok (Account.mk (Account.ID acc) (Account.UserID acc)
                 (Account.EncryptedData account) (Account.CreatedAt acc) now))
  /\ (let d' := snd (repository.AccountRepository.Delete (Account.ID acc)
                       (Account.UserID acc) d) in
      fst (repository.AccountRepository.Delete (Account.ID acc) (Account.UserID acc) d)
      = None
      /\ repository.AccountRepository.GetByID (Account.ID acc) d'
         = Err repository.ErrNotFound
      /\ forall a, In a (repository.accounts d) -> Account.ID a <> Account.ID acc ->
           In a (repository.accounts d')).
Proof.
  intros Hu Hin Hid. split; [|split].
  - intros Hne. split.
    + by apply account_Delete_not_owner.
    + intros Huid. unfold repository.AccountRepository.Update.
      rewrite Hid, Huid. by rewrite owned_false_others.
  - intros Huid. unfold repository.AccountRepository.Update.
    rewrite Hid, Huid, owned_true_owner by done. simpl. split; [done|].
    unfold repository.AccountRepository.GetByID. simpl.
    rewrite find_map_same.
    + by rewrite (find_unique Account.ID N.eqb _ acc N_eqb_iff Hu Hin); simpl;
        unfold repository.AccountRepository.owned; rewrite !N.eqb_refl.
    + intros x. by destruct (repository.AccountRepository.owned _ _ x).
  - by apply account_Delete_owner.
Qed.

Lemma account_Update_Delete_owner_only_witness :
  let d := api.db (Scenario.syncServer Scenario.provider) in
  let account := Account.mk 21%N 8%N (bytes_of_string "forged") 0%Z 0%Z in
  repository.AccountRepository.Delete 21%N 8%N d = (Some repository.ErrNotFound, d)
  /\ repository.AccountRepository.Update account 50%Z d = (Some repository.ErrNotFound, d).
Proof.
  intros d account.
  destruct (proj1 (account_Update_Delete_owner_only Scenario.checking account 8%N 50%Z d
                     (NoDup_singleton _) (or_introl eq_refl) eq_refl))
    as [H1 H2]; [discriminate|].
  split; [exact H1 | exact (H2 eq_refl)].
Defined.

(** X12.  [CreateAccount] for an item and provider account that already
    have a row reports no error and inserts nothing: the stored row keeps
    its identifier and its link to an OwnU account and takes the new name,
    and no other row changes its identifier or its link. *)
Theorem CreateAccount_conflict_keeps_link
    (account existing : PlaidAccount.t) (d : repository.DB) :
  In existing (repository.plaid_accounts d) ->
  repository.sameProviderAccount account existing = true ->
  let d' := snd (repository.CreateAccount account d) in
  fst (repository.CreateAccount account d) = None
  /\ map PlaidAccount.ID (repository.plaid_accounts d')
     = map PlaidAccount.ID (repository.plaid_accounts d)
  /\ map PlaidAccount.AccountID (repository.plaid_accounts d')
     = map PlaidAccount.AccountID (repository.plaid_accounts d)
  /\ In (PlaidAccount.mk (PlaidAccount.ID existing) (PlaidAccount.PlaidItemID existing)
           (PlaidAccount.UserID existing) (PlaidAccount.AccountID existing)
           (PlaidAccount.PlaidAccountID existing) (PlaidAccount.Name account))
        (repository.plaid_accounts d').
Proof.
  intros Hin Hsame d'. subst d'. unfold repository.CreateAccount.
  assert (E : existsb (repository.sameProviderAccount account)
                (repository.plaid_accounts d) = true).
  { apply existsb_exists. by exists existing. }
  rewrite E. simpl. split; [done|]. split; [|split].
  - rewrite map_map. apply map_ext. intros a.
    by destruct (repository.sameProviderAccount account a).
  - rewrite map_map. apply map_ext. intros a.
    by destruct (repository.sameProviderAccount account a).
  - apply in_map_iff. exists existing. by rewrite Hsame.
Qed.

Lemma CreateAccount_conflict_keeps_link_witness :
  let d := api.db (Scenario.syncServer Scenario.provider) in
  let again := PlaidAccount.mk 99%N 9%N 7%N None "acc-1" "Everyday checking" in
  let d' := snd (repository.CreateAccount again d) in
  fst (repository.CreateAccount again d) = None
  /\ map PlaidAccount.ID (repository.plaid_accounts d') = [11%N]
  /\ map PlaidAccount.AccountID (repository.plaid_accounts d') = [Some 21%N]
  /\ In (PlaidAccount.mk 11%N 9%N 7%N (Some 21%N) "acc-1" "Everyday checking")
        (repository.plaid_accounts d').
Proof.
  intros d again.
  apply (CreateAccount_conflict_keeps_link again Scenario.linked d).
  - by left.
  - reflexivity.
Defined.

Lemma mine_false_others (item : PlaidItem.t) (userID : UUID) (d : repository.DB) :
  itemsUnique d -> In item (repository.plaid_items d) -> PlaidItem.UserID item <> userID ->
  existsb (fun i => (PlaidItem.ID i =? PlaidItem.ID item)%N
                    && (PlaidItem.UserID i =? userID)%N)
          (repository.plaid_items d) = false.
Proof.
  intros Hu Hin Hne. apply existsb_false. intros i Hi.
  destruct (PlaidItem.ID i =? PlaidItem.ID item)%N eqn:E; [|done].
  apply N.eqb_eq in E.
  rewrite (NoDup_map_In PlaidItem.ID _ i item Hu Hi Hin E).
  by rewrite (proj2 (N.eqb_neq _ _) Hne).
Qed.

Lemma DeleteItem_not_owner (item : PlaidItem.t) (userID : UUID) (d : repository.DB) :
  itemsUnique d -> In item (repository.plaid_items d) -> PlaidItem.UserID item <> userID ->
  repository.DeleteItem (PlaidItem.ID item) userID d
  = (Some (errorString "plaid item not found"), d).
Proof.
  intros Hu Hin Hne. unfold repository.DeleteItem. by rewrite mine_false_others.
Qed.

Lemma DeleteItem_owner (item : PlaidItem.t) (d : repository.DB) :
  itemsUnique d -> In item (repository.plaid_items d) ->
  let d' := snd (repository.DeleteItem (PlaidItem.ID item) (PlaidItem.UserID item) d) in
  fst (repository.DeleteItem (PlaidItem.ID item) (PlaidItem.UserID item) d) = None
  /\ repository.GetItemByID (PlaidItem.ID item) d'
     = Err (wrapError "failed to get plaid item" repository.ErrNoRows)
  /\ repository.GetAccountsByItemID (PlaidItem.ID item) d' = Ok []
  /\ (forall y, In y (repository.plaid_syncs d') ->
        PlaidSync.PlaidItemID y <> PlaidItem.ID item)
  /\ forall i, In i (repository.plaid_items d) ->
       PlaidItem.ID i <> PlaidItem.ID item -> In i (repository.plaid_items d').
Proof.
  intros Hu Hin d'. subst d'. unfold repository.DeleteItem.
  assert (E : existsb (fun i => (PlaidItem.ID i =? PlaidItem.ID item)%N
                                && (PlaidItem.UserID i =? PlaidItem.UserID item)%N)
                (repository.plaid_items d) = true).
  { apply existsb_exists. exists item. by rewrite !N.eqb_refl. }
  rewrite E. simpl. split; [done|]. split; [|split; [|split]].
  - unfold repository.GetItemByID. simpl.
    rewrite (proj2 (find_none_iff _ _)); [done|].
    intros i [Hf Hi]%In_filter.
    destruct (PlaidItem.ID i =? PlaidItem.ID item)%N eqn:E'; [|done].
    apply N.eqb_eq in E'.
    rewrite (NoDup_map_In PlaidItem.ID _ i item Hu Hi Hin E') in Hf.
    by rewrite !N.eqb_refl in Hf.
  - unfold repository.GetAccountsByItemID. simpl. f_equal.
    apply filter_none. intros a [Hne _]%In_filter. done.
  - intros y [Hne _]%In_filter. done.
  - intros i Hi Hne. apply In_filter. split; [|done].
    by rewrite (proj2 (N.eqb_neq _ _) Hne).
Qed.

(** X13.  [DeleteItem] reaches an item only through its owner: with another
    user's identifier it answers "plaid item not found" and changes nothing;
    with the owner's it removes the item together with its provider
    accounts and its sync history, and keeps every other item. *)
Theorem DeleteItem_owner_only (item : PlaidItem.t) (userID : UUID) (d : repository.DB) :
  itemsUnique d -> In item (repository.plaid_items d) ->
  (PlaidItem.UserID item <> userID ->
   repository.DeleteItem (PlaidItem.ID item) userID d
   = (Some (errorString "plaid item not found"), d))
  /\ (PlaidItem.UserID item = userID ->
      let d' := snd (repository.DeleteItem (PlaidItem.ID item) userID d) in
      fst (repository.DeleteItem (PlaidItem.ID item) userID d) = None
      /\ repository.GetItemByID (PlaidItem.ID item) d'
         = Err (wrapError "failed to get plaid item" repository.ErrNoRows)
      /\ repository.GetAccountsByItemID (PlaidItem.ID item) d' = Ok []
      /\ (forall y, In y (repository.plaid_syncs d') ->
            PlaidSync.PlaidItemID y <> PlaidItem.ID item)
      /\ forall i, In i (repository.plaid_items d) ->
           PlaidItem.ID i <> PlaidItem.ID item -> In i (repository.plaid_items d')).
Proof.
  intros Hu Hin. split.
  - intros Hne. by apply DeleteItem_not_owner.
  - intros <-. by apply DeleteItem_owner.
Qed.

Lemma DeleteItem_owner_only_witness :
  let d := api.db (Scenario.syncServer Scenario.provider) in
  repository.DeleteItem 9%N 8%N d = (Some (errorString "plaid item not found"), d)
  /\ repository.GetItemByID 9%N (snd (repository.DeleteItem 9%N 7%N d))
     = Err (wrapError "failed to get plaid item" repository.ErrNoRows).
Proof.
  intros d.
  destruct (DeleteItem_owner_only Scenario.item 8%N d (NoDup_singleton _)
              (or_introl eq_refl)) as [H1 _].
  destruct (DeleteItem_owner_only Scenario.item 7%N d (NoDup_singleton _)
              (or_introl eq_refl)) as [_ H2].
  split.
  - apply H1. discriminate.
  - apply (H2 eq_refl).
Defined.

(* ===================================================================== *)
(** * Beginning a ceremony                                                *)
(* ===================================================================== *)

Section Begin.
Context {WL : WebAuthnLib}.

(** X14.  [beginRegistration] never writes to the database.  An answer
    other than 200 leaves the session store as it was.  An answer of 200
    comes only for a non-empty user name that no stored user has; it carries
    a recovery phrase of twelve words of the word list and the handle under
    which the ceremony session was saved for that name, and the handle finds
    the session for the next five minutes. *)
Theorem beginRegistration_outcomes
    (now : Time) (body : option api.RegisterBeginRequest.t) (s : api.Server) :
  let r := fst (api.beginRegistration now body s) in
  let s' := snd (api.beginRegistration now body s) in
  api.db s' = api.db s
  /\ (api.Status r <> api.StatusOK -> api.sessionStore s' = api.sessionStore s)
  /\ (api.Status r = api.StatusOK ->
      exists req options session phrase handle,
        body = Some req
        /\ api.RegisterBeginRequest.Username req <> EmptyString
        /\ repository.GetByUsername (api.RegisterBeginRequest.Username req) (api.db s)
           = Err repository.ErrNotFound
        /\ r = api.JSON api.StatusOK (api.RegisterBeginResponse options phrase handle)
        /\ length (Fields phrase) = 12
        /\ Forall (fun w => In w crypto.wordList) (Fields phrase)
        /\ api.sessionStore s'
           = auth.Save handle session (api.RegisterBeginRequest.Username req)
               (api.uuids s) now (api.sessionStore s)
        /\ forall now', (now' <= now + 5 * Minute)%Z ->
             auth.Get handle now' (api.sessionStore s')
             = Some (auth.SessionData.mk session (api.RegisterBeginRequest.Username req)
                       (api.uuids s) (now + 5 * Minute)%Z)).
Proof.
  intros r s'. subst r s'.
  destruct (api.beginRegistration now body s) as [r s'] eqn:Heq. simpl fst. simpl snd.
  cbv [api.beginRegistration api.run api.bind api.Bind api.ret api.query api.orFail
       api.respond api.rand api.uuid_New] in Heq.
  repeat (step Heq; try (injection Heq as <- <-; split; [done|]; split; [done|];
                         intros Hst; discriminate Hst)).
  injection Heq as <- <-. simpl. split; [done|]. split; [done|]. intros _.
  match goal with
  | Hp : crypto.GenerateRecoveryPhrase _ = (Ok ?p, _) |- _ =>
      apply GenerateRecoveryPhrase_Ok in Hp as (_ & _ & words & Hw & Hl & Hin & Hf)
  end.
  match goal with
  | Hb : bool_decide (?e = repository.ErrNotFound) = true |- _ =>
      apply bool_decide_eq_true in Hb; subst e
  | Hb : negb (bool_decide (?e = repository.ErrNotFound)) = false |- _ =>
      apply negb_false_iff, bool_decide_eq_true in Hb; subst e
  end.
  do 5 eexists. split; [reflexivity|]. split.
  { by apply String.eqb_neq. }
  split; [eassumption|]. split; [reflexivity|].
  rewrite Hf. split; [done|]. split; [done|]. split; [reflexivity|].
  intros now' Hle. unfold auth.Get, auth.Save. rewrite lookup_insert_eq. simpl.
  by rewrite (proj2 (Z.ltb_ge _ _) Hle).
Qed.

(** X15.  [beginLogin] never writes to the database.  An answer other than
    200 leaves the session store as it was, and a name that no stored user
    has is answered 404 "user not found".  An answer of 200 comes only for a
    stored user, and the handle it carries finds, for the next five minutes,
    a ceremony session saved for that user's name and identifier. *)
Theorem beginLogin_outcomes
    (now : Time) (body : option api.LoginBeginRequest.t) (s : api.Server) :
  let r := fst (api.beginLogin now body s) in
  let s' := snd (api.beginLogin now body s) in
  api.db s' = api.db s
  /\ (api.Status r <> api.StatusOK -> api.sessionStore s' = api.sessionStore s)
  /\ (forall req, body = Some req ->
        api.LoginBeginRequest.Username req <> EmptyString ->
        repository.GetByUsername (api.LoginBeginRequest.Username req) (api.db s)
        = Err repository.ErrNotFound ->
        r = api.errorJSON api.StatusNotFound "user not found" /\ s' = s)
  /\ (api.Status r = api.StatusOK ->
      exists req user options session handle,
        body = Some req
        /\ repository.GetByUsername (api.LoginBeginRequest.Username req) (api.db s)
           = Ok user
        /\ r = api.JSON api.StatusOK (api.LoginBeginResponse options handle)
        /\ forall now', (now' <= now + 5 * Minute)%Z ->
             auth.Get handle now' (api.sessionStore s')
             = Some (auth.SessionData.mk session (User.Username user) (User.ID user)
                       (now + 5 * Minute)%Z)).
Proof.
  intros r s'. subst r s'.
  split; [|split; [|split]].
  - destruct (api.beginLogin now body s) as [r s'] eqn:Heq. simpl snd.
    cbv [api.beginLogin api.run api.bind api.Bind api.ret api.query api.orFail
         api.respond api.rand api.uuid_New] in Heq.
    repeat (step Heq; try (by injection Heq as <- <-)).
    all: by injection Heq as <- <-.
  - destruct (api.beginLogin now body s) as [r s'] eqn:Heq. simpl fst. simpl snd.
    cbv [api.beginLogin api.run api.bind api.Bind api.ret api.query api.orFail
         api.respond api.rand api.uuid_New] in Heq.
    repeat (step Heq; try (by injection Heq as <- <-)).
    all: by injection Heq as <- <-.
  - intros req -> Hne Hnf.
    cbv [api.beginLogin api.run api.bind api.Bind api.ret api.query api.orFail
         api.respond api.rand api.uuid_New].
    rewrite (proj2 (String.eqb_neq _ _) Hne), Hnf. done.
  - destruct (api.beginLogin now body s) as [r s'] eqn:Heq. simpl fst. simpl snd.
    cbv [api.beginLogin api.run api.bind api.Bind api.ret api.query api.orFail
         api.respond api.rand api.uuid_New] in Heq.
    repeat (step Heq; try (injection Heq as <- <-; intros Hst; discriminate Hst)).
    injection Heq as <- <-. simpl. intros _.
    do 5 eexists. split; [reflexivity|]. split; [eassumption|]. split; [reflexivity|].
    intros now' Hle. unfold auth.Get, auth.Save. rewrite lookup_insert_eq. simpl.
    by rewrite (proj2 (Z.ltb_ge _ _) Hle).
Qed.
End Begin.

Lemma beginRegistration_outcomes_witness :
  let now := 1000%Z in
  let body := Some (api.RegisterBeginRequest.mk "alice") in
  let s := Ref.freshServer in
  let r := fst (@api.beginRegistration Ref.webAuthnLib now body s) in
  let s' := snd (@api.beginRegistration Ref.webAuthnLib now body s) in
  exists req options session phrase handle,
    body = Some req
    /\ api.RegisterBeginRequest.Username req <> EmptyString
    /\ repository.GetByUsername (api.RegisterBeginRequest.Username req) (api.db s)
       = Err repository.ErrNotFound
    /\ r = api.JSON api.StatusOK (api.RegisterBeginResponse options phrase handle)
    /\ length (Fields phrase) = 12
    /\ Forall (fun w => In w crypto.wordList) (Fields phrase)
    /\ api.sessionStore s'
       = auth.Save handle session (api.RegisterBeginRequest.Username req)
           (api.uuids s) now (api.sessionStore s)
    /\ forall now', (now' <= now + 5 * Minute)%Z ->
         auth.Get handle now' (api.sessionStore s')
         = Some (auth.SessionData.mk session (api.RegisterBeginRequest.Username req)
                   (api.uuids s) (now + 5 * Minute)%Z).
Proof.
  refine (proj2 (proj2 (@beginRegistration_outcomes Ref.webAuthnLib 1000%Z
                          (Some (api.RegisterBeginRequest.mk "alice")) Ref.freshServer)) _).
  vm_compute. reflexivity.
Defined.

Lemma beginLogin_outcomes_witness :
  let now := 1000%Z in
  let body := Some (api.LoginBeginRequest.mk "dave") in
  let s := Examples.daveReady in
  let r := fst (@api.beginLogin Ref.webAuthnLib now body s) in
  let s' := snd (@api.beginLogin Ref.webAuthnLib now body s) in
  exists req user options session handle,
    body = Some req
    /\ repository.GetByUsername (api.LoginBeginRequest.Username req) (api.db s)
       = Ok user
    /\ r = api.JSON api.StatusOK (api.LoginBeginResponse options handle)
    /\ forall now', (now' <= now + 5 * Minute)%Z ->
         auth.Get handle now' (api.sessionStore s')
         = Some (auth.SessionData.mk session (User.Username user) (User.ID user)
                   (now + 5 * Minute)%Z).
Proof.
  refine (proj2 (proj2 (proj2 (@beginLogin_outcomes Ref.webAuthnLib 1000%Z
                                 (Some (api.LoginBeginRequest.mk "dave"))
                                 Examples.daveReady))) _).
  vm_compute. reflexivity.
Defined.

(* ===================================================================== *)
(** * A registration that succeeds                                        *)
(* ===================================================================== *)

Lemma ReadFull_Ok (n : nat) (ent ent' b : bytes) :
  ReadFull n ent = (Ok b, ent') -> length b = n /\ b = firstn n ent /\ ent' = skipn n ent.
Proof.
  unfold ReadFull. destruct (n <=? length ent)%nat eqn:E; [|done].
  apply Nat.leb_le in E. intros [= <- <-]. rewrite length_firstn. repeat split. lia.
Qed.

Lemma CreateCredential_inserted (cred : Credential.t) (d d' : repository.DB) :
  repository.CreateCredential cred d = (None, d') ->
  d' = repository.withCredentials d (repository.credentials d ++ [cred]).
Proof.
  unfold repository.CreateCredential.
  destruct (existsb _ (repository.credentials d)); [done|].
  destruct (negb _); [done | by intros [= <-]].
Qed.

Lemma HashRecoveryPhrase_length (p : string) : length (crypto.HashRecoveryPhrase p) = 32.
Proof. apply Sum256_length. Qed.

Section Finish.
Context {CL : CryptoLib} {WL : WebAuthnLib}.

(** X16.  When [finishRegistration] answers 200, the ceremony session was
    found and is deleted, one user row -- with the session's identifier and
    name, a 16-byte salt and a 32-byte phrase hash -- and one credential
    row owned by that user were appended, and the token, signed with the
    server's secret, names that user, carries the stored wrapped DEK in
    base64 and expires 24 hours after [now]. *)
Theorem finishRegistration_success
    (now : Time) (body : option api.RegisterFinishRequest.t) (s : api.Server) :
  let r := fst (api.finishRegistration now body s) in
  let s' := snd (api.finishRegistration now body s) in
  api.Status r = api.StatusOK ->
  exists req sessionData user cred token,
    body = Some req
    /\ auth.Get (api.RegisterFinishRequest.SessionID req) now (api.sessionStore s)
       = Some sessionData
    /\ api.sessionStore s'
       = auth.Delete (api.RegisterFinishRequest.SessionID req) (api.sessionStore s)
    /\ repository.users (api.db s') = repository.users (api.db s) ++ [user]
    /\ repository.credentials (api.db s') = repository.credentials (api.db s) ++ [cred]
    /\ User.ID user = auth.SessionData.UserID sessionData
    /\ User.Username user = auth.SessionData.Username sessionData
    /\ Credential.UserID cred = User.ID user
    /\ length (User.DEKSalt user) = 16
    /\ length (User.RecoveryPhraseHash user) = 32
    /\ r = api.JSON api.StatusOK
             (api.AuthResponse token (UUID_String (User.ID user)) (User.Username user))
    /\ api.SigningKey token = api.JWTSecret s
    /\ api.Claims token
       = api.JWTClaims.mk (UUID_String (User.ID user))
           (base64_EncodeToString (User.EncryptedDEK user))
           (now + 24 * Hour)%Z now "ownu".
Proof.
  intros r s'. subst r s'.
  destruct (api.finishRegistration now body s) as [r s'] eqn:Heq. simpl fst. simpl snd.
  intros Hst.
  cbv [api.finishRegistration api.run api.bind api.Bind api.ret api.defer api.query
       api.orFail api.respond api.exec api.rand api.generateJWT] in Heq.
  repeat (step Heq; try (injection Heq as <- <-; discriminate Hst)).
  all: injection Heq as <- <-; simpl in *.
  all: match goal with
       | Hc : repository.Create _ _ = (None, _) |- _ =>
           apply Create_inserted in Hc as [-> _]
       end.
  all: match goal with
       | Hc : repository.CreateCredential _ _ = (None, _) |- _ =>
           apply CreateCredential_inserted in Hc as ->
       end.
  all: match goal with
       | Hs : crypto.GenerateSalt _ = (Ok _, _) |- _ =>
           apply ReadFull_Ok in Hs as (Hsalt & _ & _)
       end.
  all: do 5 eexists; split; [reflexivity|]; split; [eassumption|].
  all: simpl.
  all: repeat (split; [reflexivity|]).
  all: split; [exact Hsalt|].
  all: split; [apply HashRecoveryPhrase_length|].
  all: repeat (split; [reflexivity|]); reflexivity.
Qed.
End Finish.

Lemma finishRegistration_success_witness :
  let now := 1001%Z in
  let s := snd (Ref.registerBegin 1000%Z (Some (api.RegisterBeginRequest.mk "alice"))
                  Ref.freshServer) in
  let body := Some (api.RegisterFinishRequest.mk
                      "00000000-0000-0000-0000-000000000002" "10cred-A" "AQID") in
  let r := fst (@api.finishRegistration Ref.cryptoLib Ref.webAuthnLib now body s) in
  let s' := snd (@api.finishRegistration Ref.cryptoLib Ref.webAuthnLib now body s) in
  exists req sessionData user cred token,
    body = Some req
    /\ auth.Get (api.RegisterFinishRequest.SessionID req) now (api.sessionStore s)
       = Some sessionData
    /\ api.sessionStore s'
       = auth.Delete (api.RegisterFinishRequest.SessionID req) (api.sessionStore s)
    /\ repository.users (api.db s') = repository.users (api.db s) ++ [user]
    /\ repository.credentials (api.db s') = repository.credentials (api.db s) ++ [cred]
    /\ User.ID user = auth.SessionData.UserID sessionData
    /\ User.Username user = auth.SessionData.Username sessionData
    /\ Credential.UserID cred = User.ID user
    /\ length (User.DEKSalt user) = 16
    /\ length (User.RecoveryPhraseHash user) = 32
    /\ r = api.JSON api.StatusOK
             (api.AuthResponse token (UUID_String (User.ID user)) (User.Username user))
    /\ api.SigningKey token = api.JWTSecret s
    /\ api.Claims token
       = api.JWTClaims.mk (UUID_String (User.ID user))
           (base64_EncodeToString (User.EncryptedDEK user))
           (now + 24 * Hour)%Z now "ownu".
Proof.
  refine (@finishRegistration_success Ref.cryptoLib Ref.webAuthnLib 1001%Z
            (Some (api.RegisterFinishRequest.mk
                     "00000000-0000-0000-0000-000000000002" "10cred-A" "AQID"))
            (snd (Ref.registerBegin 1000%Z (Some (api.RegisterBeginRequest.mk "alice"))
                    Ref.freshServer)) _).
  vm_compute. reflexivity.
Defined.

(* ===================================================================== *)
(** * The wrapped DEK on its way through the token                        *)
(* ===================================================================== *)

Lemma b64Value_b64Char (v : N) : (v < 64)%N -> b64Value (b64Char v) = Some v.
Proof.
  intros H.
  assert (Hall : forallb (fun n => bool_decide (b64Value (b64Char (N.of_nat n))
                                                = Some (N.of_nat n)))
                   (seq 0 64) = true) by (vm_compute; reflexivity).
  rewrite forallb_forall in Hall. specialize (Hall (N.to_nat v)).
  rewrite N2Nat.id in Hall. eapply bool_decide_eq_true_1, Hall, in_seq. lia.
Qed.

Lemma list_ind3 {A} (P : list A -> Prop) :
  P [] -> (forall x, P [x]) -> (forall x y, P [x; y]) ->
  (forall x y z l, P l -> P (x :: y :: z :: l)) ->
  forall l, P l.
Proof.
  intros H0 H1 H2 H3 l.
  assert (H : P l /\ (forall x, P (x :: l)) /\ (forall x y, P (x :: y :: l))).
  { induction l as [|a l (IH0 & IH1 & IH2)]; [by repeat split|].
    split; [apply IH1|]. split; [intros x; apply IH2|].
    intros x y. by apply H3. }
  apply H.
Qed.

Ltac ndiv := zify; Z.to_euclidean_division_equations; lia.

Lemma byte_of_N_eq (n : N) (b : byte) : (n mod 256 = Byte.to_N b)%N -> byte_of_N n = b.
Proof. intros H. apply to_N_inj. by rewrite to_N_byte_of_N. Qed.

Lemma base64_group (x y z : byte) :
  let n := (Byte.to_N x * 65536 + Byte.to_N y * 256 + Byte.to_N z)%N in
  let m := ((n / 262144) * 262144 + ((n / 4096) mod 64) * 4096
            + ((n / 64) mod 64) * 64 + n mod 64)%N in
  (n / 262144 < 64)%N
  /\ byte_of_N (m / 65536) = x /\ byte_of_N (m / 256) = y /\ byte_of_N m = z.
Proof.
  intros n m.
  pose proof (Byte.to_N_bounded x) as Hx.
  pose proof (Byte.to_N_bounded y) as Hy.
  pose proof (Byte.to_N_bounded z) as Hz.
  assert (Hm : m = n) by (subst m n; ndiv).
  rewrite Hm. subst n. split; [|split; [|split]].
  - ndiv.
  - apply byte_of_N_eq. ndiv.
  - apply byte_of_N_eq. ndiv.
  - apply byte_of_N_eq. ndiv.
Qed.

Lemma base64_tail2 (x y : byte) :
  let n := (Byte.to_N x * 65536 + Byte.to_N y * 256)%N in
  let m := ((n / 262144) * 262144 + ((n / 4096) mod 64) * 4096
            + ((n / 64) mod 64) * 64)%N in
  (n / 262144 < 64)%N /\ byte_of_N (m / 65536) = x /\ byte_of_N (m / 256) = y.
Proof.
  intros n m.
  pose proof (Byte.to_N_bounded x) as Hx.
  pose proof (Byte.to_N_bounded y) as Hy.
  assert (Hm : m = n) by (subst m n; ndiv).
  rewrite Hm. subst n. split; [|split].
  - ndiv.
  - apply byte_of_N_eq. ndiv.
  - apply byte_of_N_eq. ndiv.
Qed.

Lemma base64_tail1 (x : byte) :
  let n := (Byte.to_N x * 65536)%N in
  let m := ((n / 262144) * 262144 + ((n / 4096) mod 64) * 4096)%N in
  (n / 262144 < 64)%N /\ byte_of_N (m / 65536) = x.
Proof.
  intros n m.
  pose proof (Byte.to_N_bounded x) as Hx.
  assert (Hm : m = n) by (subst m n; ndiv).
  rewrite Hm. subst n. split.
  - ndiv.
  - apply byte_of_N_eq. ndiv.
Qed.

Lemma mod64_lt (n : N) : (n mod 64 < 64)%N.
Proof. by apply N.mod_lt. Qed.

Lemma b64Char_not_newline (v : N) : (v < 64)%N -> isNewline (b64Char v) = false.
Proof.
  intros H.
  assert (Hall : forallb (fun n => negb (isNewline (b64Char (N.of_nat n))))
                   (seq 0 64) = true) by (vm_compute; reflexivity).
  rewrite forallb_forall in Hall. specialize (Hall (N.to_nat v)).
  rewrite N2Nat.id in Hall. apply negb_true_iff, Hall, in_seq. lia.
Qed.

Lemma skipNewlines_Encode (b : bytes) :
  skipNewlines (base64_EncodeToString b) = base64_EncodeToString b.
Proof.
  induction b as [|x|x y|x y z b IH] using list_ind3.
  - reflexivity.
  - destruct (base64_tail1 x) as (H1 & _).
    cbn [base64_EncodeToString skipNewlines].
    by rewrite !b64Char_not_newline by (done || apply mod64_lt).
  - destruct (base64_tail2 x y) as (H1 & _).
    cbn [base64_EncodeToString skipNewlines].
    by rewrite !b64Char_not_newline by (done || apply mod64_lt).
  - destruct (base64_group x y z) as (H1 & _).
    cbn [base64_EncodeToString skipNewlines].
    rewrite !b64Char_not_newline by (done || apply mod64_lt).
    cbn zeta. by rewrite IH.
Qed.

Lemma decodeQuanta_Encode (b : bytes) :
  decodeQuanta (base64_EncodeToString b) = Some b.
Proof.
  induction b as [|x|x y|x y z b IH] using list_ind3.
  - reflexivity.
  - destruct (base64_tail1 x) as (H1 & Hx).
    cbn [base64_EncodeToString decodeQuanta].
    rewrite !b64Value_b64Char by (done || apply mod64_lt).
    cbn. by rewrite Hx.
  - destruct (base64_tail2 x y) as (H1 & Hx & Hy).
    cbn [base64_EncodeToString decodeQuanta].
    rewrite !b64Value_b64Char by (done || apply mod64_lt).
    cbn. by rewrite Hx, Hy.
  - destruct (base64_group x y z) as (H1 & Hx & Hy & Hz).
    cbn [base64_EncodeToString decodeQuanta].
    rewrite !b64Value_b64Char by (done || apply mod64_lt).
    cbn zeta. rewrite IH. by rewrite Hx, Hy, Hz.
Qed.

Lemma base64_Decode_Encode (b : bytes) :
  base64_DecodeString (base64_EncodeToString b) = Some b.
Proof.
  unfold base64_DecodeString. rewrite skipNewlines_Encode. apply decodeQuanta_Encode.
Qed.

(** X17.  The wrapped DEK that [generateJWT] puts into the token's claim in
    base64 is what [decryptDEK] decodes from the claim: [decryptDEK] on the
    claim of a token is [DecryptDEK] on the bytes the token was generated
    for, under the key derived from the fixed text and the user's salt. *)
Theorem decryptDEK_reads_token_DEK `{CL : CryptoLib}
    (now : Time) (secret : string) (user holder : User.t) (encryptedDEK : bytes) :
  exists token,
    api.generateJWT now secret user encryptedDEK = Ok token
    /\ base64_DecodeString (api.JWTClaims.EncryptedDEK (api.Claims token))
       = Some encryptedDEK
    /\ api.decryptDEK (api.JWTClaims.EncryptedDEK (api.Claims token)) holder
       = crypto.DecryptDEK encryptedDEK
           (crypto.DeriveKeyFromSecret (bytes_of_string "placeholder-secret")
              (User.DEKSalt holder)).
Proof.
  eexists. split; [reflexivity|]. simpl. split.
  - apply base64_Decode_Encode.
  - unfold api.decryptDEK. by rewrite base64_Decode_Encode.
Qed.

(* ===================================================================== *)
(** * Who can sync, and what a sync leaves behind                         *)
(* ===================================================================== *)

Section SyncMore.
Context {CL : CryptoLib} {WL : WebAuthnLib} {EL : EncodingLib}.

(** X18.  [syncTransactions] changes the server state only on behalf of the
    owner of the item: whenever the state after the call differs from the
    state before, Plaid is configured, the request carries a user
    identifier, a wrapped DEK and an item identifier, the item is stored and
    belongs to that user, and both the DEK and the item's access token could
    be opened. *)
Theorem syncTransactions_changes_only_for_owner
    (now : Time) (c : api.SyncRequest.t) (s : api.Server) :
  snd (api.syncTransactions now c s) <> s ->
  exists svc userID encryptedDEKB64 itemID item user dek accessToken,
    api.plaidService s = Some svc
    /\ api.SyncRequest.user_id c = Some userID
    /\ api.SyncRequest.encrypted_dek c = Some encryptedDEKB64
    /\ api.SyncRequest.id c = Some itemID
    /\ repository.GetItemByID itemID (api.db s) = Ok item
    /\ PlaidItem.UserID item = userID
    /\ repository.GetByID userID (api.db s) = Ok user
    /\ api.decryptDEK encryptedDEKB64 user = Ok dek
    /\ crypto.Decrypt (PlaidItem.EncryptedAccessToken item) dek = Ok accessToken.
Proof.
  destruct (api.syncTransactions now c s) as [r s'] eqn:Heq. simpl snd. intros Hne.
  cbv [api.syncTransactions api.run api.bind api.ret api.query api.orFail
       api.respond api.exec api.uuid_New] in Heq.
  repeat (step Heq; try (injection Heq as _ <-; done)).
  all: match goal with
       | Ho : negb (_ =? _)%N = false |- _ =>
           apply negb_false_iff, N.eqb_eq in Ho
       end.
  all: do 8 eexists; repeat (split; [first [eassumption | reflexivity]|]); eassumption.
Qed.

Lemma processAdded_count now userID itemID added dek n s :
  (n <= fst (api.processAdded now userID itemID added dek n s)
   <= n + Z.of_nat (length added))%Z.
Proof.
  revert n s. induction added as [|txn rest IH]; intros n s; simpl; [lia|].
  destruct (api.processPlaidTransaction now userID itemID txn dek s) as [[e|] s1].
  - specialize (IH n s1). lia.
  - specialize (IH (n + 1)%Z s1). lia.
Qed.

Lemma GetItemByID_items (itemID : UUID) (d d' : repository.DB) :
  repository.plaid_items d' = repository.plaid_items d ->
  repository.GetItemByID itemID d' = repository.GetItemByID itemID d.
Proof. unfold repository.GetItemByID. by intros ->. Qed.

Lemma GetItemByID_updated (ctx : Context) (itemID : UUID) (cursor : string) (now : Time)
    (item : PlaidItem.t) (d : repository.DB) :
  repository.GetItemByID itemID d = Ok item ->
  (fst (repository.UpdateItemCursor ctx itemID cursor now d) = None ->
   exists stored,
     repository.varchar 255 cursor = Ok stored
     /\ repository.GetItemByID itemID
          (snd (repository.UpdateItemCursor ctx itemID cursor now d))
        = Ok (PlaidItem.withCursor item stored now))
  /\ (fst (repository.UpdateItemCursor ctx itemID cursor now d) <> None ->
      snd (repository.UpdateItemCursor ctx itemID cursor now d) = d).
Proof.
  intros Hi.
  destruct (UpdateItemCursor_cases ctx itemID cursor now d)
    as [[e ->] | (stored & Hv & ->)]; simpl.
  - split; done.
  - split; [|done]. intros _. exists stored. split; [done|].
    unfold repository.GetItemByID in *. simpl.
    destruct (find _ (repository.plaid_items d)) as [i|] eqn:E; [|done].
    injection Hi as ->. rewrite find_map_same.
    + rewrite E. simpl. apply find_some in E as [_ E]. by rewrite E.
    + intros x. cbv beta. by destruct (PlaidItem.ID x =? itemID)%N eqn:Ex; [simpl|].
Qed.

(** X19.  When [syncTransactions] answers 200, the added count it reports
    lies between zero and the number of added records the provider
    delivered.  The two writes that follow are made with their results
    dropped (the request's context is taken to be alive after a call to
    the provider that succeeded), so the database afterwards is what [UpdateItemCursor] and then
    [CreateSync] left: when the update reported no error the item is stored
    with the provider's next cursor, as the column keeps it, and the time of
    the call, and otherwise it is stored as before; when the insert reported
    no error one sync-history row was appended that carries the counts of
    the answer, the cursor before and the cursor after, and otherwise the
    history is as before. *)
Theorem syncTransactions_success
    (now : Time) (c : api.SyncRequest.t) (s : api.Server) :
  let r := fst (api.syncTransactions now c s) in
  let s' := snd (api.syncTransactions now c s) in
  api.Status r = api.StatusOK ->
  exists svc itemID userID item accessToken result addedCount syncID,
    api.plaidService s = Some svc
    /\ api.SyncRequest.id c = Some itemID
    /\ api.SyncRequest.user_id c = Some userID
    /\ repository.GetItemByID itemID (api.db s) = Ok item
    /\ plaid.SyncTransactions svc (string_of_bytes accessToken) (PlaidItem.Cursor item)
       = Ok result
    /\ r = api.JSON api.StatusOK
             (api.SyncTransactionsResponse addedCount
                (Z.of_nat (length (plaid.SyncTransactionsResult.Modified result)))
                (Z.of_nat (length (plaid.SyncTransactionsResult.Removed result)))
                (plaid.SyncTransactionsResult.HasMore result))
    /\ (0 <= addedCount
        <= Z.of_nat (length (plaid.SyncTransactionsResult.Added result)))%Z
    /\ let modifiedCount :=
         Z.of_nat (length (plaid.SyncTransactionsResult.Modified result)) in
       let removedCount :=
         Z.of_nat (length (plaid.SyncTransactionsResult.Removed result)) in
       let nextCursor := plaid.SyncTransactionsResult.NextCursor result in
       let updated := repository.UpdateItemCursor alive itemID nextCursor now (api.db s) in
       let sync := PlaidSync.mk syncID itemID userID addedCount modifiedCount
                     removedCount (PlaidItem.Cursor item) nextCursor EmptyString 0%Z in
       let created := repository.CreateSync alive sync now (snd updated) in
       api.db s' = snd created
       /\ (fst updated = None ->
           exists cursor,
             repository.varchar 255 nextCursor = Ok cursor
             /\ repository.GetItemByID itemID (api.db s')
                = Ok (PlaidItem.withCursor item cursor now))
       /\ (fst updated <> None -> repository.GetItemByID itemID (api.db s') = Ok item)
       /\ (fst created = None ->
           exists cursorBefore cursorAfter,
             repository.varchar 255 (PlaidItem.Cursor item) = Ok cursorBefore
             /\ repository.varchar 255 nextCursor = Ok cursorAfter
             /\ repository.plaid_syncs (api.db s')
                = repository.plaid_syncs (api.db s)
                  ++ [PlaidSync.mk syncID itemID userID addedCount modifiedCount
                        removedCount cursorBefore cursorAfter EmptyString now])
       /\ (fst created <> None ->
           repository.plaid_syncs (api.db s') = repository.plaid_syncs (api.db s)).
Proof.
  intros r s'. subst r s'.
  destruct (api.syncTransactions now c s) as [r s'] eqn:Heq. simpl fst. simpl snd.
  intros Hst.
  cbv [api.syncTransactions api.run api.bind api.ret api.query api.orFail
       api.respond api.exec api.uuid_New] in Heq.
  repeat (step Heq; try (injection Heq as <- <-; discriminate Hst)).
  injection Heq as <- <-.
  match goal with
  | Hp : api.processAdded ?now ?u ?i ?a ?d ?n ?s0 = (?k, ?s1) |- _ =>
      pose proof (processAdded_frame now u i a d n s0) as Hf;
      pose proof (processAdded_count now u i a d n s0) as Hc;
      rewrite Hp in Hf, Hc; simpl in Hf, Hc; destruct Hf as (Hdb & _)
  end.
  rewrite Hdb in *.
  do 8 eexists. repeat (split; [first [eassumption | reflexivity]|]).
  cbv zeta.
  match goal with
  | Hi : repository.GetItemByID ?i (api.db s) = Ok ?it,
    Hu : repository.UpdateItemCursor alive ?i ?k now (api.db s) = (?o, ?d) |- _ =>
      pose proof (GetItemByID_updated alive i k now it (api.db s) Hi) as (Hg1 & Hg2);
      pose proof (UpdateItemCursor_frame alive i k now (api.db s))
        as (_ & _ & _ & _ & _ & Hy);
      rewrite Hu in Hg1, Hg2, Hy |- *; cbn [fst snd] in Hg1, Hg2, Hy |- *
  end.
  match goal with
  | Hx : repository.CreateSync _ _ _ _ = _ |- _ =>
      cbn [api.db api.uuids api.withDB api.withUuids] in Hx;
      split; [symmetry; exact (f_equal snd Hx)|]
  end.
  match goal with
  | Hx : repository.CreateSync alive ?y now ?d = (?o, ?d') |- _ =>
      pose proof (CreateSync_frame alive y now d) as (_ & _ & _ & _ & Hitems & _);
      pose proof (CreateSync_cases alive y now d) as Hcases;
      rewrite Hx in Hitems, Hcases |- *; cbn [fst snd] in Hitems |- *
  end.
  cbn [api.db api.withDB api.withUuids].
  rewrite !(GetItemByID_items _ _ _ Hitems).
  split; [exact Hg1|]. split.
  { intros Hne. by rewrite (Hg2 Hne). }
  destruct Hcases as [[e He] | (row & _ & Hrow & He)]; injection He as -> ->.
  - split; [done|]. intros _. by rewrite Hy.
  - split; [|done]. intros _.
    apply storedSync_row in Hrow as (cb & ca & Hb & Ha & ->). simpl in Hb, Ha.
    exists cb, ca. by rewrite Hy.
Qed.

Lemma processPlaidTransaction_unlinked now userID itemID txn dek s :
  (forall a, In a (repository.plaid_accounts (api.db s)) ->
     PlaidAccount.PlaidItemID a = itemID -> PlaidAccount.AccountID a = None) ->
  exists e, api.processPlaidTransaction now userID itemID txn dek s = (Some e, s).
Proof.
  intros Hno. unfold api.processPlaidTransaction, repository.GetAccountsByItemID.
  destruct (find _ _) as [acc|] eqn:E.
  - apply find_some in E as [Hin Hf].
    apply list_elem_of_In, list_elem_of_filter in Hin as [Hid Hin%list_elem_of_In].
    rewrite (Hno acc Hin Hid) in Hf |- *.
    eexists. reflexivity.
  - eexists. reflexivity.
Qed.

Lemma processAdded_unlinked now userID itemID added dek n s :
  (forall a, In a (repository.plaid_accounts (api.db s)) ->
     PlaidAccount.PlaidItemID a = itemID -> PlaidAccount.AccountID a = None) ->
  api.processAdded now userID itemID added dek n s = (n, s).
Proof.
  intros Hno. induction added as [|txn rest IH]; [done|]. simpl.
  destruct (processPlaidTransaction_unlinked now userID itemID txn dek s Hno) as [e ->].
  exact IH.
Qed.

(** X20.  An added record is counted only through a link: when no provider
    account of the item is linked to an OwnU account, every 200 answer of
    [syncTransactions] for the item reports an added count of zero,
    whatever the provider delivered. *)
Theorem syncTransactions_unlinked_counts_nothing
    (now : Time) (c : api.SyncRequest.t) (s : api.Server) (itemID : UUID)
    (addedCount modifiedCount removedCount : Z) (hasMore : bool) :
  api.SyncRequest.id c = Some itemID ->
  (forall a, In a (repository.plaid_accounts (api.db s)) ->
     PlaidAccount.PlaidItemID a = itemID -> PlaidAccount.AccountID a = None) ->
  fst (api.syncTransactions now c s)
  = api.JSON api.StatusOK
      (api.SyncTransactionsResponse addedCount modifiedCount removedCount hasMore) ->
  addedCount = 0%Z.
Proof.
  intros Hid Hno.
  destruct (api.syncTransactions now c s) as [r s'] eqn:Heq. simpl fst. intros ->.
  cbv [api.syncTransactions api.run api.bind api.ret api.query api.orFail
       api.respond api.exec api.uuid_New] in Heq.
  rewrite Hid in Heq.
  repeat (step Heq; try (injection Heq as Hr _; discriminate Hr)).
  match goal with
  | Hp : api.processAdded _ _ _ _ _ _ _ = _ |- _ =>
      rewrite processAdded_unlinked in Hp by exact Hno; injection Hp as <- <-
  end.
  by injection Heq as <- _ _ _ _.
Qed.
End SyncMore.

Lemma syncTransactions_changes_only_for_owner_witness :
  let c := Scenario.syncRequest in
  let s := Scenario.syncServer Scenario.provider in
  exists svc userID encryptedDEKB64 itemID item user dek accessToken,
    api.plaidService s = Some svc
    /\ api.SyncRequest.user_id c = Some userID
    /\ api.SyncRequest.encrypted_dek c = Some encryptedDEKB64
    /\ api.SyncRequest.id c = Some itemID
    /\ repository.GetItemByID itemID (api.db s) = Ok item
    /\ PlaidItem.UserID item = userID
    /\ repository.GetByID userID (api.db s) = Ok user
    /\ @api.decryptDEK Ref.cryptoLib encryptedDEKB64 user = Ok dek
    /\ @crypto.Decrypt Ref.cryptoLib (PlaidItem.EncryptedAccessToken item) dek
       = Ok accessToken.
Proof.
  refine (@syncTransactions_changes_only_for_owner Ref.cryptoLib Ref.webAuthnLib
            Ref.encodingLib 77%Z Scenario.syncRequest
            (Scenario.syncServer Scenario.provider) _).
  assert (E : length (repository.plaid_syncs (api.db
                 (snd (@api.syncTransactions Ref.cryptoLib Ref.webAuthnLib Ref.encodingLib
                         77%Z Scenario.syncRequest
                         (Scenario.syncServer Scenario.provider))))) = 1)
    by (vm_compute; reflexivity).
  intros H. rewrite H in E. discriminate E.
Defined.

Lemma syncTransactions_success_witness :
  let now := 77%Z in
  let c := Scenario.syncRequest in
  let s := Scenario.syncServer Scenario.provider in
  let r := fst (@api.syncTransactions Ref.cryptoLib Ref.webAuthnLib Ref.encodingLib
                  now c s) in
  let s' := snd (@api.syncTransactions Ref.cryptoLib Ref.webAuthnLib Ref.encodingLib
                   now c s) in
  exists svc itemID userID item accessToken result addedCount syncID,
    api.plaidService s = Some svc
    /\ api.SyncRequest.id c = Some itemID
    /\ api.SyncRequest.user_id c = Some userID
    /\ repository.GetItemByID itemID (api.db s) = Ok item
    /\ plaid.SyncTransactions svc (string_of_bytes accessToken) (PlaidItem.Cursor item)
       = Ok result
    /\ r = api.JSON api.StatusOK
             (api.SyncTransactionsResponse addedCount
                (Z.of_nat (length (plaid.SyncTransactionsResult.Modified result)))
                (Z.of_nat (length (plaid.SyncTransactionsResult.Removed result)))
                (plaid.SyncTransactionsResult.HasMore result))
    /\ (0 <= addedCount
        <= Z.of_nat (length (plaid.SyncTransactionsResult.Added result)))%Z
    /\ let modifiedCount :=
         Z.of_nat (length (plaid.SyncTransactionsResult.Modified result)) in
       let removedCount :=
         Z.of_nat (length (plaid.SyncTransactionsResult.Removed result)) in
       let nextCursor := plaid.SyncTransactionsResult.NextCursor result in
       let updated := repository.UpdateItemCursor alive itemID nextCursor now (api.db s) in
       let sync := PlaidSync.mk syncID itemID userID addedCount modifiedCount
                     removedCount (PlaidItem.Cursor item) nextCursor EmptyString 0%Z in
       let created := repository.CreateSync alive sync now (snd updated) in
       api.db s' = snd created
       /\ (fst updated = None ->
           exists cursor,
             repository.varchar 255 nextCursor = Ok cursor
             /\ repository.GetItemByID itemID (api.db s')
                = Ok (PlaidItem.withCursor item cursor now))
       /\ (fst updated <> None -> repository.GetItemByID itemID (api.db s') = Ok item)
       /\ (fst created = None ->
           exists cursorBefore cursorAfter,
             repository.varchar 255 (PlaidItem.Cursor item) = Ok cursorBefore
             /\ repository.varchar 255 nextCursor = Ok cursorAfter
             /\ repository.plaid_syncs (api.db s')
                = repository.plaid_syncs (api.db s)
                  ++ [PlaidSync.mk syncID itemID userID addedCount modifiedCount
                        removedCount cursorBefore cursorAfter EmptyString now])
       /\ (fst created <> None ->
           repository.plaid_syncs (api.db s') = repository.plaid_syncs (api.db s)).
Proof.
  refine (@syncTransactions_success Ref.cryptoLib Ref.webAuthnLib Ref.encodingLib
            77%Z Scenario.syncRequest (Scenario.syncServer Scenario.provider) _).
  vm_compute. reflexivity.
Defined.

Lemma syncTransactions_unlinked_counts_nothing_witness :
  (forall a, In a (repository.plaid_accounts (api.db Examples.unlinkedServer)) ->
     PlaidAccount.PlaidItemID a = 9%N -> PlaidAccount.AccountID a = None)
  /\ fst (@api.syncTransactions Ref.cryptoLib Ref.webAuthnLib Ref.encodingLib
            77%Z Scenario.syncRequest Examples.unlinkedServer)
     = api.JSON api.StatusOK (api.SyncTransactionsResponse 0%Z 1%Z 1%Z false)
  /\ 0%Z = 0%Z.
Proof.
  assert (Hno : forall a,
            In a (repository.plaid_accounts (api.db Examples.unlinkedServer)) ->
            PlaidAccount.PlaidItemID a = 9%N -> PlaidAccount.AccountID a = None).
  { intros a [<- | []] _. reflexivity. }
  assert (Hr : fst (@api.syncTransactions Ref.cryptoLib Ref.webAuthnLib Ref.encodingLib
                      77%Z Scenario.syncRequest Examples.unlinkedServer)
               = api.JSON api.StatusOK (api.SyncTransactionsResponse 0%Z 1%Z 1%Z false)).
  { apply sync_response; vm_compute; reflexivity. }
  split; [exact Hno|]. split; [exact Hr|].
  exact (@syncTransactions_unlinked_counts_nothing Ref.cryptoLib Ref.webAuthnLib
           Ref.encodingLib 77%Z Scenario.syncRequest Examples.unlinkedServer 9%N
           0%Z 1%Z 1%Z false eq_refl Hno Hr).
Defined.

(* ===================================================================== *)
(** * The bearer token of a request                                       *)
(* ===================================================================== *)

Lemma splitFrom_blank_step (c : ascii) (s cur : string) :
  splitFrom " " 0 (String c s) cur
  = if Ascii.eqb c " " then cur :: splitFrom " " 0 s EmptyString
    else splitFrom " " 0 s (cur ++ String c EmptyString).
Proof.
  cbn [splitFrom String.prefix String.length Nat.sub].
  destruct (ascii_dec " " c) as [<- | Hne].
  - by destruct s.
  - rewrite (proj2 (Ascii.eqb_neq c " ")); [done|]. by intros ->.
Qed.

Lemma splitFrom_noBlank (s cur : string) :
  noBlank s = true -> splitFrom " " 0 s cur = [(cur ++ s)%string].
Proof.
  revert cur. induction s as [|c s IH]; intros cur H.
  - by rewrite string_app_nil_r.
  - simpl in H. apply andb_true_iff in H as [Hc Hs]. apply negb_true_iff in Hc.
    rewrite splitFrom_blank_step, Hc, IH by done. by rewrite string_app_assoc.
Qed.

Lemma splitFrom_not_nil (sep : string) (k : nat) (s cur : string) :
  splitFrom sep k s cur <> [].
Proof.
  revert k cur. induction s as [|c s IH]; intros k cur; [done|].
  cbn [splitFrom]. destruct k; [|apply IH].
  destruct (String.prefix sep (String c s)); [discriminate | apply IH].
Qed.

Lemma splitFrom_one (s cur x : string) :
  splitFrom " " 0 s cur = [x] -> noBlank s = true /\ x = (cur ++ s)%string.
Proof.
  revert cur. induction s as [|c s IH]; intros cur.
  - simpl. intros [= <-]. by rewrite string_app_nil_r.
  - rewrite splitFrom_blank_step. simpl. destruct (Ascii.eqb c " ") eqn:Hc.
    + intros [= _ H]. by apply splitFrom_not_nil in H.
    + intros [Hs ->]%IH. by rewrite string_app_assoc.
Qed.

Lemma splitFrom_two (s cur a b : string) :
  splitFrom " " 0 s cur = [a; b] ->
  exists a', a = (cur ++ a')%string /\ s = (a' ++ " " ++ b)%string
             /\ noBlank a' = true /\ noBlank b = true.
Proof.
  revert cur. induction s as [|c s IH]; intros cur; [done|].
  rewrite splitFrom_blank_step. destruct (Ascii.eqb c " ") eqn:Hc.
  - apply Ascii.eqb_eq in Hc as ->. intros [= <- [Hs ->]%splitFrom_one].
    exists EmptyString. by rewrite string_app_nil_r.
  - intros (a' & -> & -> & Ha & Hb)%IH. exists (String c a').
    rewrite string_app_assoc. simpl. by rewrite Hc.
Qed.

Section Bearer.
Context {TL : TokenLib}.

(** X21.  [jwtMiddleware] lets a request through exactly when its
    Authorization header is the word Bearer, one space and a token without
    spaces, the token library accepts the token under the server's secret
    at the time of the request, and the user claim parses as a uuid; the
    values it hands on are that uuid and the wrapped-DEK claim.  Every
    answer of the middleware itself is a 401. *)
Theorem jwtMiddleware_passes_iff
    (now : Time) (authHeader : string) (s : api.Server) (userID : UUID) (dek : string) :
  (middleware.jwtMiddleware now authHeader s = inr (userID, dek)
   <-> exists tokenString claims,
         authHeader = ("Bearer " ++ tokenString)%string
         /\ noBlank tokenString = true
         /\ jwt_ParseWithClaims tokenString (bytes_of_string (api.JWTSecret s)) now
            = Ok claims
         /\ uuid_Parse (api.JWTClaims.UserID claims) = Ok userID
         /\ dek = api.JWTClaims.EncryptedDEK claims)
  /\ forall r, middleware.jwtMiddleware now authHeader s = inl r -> echo.Status r = 401%N.
Proof.
  split; [split|].
  - unfold middleware.jwtMiddleware, Split.
    destruct (String.eqb authHeader EmptyString); [done|].
    destruct (splitFrom " " 0 authHeader EmptyString) as [|scheme [|tok [|]]] eqn:E;
      try done.
    destruct (String.eqb scheme "Bearer") eqn:Hs; [|done]. simpl.
    apply String.eqb_eq in Hs as ->.
    apply splitFrom_two in E as (a' & Ha & -> & _ & Htok).
    change (EmptyString ++ a')%string with a' in Ha. subst a'.
    destruct (jwt_ParseWithClaims tok _ now) as [claims|] eqn:Hp; [|done].
    destruct (uuid_Parse _) as [u|] eqn:Hu; [|done].
    intros [= <- <-]. by exists tok, claims.
  - intros (tok & claims & -> & Htok & Hp & Hu & ->).
    unfold middleware.jwtMiddleware, Split.
    change (String.eqb ("Bearer " ++ tok) EmptyString) with false. cbv iota.
    change ("Bearer " ++ tok)%string
      with (String "B" (String "e" (String "a" (String "r" (String "e" (String "r"
             (String " " tok))))))).
    rewrite !splitFrom_blank_step. simpl Ascii.eqb. cbv iota.
    rewrite splitFrom_noBlank by done. cbv beta iota.
    change (EmptyString ++ tok)%string with tok.
    change (negb (String.eqb _ "Bearer")) with false. cbv iota.
    by rewrite Hp, Hu.
  - intros r. unfold middleware.jwtMiddleware.
    repeat match goal with
           | |- context [match ?X with _ => _ end] => destruct X
           end; by intros [= <-].
Qed.
End Bearer.

(* ===================================================================== *)
(** * Handlers that delete                                                *)
(* ===================================================================== *)

Lemma withDB_same (s : api.Server) : api.withDB s (api.db s) = s.
Proof. by destruct s. Qed.

Lemma account_Delete_owned (id userID : UUID) (d : repository.DB) :
  fst (repository.AccountRepository.Delete id userID d) = None ->
  exists acc, In acc (repository.accounts d) /\ Account.ID acc = id
              /\ Account.UserID acc = userID.
Proof.
  destruct (account_Delete_cases id userID d) as [[_ ->] | [E _]]; [done|]. intros _.
  apply existsb_exists in E as (acc & Hin & [E1 E2]%andb_true_iff).
  exists acc. by apply N.eqb_eq in E1, E2.
Qed.

(** X22.  [deleteAccount] removes an account only for its owner.  Every
    answer other than 204 leaves the server state as it was; an account
    that belongs to another user is answered 404, as if it did not exist;
    and after a 204 the account, which belonged to the requester, is gone
    while the users, the credentials and the Plaid items are untouched. *)
Theorem deleteAccount_owner_only (c : api.SyncRequest.t) (s : api.Server) :
  accountsUnique (api.db s) ->
  let r := fst (handlers.deleteAccount c s) in
  let s' := snd (handlers.deleteAccount c s) in
  (echo.Status r <> 204%N -> s' = s)
  /\ (forall userID acc,
        api.SyncRequest.user_id c = Some userID ->
        api.SyncRequest.id c = Some (Account.ID acc) ->
        In acc (repository.accounts (api.db s)) -> Account.UserID acc <> userID ->
        r = echo.errorJSON 404 "account not found" /\ s' = s)
  /\ (echo.Status r = 204%N ->
      exists userID acc,
        api.SyncRequest.user_id c = Some userID
        /\ api.SyncRequest.id c = Some (Account.ID acc)
        /\ In acc (repository.accounts (api.db s))
        /\ Account.UserID acc = userID
        /\ repository.AccountRepository.GetByID (Account.ID acc) (api.db s')
           = Err repository.ErrNotFound
        /\ repository.users (api.db s') = repository.users (api.db s)
        /\ repository.credentials (api.db s') = repository.credentials (api.db s)
        /\ repository.plaid_items (api.db s') = repository.plaid_items (api.db s)).
Proof.
  intros Hu r s'. subst r s'. unfold handlers.deleteAccount. split; [|split].
  - destruct (api.SyncRequest.user_id c) as [userID|]; [|done].
    destruct (api.SyncRequest.id c) as [accountID|]; [|done].
    destruct (account_Delete_cases accountID userID (api.db s)) as [[_ ->] | [_ ->]].
    + simpl. by rewrite withDB_same.
    + done.
  - intros userID acc -> -> Hin Hne.
    rewrite account_Delete_not_owner by done. simpl. by rewrite withDB_same.
  - destruct (api.SyncRequest.user_id c) as [userID|]; [|done].
    destruct (api.SyncRequest.id c) as [accountID|]; [|done].
    pose proof (account_Delete_owned accountID userID (api.db s)) as Hown.
    destruct (repository.AccountRepository.Delete accountID userID (api.db s))
      as [[e|] d] eqn:E.
    { simpl. by destruct (bool_decide (e = repository.ErrNotFound)). }
    destruct (Hown eq_refl) as (acc & Hin & <- & <-). intros _.
    exists (Account.UserID acc), acc. repeat (split; [done|]).
    pose proof (account_Delete_owner acc (api.db s) Hu Hin) as H.
    simpl in H. rewrite E in H. simpl in H. destruct H as (_ & Hget & _).
    split; [exact Hget|].
    destruct (account_Delete_cases (Account.ID acc) (Account.UserID acc) (api.db s))
      as [[_ E'] | [_ E']]; rewrite E' in E; [done|].
    injection E as <-. done.
Qed.

Lemma deleteAccount_owner_only_witness :
  let c := api.SyncRequest.mk (Some 7%N) None (Some 21%N) in
  let s := Scenario.syncServer Scenario.provider in
  let r := fst (handlers.deleteAccount c s) in
  let s' := snd (handlers.deleteAccount c s) in
  exists userID acc,
    api.SyncRequest.user_id c = Some userID
    /\ api.SyncRequest.id c = Some (Account.ID acc)
    /\ In acc (repository.accounts (api.db s))
    /\ Account.UserID acc = userID
    /\ repository.AccountRepository.GetByID (Account.ID acc) (api.db s')
       = Err repository.ErrNotFound
    /\ repository.users (api.db s') = repository.users (api.db s)
    /\ repository.credentials (api.db s') = repository.credentials (api.db s)
    /\ repository.plaid_items (api.db s') = repository.plaid_items (api.db s).
Proof.
  refine (proj2 (proj2 (deleteAccount_owner_only
                          (api.SyncRequest.mk (Some 7%N) None (Some 21%N))
                          (Scenario.syncServer Scenario.provider) _)) _).
  - apply NoDup_singleton.
  - reflexivity.
Defined.

Lemma GetItemByID_In (id : UUID) (item : PlaidItem.t) (d : repository.DB) :
  repository.GetItemByID id d = Ok item ->
  In item (repository.plaid_items d) /\ PlaidItem.ID item = id.
Proof.
  unfold repository.GetItemByID.
  destruct (find _ (repository.plaid_items d)) as [i|] eqn:E; [|done].
  intros [= ->]. apply find_some in E as [Hin E]. by apply N.eqb_eq in E.
Qed.

Lemma GetItemByID_unique (item : PlaidItem.t) (d : repository.DB) :
  itemsUnique d -> In item (repository.plaid_items d) ->
  repository.GetItemByID (PlaidItem.ID item) d = Ok item.
Proof.
  intros Hu Hin. unfold repository.GetItemByID.
  by rewrite (find_unique PlaidItem.ID N.eqb _ item N_eqb_iff Hu Hin).
Qed.

Lemma DeleteItem_refused (id userID : UUID) (d d' : repository.DB) (e : error) :
  repository.DeleteItem id userID d = (Some e, d') -> d' = d.
Proof.
  destruct (DeleteItem_cases id userID d) as [[_ ->] | [_ ->]]; [|done].
  by intros [= _ <-].
Qed.

Section Deleting.
Context {CL : CryptoLib}.

(** X23.  [deletePlaidItem] removes an item only for its owner.  Every
    answer other than 200 leaves the server state as it was; a request for
    another user's item is answered 403 before any key is opened and without
    a call to the provider; and after a 200 the item, which belonged to the
    requester, can no longer be read and has no provider account left. *)
Theorem deletePlaidItem_owner_only (c : api.SyncRequest.t) (s : api.Server) :
  itemsUnique (api.db s) ->
  let r := fst (fst (handlers.deletePlaidItem c s)) in
  let removed := snd (fst (handlers.deletePlaidItem c s)) in
  let s' := snd (handlers.deletePlaidItem c s) in
  (echo.Status r <> 200%N -> s' = s)
  /\ (forall svc userID encryptedDEKB64 item,
        api.plaidService s = Some svc ->
        api.SyncRequest.user_id c = Some userID ->
        api.SyncRequest.encrypted_dek c = Some encryptedDEKB64 ->
        api.SyncRequest.id c = Some (PlaidItem.ID item) ->
        In item (repository.plaid_items (api.db s)) -> PlaidItem.UserID item <> userID ->
        r = echo.errorJSON 403 "access denied" /\ removed = [] /\ s' = s)
  /\ (echo.Status r = 200%N ->
      exists userID item,
        api.SyncRequest.user_id c = Some userID
        /\ api.SyncRequest.id c = Some (PlaidItem.ID item)
        /\ In item (repository.plaid_items (api.db s))
        /\ PlaidItem.UserID item = userID
        /\ repository.GetItemByID (PlaidItem.ID item) (api.db s')
           = Err (wrapError "failed to get plaid item" repository.ErrNoRows)
        /\ repository.GetAccountsByItemID (PlaidItem.ID item) (api.db s') = Ok []
        /\ repository.users (api.db s') = repository.users (api.db s)
        /\ repository.accounts (api.db s') = repository.accounts (api.db s)).
Proof.
  intros Hu r removed s'. subst r removed s'. split; [|split].
  - destruct (handlers.deletePlaidItem c s) as [[r removed] s'] eqn:Heq. simpl.
    intros Hst. unfold handlers.deletePlaidItem in Heq.
    repeat (step Heq; try (by injection Heq as _ _ <-)).
    all: first
      [ by injection Heq as <- _ _; exfalso; apply Hst
      | injection Heq as _ _ <-;
        match goal with
        | Hd : repository.DeleteItem _ _ _ = (Some _, _) |- _ =>
            apply DeleteItem_refused in Hd as ->
        end;
        apply withDB_same ].
  - intros svc userID encryptedDEKB64 item Hsvc Huid Hdek Hid Hin Hne.
    unfold handlers.deletePlaidItem.
    rewrite Hsvc, Huid, Hdek, Hid, GetItemByID_unique by done.
    by rewrite (proj2 (N.eqb_neq _ _) Hne).
  - destruct (handlers.deletePlaidItem c s) as [[r removed] s'] eqn:Heq. simpl.
    intros Hst. unfold handlers.deletePlaidItem in Heq.
    repeat (step Heq; try (injection Heq as <- _ _; discriminate Hst)).
    all: injection Heq as _ _ <-.
    all: match goal with
         | Hg : repository.GetItemByID _ _ = Ok ?it |- _ =>
             apply GetItemByID_In in Hg as [Hin <-]; exists (PlaidItem.UserID it), it
         end.
    all: match goal with
         | Ho : negb (_ =? _)%N = false |- _ =>
             apply negb_false_iff, N.eqb_eq in Ho; rewrite <- Ho in *
         end.
    all: match goal with
         | Hd : repository.DeleteItem (PlaidItem.ID ?it) _ _ = _ |- _ =>
             pose proof (DeleteItem_owner it (api.db s) Hu Hin) as Hdel;
             simpl in Hdel; rewrite Hd in Hdel; simpl in Hdel;
             destruct Hdel as (_ & Hget & Hacc & _);
             destruct (DeleteItem_cases (PlaidItem.ID it) (PlaidItem.UserID it) (api.db s))
               as [[_ Hc] | [_ Hc]]; rewrite Hc in Hd; [done|]; injection Hd as <-
         end.
    all: simpl; repeat (split; [done|]); done.
Qed.

(** X24.  [deleteUserAccount] erases a user only on the exact confirmation
    text.  Every answer other than 200 leaves the server state as it was,
    and any other confirmation is refused without a call to the
    provider; after a 200 no row of any table carries the requester's
    identifier and [GetByID] no longer finds the user. *)
Theorem deleteUserAccount_erases
    (c : api.SyncRequest.t) (body : option string) (s : api.Server) :
  let r := fst (fst (handlers.deleteUserAccount c body s)) in
  let removed := snd (fst (handlers.deleteUserAccount c body s)) in
  let s' := snd (handlers.deleteUserAccount c body s) in
  (echo.Status r <> 200%N -> s' = s)
  /\ (body <> Some "DELETE MY ACCOUNT" ->
      echo.Status r <> 200%N /\ removed = [] /\ s' = s)
  /\ (echo.Status r = 200%N ->
      exists userID,
        api.SyncRequest.user_id c = Some userID
        /\ body = Some "DELETE MY ACCOUNT"
        /\ ~ mentionsUser userID (api.db s')
        /\ repository.GetByID userID (api.db s') = Err repository.ErrNotFound
        /\ api.sessionStore s' = api.sessionStore s).
Proof.
  intros r removed s'. subst r removed s'. split; [|split].
  - destruct (handlers.deleteUserAccount c body s) as [[r removed] s'] eqn:Heq. simpl.
    intros Hst. unfold handlers.deleteUserAccount in Heq.
    destruct (api.SyncRequest.user_id c) as [userID|]; [|by injection Heq as _ _ <-].
    destruct body as [confirmation|]; [|by injection Heq as _ _ <-].
    destruct (negb _); [by injection Heq as _ _ <-|].
    destruct (repository.GetByID userID (api.db s)) as [user|];
      [|by injection Heq as _ _ <-].
    destruct (repository.Delete userID (api.db s)) as [[e|] d] eqn:Hd.
    + injection Heq as _ _ <-. apply Delete_refused in Hd as (_ & -> & _).
      apply withDB_same.
    + injection Heq as <- _ _. by exfalso; apply Hst.
  - intros Hb. unfold handlers.deleteUserAccount.
    destruct (api.SyncRequest.user_id c) as [userID|]; [|done].
    destruct body as [confirmation|]; [|done].
    destruct (String.eqb confirmation "DELETE MY ACCOUNT") eqn:E; [|done].
    apply String.eqb_eq in E. by subst.
  - destruct (handlers.deleteUserAccount c body s) as [[r removed] s'] eqn:Heq. simpl.
    intros Hst. unfold handlers.deleteUserAccount in Heq.
    destruct (api.SyncRequest.user_id c) as [userID|];
      [|injection Heq as <- _ _; discriminate Hst].
    destruct body as [confirmation|]; [|injection Heq as <- _ _; discriminate Hst].
    destruct (String.eqb confirmation "DELETE MY ACCOUNT") eqn:E;
      [|injection Heq as <- _ _; discriminate Hst].
    apply String.eqb_eq in E as ->. simpl in Heq.
    destruct (repository.GetByID userID (api.db s)) as [user|];
      [|injection Heq as <- _ _; discriminate Hst].
    destruct (repository.Delete userID (api.db s)) as [[e|] d] eqn:Hd;
      [injection Heq as <- _ _; discriminate Hst|].
    injection Heq as _ _ <-. apply Delete_forgets in Hd as (Hno & Hget & _).
    exists userID. simpl. done.
Qed.
End Deleting.

Lemma deletePlaidItem_owner_only_witness :
  let c := Scenario.syncRequest in
  let s := Scenario.syncServer Scenario.provider in
  let r := fst (fst (@handlers.deletePlaidItem Ref.cryptoLib c s)) in
  let removed := snd (fst (@handlers.deletePlaidItem Ref.cryptoLib c s)) in
  let s' := snd (@handlers.deletePlaidItem Ref.cryptoLib c s) in
  exists userID item,
    api.SyncRequest.user_id c = Some userID
    /\ api.SyncRequest.id c = Some (PlaidItem.ID item)
    /\ In item (repository.plaid_items (api.db s))
    /\ PlaidItem.UserID item = userID
    /\ repository.GetItemByID (PlaidItem.ID item) (api.db s')
       = Err (wrapError "failed to get plaid item" repository.ErrNoRows)
    /\ repository.GetAccountsByItemID (PlaidItem.ID item) (api.db s') = Ok []
    /\ repository.users (api.db s') = repository.users (api.db s)
    /\ repository.accounts (api.db s') = repository.accounts (api.db s).
Proof.
  refine (proj2 (proj2 (@deletePlaidItem_owner_only Ref.cryptoLib Scenario.syncRequest
                          (Scenario.syncServer Scenario.provider) _)) _).
  - apply NoDup_singleton.
  - vm_compute. reflexivity.
Defined.

Lemma deleteUserAccount_erases_witness :
  let c := Scenario.syncRequest in
  let body := Some "DELETE MY ACCOUNT" in
  let s := Scenario.syncServer Scenario.provider in
  let r := fst (fst (@handlers.deleteUserAccount Ref.cryptoLib c body s)) in
  let removed := snd (fst (@handlers.deleteUserAccount Ref.cryptoLib c body s)) in
  let s' := snd (@handlers.deleteUserAccount Ref.cryptoLib c body s) in
  exists userID,
    api.SyncRequest.user_id c = Some userID
    /\ body = Some "DELETE MY ACCOUNT"
    /\ ~ mentionsUser userID (api.db s')
    /\ repository.GetByID userID (api.db s') = Err repository.ErrNotFound
    /\ api.sessionStore s' = api.sessionStore s.
Proof.
  refine (proj2 (proj2 (@deleteUserAccount_erases Ref.cryptoLib Scenario.syncRequest
                          (Some "DELETE MY ACCOUNT")
                          (Scenario.syncServer Scenario.provider))) _).
  vm_compute. reflexivity.
Defined.

(* ===================================================================== *)
(** * The credential reader                                               *)
(* ===================================================================== *)

Lemma skipn_length_firstn {A : Type} (n : nat) (l : list A) :
  skipn (length (firstn n l)) l = skipn n l.
Proof.
  revert l. induction n as [|n IH]; intros [|x l]; simpl; auto.
Qed.

Lemma readAll_rest (n fuel : nat) (r : credentialReader.t) :
  (0 < n)%nat ->
  (length (credentialReader.data r) - credentialReader.pos r < fuel)%nat ->
  readAll fuel n r = Some (skipn (credentialReader.pos r) (credentialReader.data r)).
Proof.
  intros Hn. revert r. induction fuel as [|fuel IH]; intros [data pos] Hf; [simpl in Hf; lia|].
  simpl in *. unfold credentialReader.Read. simpl.
  destruct (Nat.leb_spec (length data) pos) as [Hle | Hlt].
  - by rewrite skipn_all2.
  - assert (Hc : (0 < length (firstn n (skipn pos data)))%nat).
    { rewrite length_firstn, length_skipn. lia. }
    assert (Hb : (length (firstn n (skipn pos data)) <= length data - pos)%nat).
    { rewrite length_firstn, length_skipn. lia. }
    rewrite IH by (simpl; lia). simpl.
    rewrite Nat.add_comm, <- skipn_skipn, skipn_length_firstn.
    by rewrite firstn_skipn.
Qed.

(** X25.  A [credentialReader] hands out its data once, in order: read to
    the end with a buffer of any positive size, it gives exactly the bytes
    it was made from and then answers [EOF]; and once it has answered
    [EOF] it does so for ever, without moving. *)
Theorem credentialReader_reads_data_once (data : bytes) (n : nat) :
  (0 < n)%nat ->
  readAll (S (length data)) n (credentialReader.mk data 0) = Some data
  /\ forall r m, snd (fst (credentialReader.Read m r)) = Some credentialReader.EOF ->
       credentialReader.Read m r = ([], Some credentialReader.EOF, r)
       /\ forall k, credentialReader.Read k r = ([], Some credentialReader.EOF, r).
Proof.
  intros Hn. split.
  - rewrite readAll_rest by (simpl; lia). done.
  - intros r m. unfold credentialReader.Read.
    destruct (length (credentialReader.data r) <=? credentialReader.pos r)%nat; [done|].
    discriminate.
Qed.

Lemma credentialReader_reads_data_once_witness :
  (0 < 2)%nat
  /\ readAll 6 2 (credentialReader.mk [x01; x02; x03; x04; x05] 0)
     = Some [x01; x02; x03; x04; x05].
Proof.
  split; [lia|].
  exact (proj1 (credentialReader_reads_data_once [x01; x02; x03; x04; x05] 2 ltac:(lia))).
Defined.

(* ===================================================================== *)
(** * The rate limiter                                                    *)
(* ===================================================================== *)

Lemma validRequests_app (a : Time) (l l' : list Time) :
  security.validRequests a (l ++ l')
  = security.validRequests a l ++ security.validRequests a l'.
Proof. apply filter_app. Qed.

Lemma validRequests_later (a b : Time) (l : list Time) :
  (a <= b)%Z ->
  security.validRequests b (security.validRequests a l) = security.validRequests b l.
Proof.
  intros Hab. unfold security.validRequests. induction l as [|t l IH]; [done|].
  rewrite !filter_cons. destruct (decide (a < t)%Z) as [Ha | Ha].
  - rewrite filter_cons. destruct (decide (b < t)%Z); [f_equal|]; exact IH.
  - destruct (decide (b < t)%Z); [lia | exact IH].
Qed.

Lemma validRequests_moved (a b : Time) (l l' : list Time) :
  (a <= b)%Z ->
  security.validRequests a l = security.validRequests a l' ->
  security.validRequests b l = security.validRequests b l'.
Proof.
  intros Hab H.
  by rewrite <- (validRequests_later a b l), <- (validRequests_later a b l'), H.
Qed.

Lemma timesOf_app (key : string) (adm adm' : list (string * Time)) :
  timesOf key (adm ++ adm') = timesOf key adm ++ timesOf key adm'.
Proof. unfold timesOf. by rewrite List.filter_app, map_app. Qed.

Lemma timesOf_same (key : string) (now : Time) : timesOf key [(key, now)] = [now].
Proof. unfold timesOf. simpl. by rewrite bool_decide_eq_true_2. Qed.

Lemma timesOf_other (key key' : string) (now : Time) :
  key' <> key -> timesOf key [(key', now)] = [].
Proof. intros H. unfold timesOf. simpl. by rewrite bool_decide_eq_false_2. Qed.

Lemma inWindow_recent (window : Z) (key : string) (now : Time)
    (adm : list (string * Time)) :
  Forall (fun a => (snd a <= now)%Z) adm ->
  map snd (inWindow window key now adm)
  = security.validRequests (now - window)%Z (timesOf key adm).
Proof.
  unfold inWindow, timesOf, security.validRequests.
  induction 1 as [|[k t] adm Ht _ IH]; [done|]. simpl in *.
  destruct (bool_decide (k = key)); simpl; [|done].
  rewrite filter_cons. rewrite (proj2 (Z.leb_le t now) Ht), andb_true_r.
  destruct (Z.ltb_spec (now - window) t).
  - rewrite decide_True by done. simpl. by rewrite IH.
  - by rewrite decide_False by lia.
Qed.

Lemma inWindow_within (window : Z) (key : string) (t now : Time)
    (adm : list (string * Time)) :
  Forall (fun a => (snd a <= now)%Z) adm -> (now <= t)%Z ->
  (length (inWindow window key t adm)
   <= length (security.validRequests (now - window)%Z (timesOf key adm)))%nat.
Proof.
  intros Hp Ht. rewrite <- inWindow_recent by done. rewrite length_map.
  unfold inWindow. induction Hp as [|[k x] adm Hx _ IH]; [done|]. simpl in *.
  destruct (bool_decide (k = key)); simpl; [|done].
  rewrite (proj2 (Z.leb_le x now) Hx), andb_true_r.
  destruct (Z.ltb_spec (t - window) x); simpl.
  - destruct (Z.leb_spec x t); [|lia]. simpl.
    destruct (Z.ltb_spec (now - window) x); [|lia]. simpl. lia.
  - destruct (now - window <? x)%Z; simpl; lia.
Qed.

Lemma remembers_step (limit window : Z) (T : Time)
    (st : list (string * Time) * security.RateLimiter.t) (c : call) :
  remembers limit window T st -> (T <= clock c)%Z ->
  remembers limit window (clock c) (serve1 st c).
Proof.
  destruct st as [adm [reqs lim win]].
  intros (Hl & Hw & Hp & Hs) HT. simpl in *. subst lim win.
  assert (Hp' : Forall (fun a => (snd a <= clock c)%Z) adm).
  { eapply Forall_impl; [exact Hp|]. simpl. intros. lia. }
  destruct c as [realIP now | now]; simpl in *.
  - unfold security.RateLimitMiddleware, security.Allow. simpl.
    destruct (limit <=? _)%Z; simpl.
    + repeat split; try done;
      cbn [fst snd security.RateLimiter.requests security.RateLimiter.limit
             security.RateLimiter.window]. intros key.
      destruct (decide (key = realIP)) as [-> | Hne].
      * rewrite lookup_insert_eq. simpl.
        rewrite validRequests_later by lia.
        apply (validRequests_moved (T - window)%Z); [lia | apply Hs].
      * rewrite lookup_insert_ne by done.
        apply (validRequests_moved (T - window)%Z); [lia | apply Hs].
    + repeat split; try done;
      cbn [fst snd security.RateLimiter.requests security.RateLimiter.limit
             security.RateLimiter.window].
      * apply Forall_app. split; [done|]. by constructor.
      * intros key. rewrite timesOf_app, validRequests_app.
        destruct (decide (key = realIP)) as [-> | Hne].
        -- rewrite lookup_insert_eq, timesOf_same. simpl.
           rewrite validRequests_app, validRequests_later by lia.
           f_equal. apply (validRequests_moved (T - window)%Z); [lia | apply Hs].
        -- rewrite lookup_insert_ne, timesOf_other, app_nil_r by done.
           apply (validRequests_moved (T - window)%Z); [lia | apply Hs].
  - repeat split; try done;
      cbn [fst snd security.RateLimiter.requests security.RateLimiter.limit
             security.RateLimiter.window]. intros key. unfold security.cleanup. simpl.
    rewrite lookup_omap.
    transitivity (security.validRequests (now - window)%Z (default [] (reqs !! key))).
    + destruct (reqs !! key) as [l|]; simpl; [|done].
      destruct (security.validRequests (now - window)%Z l) as [|t v] eqn:E; simpl; [done|].
      rewrite <- E. apply validRequests_later. lia.
    + apply (validRequests_moved (T - window)%Z); [lia | apply Hs].
Qed.

Lemma remembers_later (limit window : Z) (T T' : Time)
    (st : list (string * Time) * security.RateLimiter.t) :
  remembers limit window T st -> (T <= T')%Z -> remembers limit window T' st.
Proof.
  intros (Hl & Hw & Hp & Hs) HT. repeat split; try done.
  - eapply Forall_impl; [exact Hp|]. simpl. intros. lia.
  - intros key. apply (validRequests_moved (T - window)%Z); [lia | apply Hs].
Qed.

Lemma remembers_run (limit window : Z) (calls : list call) (T T' : Time)
    (st : list (string * Time) * security.RateLimiter.t) :
  remembers limit window T st -> nondecreasing (T :: map clock calls ++ [T']) ->
  remembers limit window T' (fold_left serve1 calls st).
Proof.
  revert T st. induction calls as [|c calls IH]; intros T st Hr Hn.
  - simpl in *. apply (remembers_later limit window T); [done | lia].
  - destruct Hn as [HT Hn]. simpl.
    apply (IH (clock c)); [by apply (remembers_step limit window T) | done].
Qed.

Lemma remembers_new (limit window : Z) (T : Time) :
  remembers limit window T ([], security.NewRateLimiter limit window).
Proof. repeat split; try done. Qed.

Lemma remembers_serve (limit window : Z) (calls : list call) (T : Time) :
  nondecreasing (map clock calls ++ [T]) ->
  remembers limit window T (serve calls (security.NewRateLimiter limit window)).
Proof.
  intros Hn. destruct calls as [|c calls].
  - apply remembers_new.
  - apply (remembers_run limit window (c :: calls) (clock c)); [apply remembers_new|].
    split; [simpl; lia | done].
Qed.

Lemma nondecreasing_last (ts : list Time) (a b : Time) :
  nondecreasing (ts ++ [a; b]) -> (a <= b)%Z.
Proof.
  induction ts as [|t ts IH]; simpl; [tauto|].
  destruct (ts ++ [a; b]) eqn:E; [by destruct ts|]. tauto.
Qed.

Lemma nondecreasing_front (ts ts' : list Time) :
  nondecreasing (ts ++ ts') -> nondecreasing ts.
Proof.
  induction ts as [|a ts IH]; [done|]. destruct ts as [|b ts]; [done|].
  simpl. intros [H1 H2]. split; [done|]. by apply IH.
Qed.

Lemma RateLimitMiddleware_cases (limit window : Z) (realIP : string) (now : Time)
    (st : list (string * Time) * security.RateLimiter.t) :
  remembers limit window now st ->
  fst (security.RateLimitMiddleware realIP now (snd st))
  = if (limit <=? Z.of_nat (length (inWindow window realIP now (fst st))))%Z
    then Some (echo.errorJSON 429 "rate limit exceeded") else None.
Proof.
  intros (Hl & Hw & Hp & Hs). destruct st as [adm rl]. simpl in *.
  unfold security.RateLimitMiddleware, security.Allow.
  rewrite Hl, Hw, Hs, <- inWindow_recent, length_map by done.
  by destruct (limit <=? _)%Z.
Qed.

Lemma inWindow_app (window : Z) (key : string) (t : Time)
    (adm adm' : list (string * Time)) :
  inWindow window key t (adm ++ adm')
  = inWindow window key t adm ++ inWindow window key t adm'.
Proof. apply List.filter_app. Qed.

(** X26.  [RateLimitMiddleware] lets a request through exactly when fewer
    than [limit] requests of the same address were let through in the
    window that ends now, whatever traffic and cleanup ticks came before,
    as long as the clock never ran backwards. *)
Theorem RateLimitMiddleware_admits_iff (limit window : Z) (calls : list call)
    (realIP : string) (now : Time) :
  nondecreasing (map clock (calls ++ [request realIP now])) ->
  let st := serve calls (security.NewRateLimiter limit window) in
  (fst (security.RateLimitMiddleware realIP now (snd st)) = None
   <-> (Z.of_nat (length (inWindow window realIP now (fst st))) < limit)%Z)
  /\ (fst (security.RateLimitMiddleware realIP now (snd st))
      = Some (echo.errorJSON 429 "rate limit exceeded")
      <-> (limit <= Z.of_nat (length (inWindow window realIP now (fst st))))%Z).
Proof.
  intros Hn st. subst st. rewrite map_app in Hn. simpl in Hn.
  rewrite (RateLimitMiddleware_cases limit window)
    by by apply remembers_serve.
  destruct (Z.leb_spec limit
              (Z.of_nat (length (inWindow window realIP now
                 (fst (serve calls (security.NewRateLimiter limit window)))))));
    split; split; intros; (done || lia).
Qed.

Lemma RateLimitMiddleware_admits_iff_witness :
  let calls := [request "10.0.0.1" 0; request "10.0.0.1" 10; tick 60;
                request "10.0.0.2" 61; request "10.0.0.1" 62]%Z in
  let st := serve calls (security.NewRateLimiter 2 60) in
  fst (security.RateLimitMiddleware "10.0.0.1" 63%Z (snd st))
  = Some (echo.errorJSON 429 "rate limit exceeded")
  <-> (2 <= Z.of_nat (length (inWindow 60 "10.0.0.1" 63%Z (fst st))))%Z.
Proof.
  refine (proj2 (RateLimitMiddleware_admits_iff 2 60
                   [request "10.0.0.1" 0; request "10.0.0.1" 10; tick 60;
                    request "10.0.0.2" 61; request "10.0.0.1" 62]%Z
                   "10.0.0.1" 63%Z _)).
  simpl. lia.
Defined.

(** X27.  The limiter keeps its promise over every window, not only the
    ones that end at a request: of the requests of one address that were
    let through, never more than [limit] (none, for a limit that is not
    positive) fall in any stretch of [window], whatever the traffic and the
    cleanup ticks, as long as the clock never ran backwards. *)
Theorem RateLimiter_never_exceeds_limit (limit window : Z) (calls : list call)
    (key : string) (t : Time) :
  nondecreasing (map clock calls) ->
  (Z.of_nat (length (inWindow window key t
                       (fst (serve calls (security.NewRateLimiter limit window)))))
   <= Z.max 0 limit)%Z.
Proof.
  induction calls as [|c calls IH] using rev_ind; intros Hn; [simpl; lia|].
  rewrite map_app in Hn. simpl in Hn.
  pose proof (IH (nondecreasing_front _ _ Hn)) as Hb.
  pose proof (remembers_serve limit window calls (clock c) Hn) as Hr.
  unfold serve in *. rewrite fold_left_app. simpl.
  destruct c as [realIP now | now]; simpl in *; [|done].
  pose proof (RateLimitMiddleware_cases limit window realIP now _ Hr) as Hc.
  destruct Hr as (_ & _ & Hp & _).
  destruct (security.RateLimitMiddleware realIP now _) as [[r|] rl']; simpl in *; [done|].
  destruct (Z.leb_spec limit
              (Z.of_nat (length (inWindow window realIP now
                 (fst (fold_left serve1 calls ([], security.NewRateLimiter limit window)))))))
    as [Hge | Hlt]; [done|].
  rewrite inWindow_app, length_app.
  unfold inWindow at 2. simpl.
  destruct (bool_decide_reflect (realIP = key)) as [-> | Hne]; simpl; [|lia].
  destruct (Z.ltb_spec (t - window) now); simpl; [|lia].
  destruct (Z.leb_spec now t); simpl; [|lia].
  pose proof (inWindow_within window key t now _ Hp ltac:(lia)) as Hw.
  rewrite <- inWindow_recent, length_map in Hw by done. lia.
Qed.

Lemma RateLimiter_never_exceeds_limit_witness :
  (Z.of_nat (length (inWindow 60 "10.0.0.1" 65%Z
       (fst (serve [request "10.0.0.1" 0; request "10.0.0.1" 10; tick 60;
                    request "10.0.0.2" 61; request "10.0.0.1" 62;
                    request "10.0.0.1" 63]%Z
               (security.NewRateLimiter 2 60)))))
   <= Z.max 0 2)%Z.
Proof.
  refine (RateLimiter_never_exceeds_limit 2 60
            [request "10.0.0.1" 0; request "10.0.0.1" 10; tick 60;
             request "10.0.0.2" 61; request "10.0.0.1" 62;
             request "10.0.0.1" 63]%Z "10.0.0.1" 65%Z _).
  simpl. lia.
Defined.

(* ===================================================================== *)
(** * Security headers                                                    *)
(* ===================================================================== *)

(** X28.  [buildHSTSValue] does not write the max-age as a number: it
    converts it to a rune and the rune to text.  For every max-age above
    the last Unicode code point and below 2^31, so from thirteen days on,
    the header is
    [max-age=] followed by the replacement character U+FFFD and the
    flags. *)
Theorem buildHSTSValue_replacement_character (config : security.SecurityConfig.t) :
  (1114111 < security.SecurityConfig.HSTSMaxAge config < 2147483648)%Z ->
  security.buildHSTSValue config
  = ("max-age=" ++ RuneError
     ++ (if security.SecurityConfig.HSTSIncludeSubdomains config
         then "; includeSubDomains" else EmptyString)
     ++ (if security.SecurityConfig.HSTSPreload config then "; preload" else EmptyString))%string.
Proof.
  intros H. unfold security.buildHSTSValue.
  assert (Hr : rune (security.SecurityConfig.HSTSMaxAge config)
               = security.SecurityConfig.HSTSMaxAge config).
  { unfold rune. rewrite Z.mod_small by lia. lia. }
  rewrite Hr. unfold string_of_rune.
  destruct (Z.ltb_spec (security.SecurityConfig.HSTSMaxAge config) 0); [lia|].
  destruct (Z.ltb_spec 1114111 (security.SecurityConfig.HSTSMaxAge config)); [|lia].
  simpl.
  by destruct (security.SecurityConfig.HSTSIncludeSubdomains config),
              (security.SecurityConfig.HSTSPreload config).
Qed.

Lemma buildHSTSValue_replacement_character_witness :
  security.buildHSTSValue security.DefaultSecurityConfig
  = ("max-age=" ++ RuneError ++ "; includeSubDomains")%string.
Proof.
  refine (buildHSTSValue_replacement_character security.DefaultSecurityConfig _).
  simpl. lia.
Defined.

(* ===================================================================== *)
(** * The audit log                                                       *)
(* ===================================================================== *)

Lemma selected_matches (filter : audit.QueryFilter.t) (e : audit.Event.t) :
  audit.selected filter e = true <-> matches filter e.
Proof.
  unfold audit.selected, matches, IsZero.
  rewrite !andb_true_iff, !negb_true_iff, !andb_false_iff, !negb_false_iff.
  rewrite !String.eqb_eq, !Z.eqb_eq, !Z.ltb_ge. tauto.
Qed.

Lemma List_filter_sublist {A : Type} (f : A -> bool) (l : list A) :
  sublist (List.filter f l) l.
Proof.
  induction l as [|x l IH]; simpl; [constructor|].
  destruct (f x); by constructor.
Qed.

(** X29.  [Log] keeps the newest events: the buffer afterwards is the end
    of the old buffer followed by the event, cut to the last 10000; the
    event is stored with an identifier and a time filled in where it had
    none, and it is this completed event whose line goes to the file. *)
Theorem Log_keeps_newest (marshal : audit.Event.t -> result bytes) (now : Time)
    (id : UUID) (event : audit.Event.t) (l : audit.FileLogger) :
  let l' := audit.Log marshal now id event l in
  exists (e : audit.Event.t) (dropped : list audit.Event.t),
    audit.events l ++ [e] = dropped ++ audit.events l'
    /\ Z.of_nat (length (audit.events l'))
       = Z.min audit.maxEvents (Z.of_nat (length (audit.events l)) + 1)
    /\ audit.Event.ID e
       = (if String.eqb (audit.Event.ID event) EmptyString then UUID_String id
          else audit.Event.ID event)
    /\ audit.Event.Timestamp e
       = (if (audit.Event.Timestamp event =? 0)%Z then now
          else audit.Event.Timestamp event)
    /\ audit.Event.Type_ e = audit.Event.Type_ event
    /\ audit.Event.UserID e = audit.Event.UserID event
    /\ audit.Event.Outcome e = audit.Event.Outcome event
    /\ audit.file l'
       = match marshal e with
         | Ok data => audit.file l ++ [data ++ [x0a]]
         | Err _ => audit.file l
         end.
Proof.
  intros l'. subst l'. unfold audit.Log, IsZero.
  set (e1 := if String.eqb (audit.Event.ID event) EmptyString then _ else _).
  set (e := if (audit.Event.Timestamp e1 =? 0)%Z then _ else _).
  set (all := audit.events l ++ [e]).
  set (kept := if (audit.maxEvents <? Z.of_nat (length all))%Z then _ else _).
  exists e, (firstn (length all - length kept) all).
  assert (Hlen : length all = S (length (audit.events l))).
  { unfold all. rewrite length_app. simpl. lia. }
  assert (Hk : kept = skipn (length all - length kept) all
               /\ Z.of_nat (length kept)
                  = Z.min audit.maxEvents (Z.of_nat (length (audit.events l)) + 1)).
  { unfold kept, audit.maxEvents.
    destruct (Z.ltb_spec 10000 (Z.of_nat (length all))) as [Hgt | Hle].
    - rewrite length_skipn. split; [f_equal; lia | lia].
    - rewrite Nat.sub_diag. simpl. split; [done | lia]. }
  destruct Hk as [Hk1 Hk2].
  assert (He : audit.events
                 match marshal e with
                 | Ok data => audit.mkFileLogger (audit.file l ++ [data ++ [x0a]]) kept
                 | Err _ => audit.mkFileLogger (audit.file l) kept
                 end = kept) by (by destruct (marshal e)).
  rewrite He. split; [rewrite Hk1 at 2; by rewrite firstn_skipn|].
  split; [done|].
  assert (H1 : audit.Event.ID e1
               = (if String.eqb (audit.Event.ID event) EmptyString then UUID_String id
                  else audit.Event.ID event)
               /\ audit.Event.Timestamp e1 = audit.Event.Timestamp event
               /\ audit.Event.Type_ e1 = audit.Event.Type_ event
               /\ audit.Event.UserID e1 = audit.Event.UserID event
               /\ audit.Event.Outcome e1 = audit.Event.Outcome event).
  { unfold e1. by destruct (String.eqb (audit.Event.ID event) EmptyString). }
  destruct H1 as (Hi & Ht & Hty & Hu & Ho).
  rewrite <- Hi, <- Ht, <- Hty, <- Hu, <- Ho.
  unfold e. destruct (Z.eqb_spec (audit.Event.Timestamp e1) 0) as [Hz | Hz]; simpl.
  - repeat split; try done. by destruct (marshal _).
  - repeat split; try done. by destruct (marshal _).
Qed.

(** X30.  [Query] answers with events of the buffer, in the order of the
    buffer, each of which passes the filter; a positive limit bounds the
    answer; without limit and offset every passing event is in the answer;
    and an offset at or past the number of passing events is not applied,
    so that the answer is the one for offset 0. *)
Theorem Query_answers (filter : audit.QueryFilter.t) (l : audit.FileLogger) :
  exists results,
    audit.Query filter l = Ok results
    /\ sublist results (audit.events l)
    /\ (forall e, In e results -> matches filter e)
    /\ ((0 < audit.QueryFilter.Limit filter)%Z ->
        (Z.of_nat (length results) <= audit.QueryFilter.Limit filter)%Z)
    /\ ((audit.QueryFilter.Limit filter <= 0)%Z ->
        (audit.QueryFilter.Offset filter <= 0)%Z ->
        forall e, In e (audit.events l) -> matches filter e -> In e results)
    /\ ((Z.of_nat (length (List.filter (audit.selected filter) (audit.events l)))
         <= audit.QueryFilter.Offset filter)%Z ->
        audit.Query filter l
        = audit.Query
            (audit.QueryFilter.mk (audit.QueryFilter.UserID filter)
               (audit.QueryFilter.Type_ filter) (audit.QueryFilter.StartTime filter)
               (audit.QueryFilter.EndTime filter) (audit.QueryFilter.Limit filter) 0) l).
Proof.
  unfold audit.Query.
  set (all := List.filter (audit.selected filter) (audit.events l)).
  set (paged := if (_ && _)%bool then skipn _ all else all).
  set (results := if (_ && _)%bool then firstn _ paged else paged).
  assert (Hp : sublist paged all).
  { unfold paged.
    match goal with |- context [if ?b then _ else _] => destruct b end;
      [apply sublist_drop | done]. }
  assert (Hr : sublist results paged).
  { unfold results.
    match goal with |- context [if ?b then _ else _] => destruct b end;
      [apply sublist_take | done]. }
  exists results. split; [done|]. split; [|split; [|split; [|split]]].
  - etransitivity; [exact Hr|]. etransitivity; [exact Hp|]. apply List_filter_sublist.
  - intros e He. apply selected_matches.
    assert (Hin : In e all).
    { apply list_elem_of_In. eapply elem_of_sublist; [by apply list_elem_of_In|].
      by etransitivity. }
    by apply filter_In in Hin as [_ Hin].
  - intros Hl. unfold results.
    destruct (Z.ltb_spec 0 (audit.QueryFilter.Limit filter)); [|lia]. simpl.
    destruct (Z.ltb_spec (audit.QueryFilter.Limit filter) (Z.of_nat (length paged)));
      [|lia].
    rewrite length_firstn. lia.
  - intros Hl Ho e He Hm. unfold results, paged.
    destruct (Z.ltb_spec 0 (audit.QueryFilter.Limit filter)); [lia|].
    destruct (Z.ltb_spec 0 (audit.QueryFilter.Offset filter)); [lia|]. simpl.
    apply filter_In. split; [done|]. by apply selected_matches.
  - intros Ho. unfold results, paged. simpl.
    fold all.
    destruct (Z.ltb_spec (audit.QueryFilter.Offset filter) (Z.of_nat (length all)));
      [lia|].
    rewrite andb_false_r. simpl. done.
Qed.
